(** * blaz-cli, [src/builder.js]: the compilation request pipeline

    A shallow embedding of [generate_settings], [handleBuildResult] and
    [work_on_json], and of their callers [auto_detect], [build],
    [handle_build_info_task] and [handle_multi_build], over a model of the
    JavaScript values these functions handle (parsed JSON documents), and
    the properties of the pipeline that its specification states.

    Conventions of the embedding.
    - A JavaScript string is a [string] whose characters are its UTF-16 code
      units; only code units below 256 are represented.
    - A number is an integer ([Z]) that a double holds exactly; the other
      doubles are not represented.  The text of a number is its decimal
      expansion, which is the one of [JSON.stringify] for magnitudes below
      10^21.
    - An object is the list of its own enumerable properties in the order
      [Object.entries] reports them: array-index keys in ascending numeric
      order, then the other keys in insertion order.
    - Properties inherited from the built-in prototypes are not represented:
      a member that is not an own property reads as [undefined].  JavaScript
      reads a value under the keys of [Object.prototype] ([Spec.inherited]):
      a statement that rests on a key of a document being read without being
      owned excludes these keys.
    - An assignment creates or updates an own property.  Under the key
      ['__proto__'] JavaScript runs the setter of [Object.prototype] and
      creates none: a statement about an object that is built under keys
      taken from a document excludes this key ([Spec.assignable]).
    - Writing a file succeeds.  In JavaScript the write of line 262 fails
      when ['.tmp'] is a regular file ([existsSync] is true of it and no
      directory is made): a statement about a request that goes past that
      line excludes such a world.
    - A file holds its text, as [fs.readFileSync(path, 'utf8')] returns it.
    - The clock is not represented: [handleBuildResult] is taken without
      its parameter [starting], and the elapsed times that it prints are
      left out of what the console records.
    - The collaborators ([get_ast], [get_invariants], the shell behind
      [exec], [checkSolcSelectInstalled]) are parameters; [await] on their
      results is sequential composition. *)

From Stdlib Require Import ZArith NArith List Ascii String Bool DecimalString.
From stdpp Require Import gmap strings.

Local Open Scope string_scope.
Local Open Scope list_scope.

(** ** JavaScript values *)

Module Js.

#[local] Unset Elimination Schemes.
Inductive value : Type :=
| VUndefined
| VNull
| VBool (b : bool)
| VNum (n : Z)
| VStr (s : string)
| VArr (elems : list value) (props : list (string * value))
| VObj (props : list (string * value)).
#[local] Set Elimination Schemes.

(** What a [throw] carries.  [FsError path] is the error of a file-system
    call on [path], [Raised v] a value thrown by a collaborator.
    [Unrepresented] is not a JavaScript exception: it marks an execution
    that has left the values this embedding represents (see the
    conventions above). *)
Inductive exn : Type :=
| TypeError
| ReferenceError (name : string)
| SyntaxError
| FsError (path : string)
| Raised (v : value)
| Unrepresented.

Inductive completion (A : Type) : Type :=
| Return (a : A)
| Throw (e : exn).
Arguments Return {A} a.
Arguments Throw {A} e.

Definition cbind {A B} (c : completion A) (k : A -> completion B) : completion B :=
  match c with
  | Return a => k a
  | Throw e => Throw e
  end.

Notation "'do' x <- c ; k" := (cbind c (fun x => k))
  (at level 10, x name, c at level 100, k at level 200).

(** *** Property keys *)

Definition is_digit (c : ascii) : bool :=
  (48 <=? nat_of_ascii c)%nat && (nat_of_ascii c <=? 57)%nat.

Fixpoint digits_value (s : string) (acc : N) : option N :=
  match s with
  | EmptyString => Some acc
  | String c r =>
      if is_digit c
      then digits_value r (10 * acc + N.of_nat (nat_of_ascii c - 48))%N
      else None
  end.

(** [array_index k] is [Some n] when [k] is the canonical decimal text of an
    integer [n < 2^32 - 1]: such keys are enumerated first, in numeric
    order. *)
Definition array_index (k : string) : option N :=
  match k with
  | EmptyString => None
  | String c r =>
      if (Ascii.eqb c "0" && negb (String.eqb r ""))%bool then None
      else match digits_value k 0%N with
           | Some n => if (n <? 4294967295)%N then Some n else None
           | None => None
           end
  end.

Definition index_key (n : nat) : string :=
  NilZero.string_of_uint (N.to_uint (N.of_nat n)).

(** *** Ordinary objects: own properties in enumeration order *)

Definition object := list (string * value).

Fixpoint obj_get (o : object) (k : string) : option value :=
  match o with
  | [] => None
  | (k', v) :: r => if String.eqb k' k then Some v else obj_get r k
  end.

Definition obj_has (o : object) (k : string) : bool :=
  match obj_get o k with Some _ => true | None => false end.

Fixpoint obj_update (o : object) (k : string) (v : value) : object :=
  match o with
  | [] => []
  | (k', v') :: r =>
      if String.eqb k' k then (k', v) :: r else (k', v') :: obj_update r k v
  end.

Fixpoint obj_add_index (o : object) (n : N) (k : string) (v : value) : object :=
  match o with
  | [] => [(k, v)]
  | (k', v') :: r =>
      match array_index k' with
      | Some n' =>
          if (n' <? n)%N then (k', v') :: obj_add_index r n k v
          else (k, v) :: o
      | None => (k, v) :: o
      end
  end.

(** [o[k] = v] on an ordinary object. *)
Definition obj_set (o : object) (k : string) (v : value) : object :=
  if obj_has o k then obj_update o k v
  else match array_index k with
       | Some n => obj_add_index o n k v
       | None => o ++ [(k, v)]
       end.

(** *** Member access *)

Fixpoint chars (s : string) : list value :=
  match s with
  | EmptyString => []
  | String c r => VStr (String c EmptyString) :: chars r
  end.

Definition elem_or_undefined (l : list value) (n : N) : value :=
  nth (N.to_nat n) l VUndefined.

(** [v[k]] as an rvalue. *)
Definition get (v : value) (k : string) : completion value :=
  match v with
  | VUndefined | VNull => Throw TypeError
  | VBool _ | VNum _ => Return VUndefined
  | VStr s =>
      match array_index k with
      | Some n => Return (elem_or_undefined (chars s) n)
      | None =>
          if String.eqb k "length" then Return (VNum (Z.of_nat (String.length s)))
          else Return VUndefined
      end
  | VArr l p =>
      match array_index k with
      | Some n => Return (elem_or_undefined l n)
      | None =>
          if String.eqb k "length" then Return (VNum (Z.of_nat (length l)))
          else Return (default VUndefined (obj_get p k))
      end
  | VObj o => Return (default VUndefined (obj_get o k))
  end.

(** [v[k] = x]; the result is the target after the write.  The module is
    not in strict mode, so the write to a primitive is silently dropped.  On
    an array the key is taken to be a named property: the targets that can
    be arrays are written with the literal keys ['outputSelection'],
    ['source'] and ['settings'] only (lines 113, 140, 259); every other
    write of the program goes to an object it has just created. *)
Definition set_member (v : value) (k : string) (x : value) : completion value :=
  match v with
  | VUndefined | VNull => Throw TypeError
  | VBool _ | VNum _ | VStr _ => Return v
  | VArr l p => Return (VArr l (obj_set p k x))
  | VObj o => Return (VObj (obj_set o k x))
  end.

Fixpoint list_update {A} (l : list A) (n : nat) (x : A) : list A :=
  match l, n with
  | [], _ => []
  | _ :: r, O => x :: r
  | a :: r, S m => a :: list_update r m x
  end.

(** The container [v] after the object it holds under [k] has been mutated
    into [x]: objects are held by reference, so the change is seen through
    every path that leads to them.  Documents are trees (they come out of
    [JSON.parse] or of object literals), so the path is unique.  Nothing is
    created: a slot that does not exist is left alone. *)
Definition seen_through (v : value) (k : string) (x : value) : value :=
  match v with
  | VArr l p =>
      match array_index k with
      | Some n => VArr (list_update l (N.to_nat n) x) p
      | None => if String.eqb k "length" then v else VArr l (obj_update p k x)
      end
  | VObj o => VObj (obj_update o k x)
  | _ => v
  end.

Fixpoint indexed (n : nat) (l : list value) : object :=
  match l with
  | [] => []
  | v :: r => (index_key n, v) :: indexed (S n) r
  end.

(** [Object.entries(v)]. *)
Definition entries (v : value) : completion object :=
  match v with
  | VUndefined | VNull => Throw TypeError
  | VBool _ | VNum _ => Return []
  | VStr s => Return (indexed 0 (chars s))
  | VArr l p => Return (indexed 0 l ++ p)
  | VObj o => Return o
  end.

(** The values a [for (... of v)] loop visits. *)
Definition iterate (v : value) : completion (list value) :=
  match v with
  | VArr l _ => Return l
  | VStr s => Return (chars s)
  | _ => Throw TypeError
  end.

Definition truthy (v : value) : bool :=
  match v with
  | VUndefined | VNull => false
  | VBool b => b
  | VNum n => negb (n =? 0)%Z
  | VStr s => negb (String.eqb s "")
  | VArr _ _ | VObj _ => true
  end.

(** [v === s] for a string [s]. *)
Definition is_string (v : value) (s : string) : bool :=
  match v with
  | VStr s' => String.eqb s' s
  | _ => false
  end.

(** [k === v] for a property key [k] (always a string). *)
Definition key_is (k : string) (v : value) : bool := is_string v k.

(** [arr.push(x)]; a value without a [push] method is not callable. *)
Definition array_push (arr : value) (x : value) : completion value :=
  match arr with
  | VArr l p => Return (VArr (l ++ [x]) p)
  | _ => Throw TypeError
  end.

(** [{ ...target, ...src }]: the own properties of [src] copied onto
    [target]. *)
Definition spread (target : object) (src : value) : object :=
  match src with
  | VUndefined | VNull | VBool _ | VNum _ => target
  | VStr s => fold_left (fun o kv => obj_set o (fst kv) (snd kv)) (indexed 0 (chars s)) target
  | VArr l p => fold_left (fun o kv => obj_set o (fst kv) (snd kv)) (indexed 0 l ++ p) target
  | VObj o' => fold_left (fun o kv => obj_set o (fst kv) (snd kv)) o' target
  end.

End Js.

(** ** [crypto.createHash('md5').update(s).digest('hex')] *)

Module Md5.

Local Open Scope N_scope.

Definition w32 (x : N) : N := x mod 4294967296.

Definition rotl (x c : N) : N :=
  w32 (N.lor (N.shiftl x c) (N.shiftr x (32 - c))).

Definition not32 (x : N) : N := N.lxor x 4294967295.

Definition K : list N :=
  [ 3614090360; 3905402710; 606105819; 3250441966; 4118548399; 1200080426; 2821735955; 4249261313;
    1770035416; 2336552879; 4294925233; 2304563134; 1804603682; 4254626195; 2792965006; 1236535329;
    4129170786; 3225465664; 643717713; 3921069994; 3593408605; 38016083; 3634488961; 3889429448;
    568446438; 3275163606; 4107603335; 1163531501; 2850285829; 4243563512; 1735328473; 2368359562;
    4294588738; 2272392833; 1839030562; 4259657740; 2763975236; 1272893353; 4139469664; 3200236656;
    681279174; 3936430074; 3572445317; 76029189; 3654602809; 3873151461; 530742520; 3299628645;
    4096336452; 1126891415; 2878612391; 4237533241; 1700485571; 2399980690; 4293915773; 2240044497;
    1873313359; 4264355552; 2734768916; 1309151649; 4149444226; 3174756917; 718787259; 3951481745 ].

Definition shifts : list N :=
  [ 7; 12; 17; 22; 7; 12; 17; 22; 7; 12; 17; 22; 7; 12; 17; 22;
    5; 9; 14; 20; 5; 9; 14; 20; 5; 9; 14; 20; 5; 9; 14; 20;
    4; 11; 16; 23; 4; 11; 16; 23; 4; 11; 16; 23; 4; 11; 16; 23;
    6; 10; 15; 21; 6; 10; 15; 21; 6; 10; 15; 21; 6; 10; 15; 21 ].

Record state := St { sa : N; sb : N; sc : N; sd : N }.

Definition init : state := St 1732584193 4023233417 2562383102 271733878.

(** The mixing function and the message word index of step [i]. *)
Definition mix (i : nat) (b c d : N) : N * nat :=
  if (i <? 16)%nat then (N.lor (N.land b c) (N.land (not32 b) d), i)
  else if (i <? 32)%nat then (N.lor (N.land d b) (N.land (not32 d) c), (5 * i + 1) mod 16)%nat
  else if (i <? 48)%nat then (N.lxor (N.lxor b c) d, (3 * i + 5) mod 16)%nat
  else (N.lxor c (N.lor b (not32 d)), (7 * i) mod 16)%nat.

Definition step (m : list N) (s : state) (i : nat) : state :=
  let '(f, g) := mix i (sb s) (sc s) (sd s) in
  let f' := w32 (f + sa s + nth i K 0 + nth g m 0) in
  St (sd s) (w32 (sb s + rotl f' (nth i shifts 0))) (sb s) (sc s).

Definition compress (s : state) (m : list N) : state :=
  let s' := fold_left (step m) (seq 0 64) s in
  St (w32 (sa s + sa s')) (w32 (sb s + sb s')) (w32 (sc s + sc s')) (w32 (sd s + sd s')).

(** Little-endian words of a byte list. *)
Fixpoint le_words (n : nat) (bytes : list N) : list N :=
  match n with
  | O => []
  | S n' =>
      match bytes with
      | b0 :: b1 :: b2 :: b3 :: r =>
          (b0 + 256 * (b1 + 256 * (b2 + 256 * b3))) :: le_words n' r
      | _ => []
      end
  end.

Fixpoint le_bytes (n : nat) (x : N) : list N :=
  match n with
  | O => []
  | S n' => (x mod 256) :: le_bytes n' (x / 256)
  end.

Definition pad (bytes : list N) : list N :=
  let len := length bytes in
  let zeros := ((119 - len mod 64) mod 64)%nat in
  bytes ++ [128] ++ repeat 0 zeros ++ le_bytes 8 ((8 * N.of_nat len) mod 18446744073709551616).

Fixpoint blocks (n : nat) (s : state) (words : list N) : state :=
  match n with
  | O => s
  | S n' =>
      match words with
      | [] => s
      | _ => blocks n' (compress s (firstn 16 words)) (skipn 16 words)
      end
  end.

Definition hex_digit (n : N) : ascii :=
  ascii_of_N (if n <? 10 then 48 + n else 87 + n).

Definition hex_byte (b : N) : string :=
  String (hex_digit (b / 16)) (String (hex_digit (b mod 16)) EmptyString).

Definition hex (bytes : list N) : string :=
  fold_right (fun b acc => hex_byte b +:+ acc) "" bytes.

Definition digest (bytes : list N) : list N :=
  let p := pad bytes in
  let s := blocks (length p) init (le_words (length p) p) in
  le_bytes 4 (sa s) ++ le_bytes 4 (sb s) ++ le_bytes 4 (sc s) ++ le_bytes 4 (sd s).

(** [update(s)] hashes the UTF-8 encoding of the string. *)
Fixpoint utf8 (s : string) : list N :=
  match s with
  | EmptyString => []
  | String c r =>
      let u := N_of_ascii c in
      if u <? 128 then u :: utf8 r
      else (192 + u / 64) :: (128 + u mod 64) :: utf8 r
  end.

Definition md5_hex (s : string) : string := hex (digest (utf8 s)).

End Md5.

(** ** [JSON.stringify] and [JSON.parse] *)

Module Json.
Import Js.

Definition dquote : ascii := ascii_of_nat 34.
Definition backslash : ascii := ascii_of_nat 92.
Definition str1 (c : ascii) : string := String c EmptyString.

Definition hex2 (n : N) : string := Md5.hex_byte n.

(** QuoteJSONString: the two-character escapes, [\u00xx] for the other
    control characters, every other code unit as it is. *)
Definition escape_char (c : ascii) : string :=
  let u := N_of_ascii c in
  if (u =? 34)%N then String backslash (str1 dquote)
  else if (u =? 92)%N then String backslash (str1 backslash)
  else if (u =? 8)%N then String backslash "b"
  else if (u =? 9)%N then String backslash "t"
  else if (u =? 10)%N then String backslash "n"
  else if (u =? 12)%N then String backslash "f"
  else if (u =? 13)%N then String backslash "r"
  else if (u <? 32)%N then String backslash ("u00" +:+ hex2 u)
  else str1 c.

Fixpoint escape (s : string) : string :=
  match s with
  | EmptyString => EmptyString
  | String c r => escape_char c +:+ escape r
  end.

Definition quote (s : string) : string :=
  String dquote (escape s +:+ str1 dquote).

Definition number_text (n : Z) : string := NilZero.string_of_int (Z.to_int n).

Fixpoint join (sep : string) (l : list string) : string :=
  match l with
  | [] => ""
  | [x] => x
  | x :: r => x +:+ sep +:+ join sep r
  end.

(** [JSON.stringify(v)]: [None] is the result [undefined].  An [undefined]
    array element prints as [null], an [undefined] property is left out, the
    named properties of an array are not printed. *)
Fixpoint stringify (v : value) : option string :=
  match v with
  | VUndefined => None
  | VNull => Some "null"
  | VBool b => Some (if b then "true" else "false")
  | VNum n => Some (number_text n)
  | VStr s => Some (quote s)
  | VArr l _ =>
      let texts :=
        (fix elems (l : list value) : list string :=
           match l with
           | [] => []
           | x :: r => default "null" (stringify x) :: elems r
           end) l in
      Some ("[" +:+ join "," texts +:+ "]")
  | VObj o =>
      let texts :=
        (fix members (o : list (string * value)) : list string :=
           match o with
           | [] => []
           | (k, x) :: r =>
               match stringify x with
               | Some t => (quote k +:+ ":" +:+ t) :: members r
               | None => members r
               end
           end) o in
      Some ("{" +:+ join "," texts +:+ "}")
  end.

(** *** Parsing *)

Inductive parsed (A : Type) : Type :=
| Parsed (a : A)
| Invalid
| Unrepresented.
Arguments Parsed {A} a.
Arguments Invalid {A}.
Arguments Unrepresented {A}.

Definition pbind {A B} (p : parsed A) (k : A -> parsed B) : parsed B :=
  match p with
  | Parsed a => k a
  | Invalid => Invalid
  | Unrepresented => Unrepresented
  end.

Notation "'parse' x <- p ; k" := (pbind p (fun x => k))
  (at level 10, x name, p at level 100, k at level 200).
Notation "'parse' ( x , y ) <- p ; k" := (pbind p (fun xy => let '(x, y) := xy in k))
  (at level 10, x name, y name, p at level 100, k at level 200).

Definition is_ws (c : ascii) : bool :=
  let u := N_of_ascii c in
  ((u =? 32) || (u =? 9) || (u =? 10) || (u =? 13))%N.

Fixpoint skip_ws (s : string) : string :=
  match s with
  | String c r => if is_ws c then skip_ws r else s
  | EmptyString => s
  end.

Definition hex_value (c : ascii) : option N :=
  let u := N_of_ascii c in
  if ((48 <=? u) && (u <=? 57))%N then Some (u - 48)%N
  else if ((97 <=? u) && (u <=? 102))%N then Some (u - 87)%N
  else if ((65 <=? u) && (u <=? 70))%N then Some (u - 55)%N
  else None.

Definition code_unit (h1 h2 h3 h4 : ascii) : parsed ascii :=
  match hex_value h1, hex_value h2, hex_value h3, hex_value h4 with
  | Some a, Some b, Some c, Some d =>
      if ((a =? 0) && (b =? 0))%N then Parsed (ascii_of_N (16 * c + d))
      else Unrepresented
  | _, _, _, _ => Invalid
  end.

Definition simple_escape (e : ascii) : option ascii :=
  let u := N_of_ascii e in
  if (u =? 34)%N then Some dquote
  else if (u =? 92)%N then Some backslash
  else if (u =? 47)%N then Some (ascii_of_nat 47)
  else if (u =? 98)%N then Some (ascii_of_nat 8)
  else if (u =? 102)%N then Some (ascii_of_nat 12)
  else if (u =? 110)%N then Some (ascii_of_nat 10)
  else if (u =? 114)%N then Some (ascii_of_nat 13)
  else if (u =? 116)%N then Some (ascii_of_nat 9)
  else None.

(** The characters of a string literal after its opening quote, and the
    text that follows the closing quote. *)
Fixpoint string_body (s : string) : parsed (string * string) :=
  match s with
  | EmptyString => Invalid
  | String c r =>
      if Ascii.eqb c dquote then Parsed (EmptyString, r)
      else if Ascii.eqb c backslash then
        match r with
        | String e r' =>
            if Ascii.eqb e "u" then
              match r' with
              | String h1 (String h2 (String h3 (String h4 r''))) =>
                  parse u <- code_unit h1 h2 h3 h4;
                  parse (t, rest) <- string_body r'';
                  Parsed (String u t, rest)
              | _ => Invalid
              end
            else
              match simple_escape e with
              | Some u =>
                  parse (t, rest) <- string_body r';
                  Parsed (String u t, rest)
              | None => Invalid
              end
        | EmptyString => Invalid
        end
      else if (N_of_ascii c <? 32)%N then Invalid
      else
        parse (t, rest) <- string_body r;
        Parsed (String c t, rest)
  end.

Fixpoint digits (s : string) (acc : N) : N * string :=
  match s with
  | String c r =>
      if is_digit c then digits r (10 * acc + (N_of_ascii c - 48))%N
      else (acc, s)
  | EmptyString => (acc, s)
  end.

Definition starts_fraction (s : string) : bool :=
  match s with
  | String c _ => Ascii.eqb c "." || Ascii.eqb c "e" || Ascii.eqb c "E"
  | EmptyString => false
  end.

(** An integer literal; a fraction, an exponent or a magnitude beyond
    [2^53] would need the double it denotes. *)
Definition number (negative : bool) (s : string) : parsed (value * string) :=
  match s with
  | String c r =>
      if is_digit c then
        let '(n, rest) :=
          if Ascii.eqb c "0" then (0%N, r) else digits s 0%N in
        if starts_fraction rest then Unrepresented
        else if (9007199254740992 <? n)%N then Unrepresented
        else Parsed (VNum (if negative then - Z.of_N n else Z.of_N n), rest)
      else Invalid
  | EmptyString => Invalid
  end.

Definition keyword (kw : string) (v : value) (s : string) : parsed (value * string) :=
  if String.prefix kw s
  then Parsed (v, String.substring (String.length kw) (String.length s - String.length kw) s)
  else Invalid.

Definition expect (c : ascii) (s : string) : parsed string :=
  match s with
  | String c' r => if Ascii.eqb c c' then Parsed r else Invalid
  | EmptyString => Invalid
  end.

Fixpoint value_at (fuel : nat) (s : string) : parsed (value * string) :=
  match fuel with
  | O => Invalid
  | S fuel' =>
      match skip_ws s with
      | EmptyString => Invalid
      | String c r =>
          if Ascii.eqb c "{" then
            match skip_ws r with
            | String c' r' =>
                if Ascii.eqb c' "}" then Parsed (VObj [], r')
                else members_at fuel' (skip_ws r) []
            | EmptyString => Invalid
            end
          else if Ascii.eqb c "[" then
            match skip_ws r with
            | String c' r' =>
                if Ascii.eqb c' "]" then Parsed (VArr [] [], r')
                else elements_at fuel' (skip_ws r) []
            | EmptyString => Invalid
            end
          else if Ascii.eqb c dquote then
            parse (t, rest) <- string_body r;
            Parsed (VStr t, rest)
          else if Ascii.eqb c "-" then number true r
          else if is_digit c then number false (String c r)
          else if Ascii.eqb c "t" then keyword "true" (VBool true) (String c r)
          else if Ascii.eqb c "f" then keyword "false" (VBool false) (String c r)
          else if Ascii.eqb c "n" then keyword "null" VNull (String c r)
          else Invalid
      end
  end

with elements_at (fuel : nat) (s : string) (acc : list value) : parsed (value * string) :=
  match fuel with
  | O => Invalid
  | S fuel' =>
      parse (v, rest) <- value_at fuel' s;
      match skip_ws rest with
      | String c r =>
          if Ascii.eqb c "," then elements_at fuel' r (acc ++ [v])
          else if Ascii.eqb c "]" then Parsed (VArr (acc ++ [v]) [], r)
          else Invalid
      | EmptyString => Invalid
      end
  end

with members_at (fuel : nat) (s : string) (acc : object) : parsed (value * string) :=
  match fuel with
  | O => Invalid
  | S fuel' =>
      parse r0 <- expect dquote (skip_ws s);
      parse (k, rest) <- string_body r0;
      parse r1 <- expect ":" (skip_ws rest);
      parse (v, rest') <- value_at fuel' r1;
      match skip_ws rest' with
      | String c r =>
          if Ascii.eqb c "," then members_at fuel' r (obj_set acc k v)
          else if Ascii.eqb c "}" then Parsed (VObj (obj_set acc k v), r)
          else Invalid
      | EmptyString => Invalid
      end
  end.

(** [JSON.parse(text)].  Every recursive call follows the consumption of a
    character, so the length of the text bounds the depth of the
    recursion. *)
Definition parse_text (text : string) : parsed value :=
  parse (v, rest) <- value_at (String.length text + 1) text;
  match skip_ws rest with
  | EmptyString => Parsed v
  | String _ _ => Invalid
  end.

End Json.

(** ** The builder *)

Module Builder.
Import Js.

(** *** The world: files, console, collaborators *)

Inductive event : Type :=
| ConsoleLog (args : list value)
| ConsoleInfo (args : list value)
| ConsoleError (e : exn)
| GetAst (output : value)
| GetInvariants (ast_tree : value)
| Exec (command : string).

Record world : Type := World {
  files : gmap string string;
  dirs : gset string;
  trace : list event
}.

Definition M (A : Type) : Type := world -> completion A * world.

Definition ret {A} (a : A) : M A := fun w => (Return a, w).
Definition throw {A} (e : exn) : M A := fun w => (Throw e, w).
Definition lift {A} (c : completion A) : M A := fun w => (c, w).

Definition bind {A B} (m : M A) (k : A -> M B) : M B :=
  fun w =>
    match m w with
    | (Return a, w') => k a w'
    | (Throw e, w') => (Throw e, w')
    end.

Notation "'run' x <- m ; k" := (bind m (fun x => k))
  (at level 10, x name, m at level 100, k at level 200).
Notation "'val' x <- c ; k" := (bind (lift c) (fun x => k))
  (at level 10, x name, c at level 100, k at level 200).

Definition emit (e : event) : M unit :=
  fun w => (Return tt, World (files w) (dirs w) (trace w ++ [e])).

(** The elapsed times that lines 143 and 147 print after their label are
    readings of the clock; the record of the console keeps the label. *)
Definition console_log (args : list value) : M unit := emit (ConsoleLog args).
Definition console_info (args : list value) : M unit := emit (ConsoleInfo args).
Definition console_error (e : exn) : M unit := emit (ConsoleError e).

Definition existsSync (path : string) : M bool :=
  fun w => (Return (bool_decide (path ∈ dirs w) || bool_decide (is_Some (files w !! path))), w).

Definition mkdirSync (path : string) : M unit :=
  fun w => (Return tt, World (files w) ({[path]} ∪ dirs w) (trace w)).

Definition writeFileSync (path text : string) : M unit :=
  fun w => (Return tt, World (<[path := text]> (files w)) (dirs w) (trace w)).

Definition readFileSync (path : string) : M string :=
  fun w =>
    match files w !! path with
    | Some text => (Return text, w)
    | None => (Throw (FsError path), w)
    end.

Definition JSON_parse (text : string) : completion value :=
  match Json.parse_text text with
  | Json.Parsed v => Return v
  | Json.Invalid => Throw SyntaxError
  | Json.Unrepresented => Throw Unrepresented
  end.

(** [JSON.stringify(v)] used as a string argument: [update(undefined)] and
    [writeFileSync(path, undefined)] both reject their argument. *)
Definition JSON_stringify (v : value) : completion string :=
  match Json.stringify v with
  | Some text => Return text
  | None => Throw TypeError
  end.

(** *** Loops *)

Fixpoint for_of {A} (l : list A) (body : A -> M unit) : M unit :=
  match l with
  | [] => ret tt
  | x :: r => run _ <- body x; for_of r body
  end.

(** A loop whose body updates the variable [acc]. *)
Fixpoint loop {A B} (l : list A) (body : B -> A -> completion B) (acc : B) : completion B :=
  match l with
  | [] => Return acc
  | x :: r => do acc' <- body acc x; loop r body acc'
  end.

(** *** [generate_settings] (lines 111-128) *)

(** [basic['outputSelection']['*'][contract_key].push(selector)]: the array
    is reached through [basic], which sees the new element. *)
Definition push_selector (basic : value) (contract_key selector : string) : completion value :=
  do selection <- get basic "outputSelection";
  do per_file <- get selection "*";
  do selectors <- get per_file contract_key;
  do selectors' <- array_push selectors (VStr selector);
  Return (seen_through basic "outputSelection"
            (seen_through selection "*"
               (seen_through per_file contract_key selectors'))).

Definition generate_settings (original : value) : completion value :=
  let basic := match original with VUndefined => VObj [] | _ => original end in
  do basic <- set_member basic "outputSelection"
                (VObj [("*", VObj [("*", VArr [] []); ("", VArr [] [])])]);
  do basic <- push_selector basic "*" "ast";
  do basic <- push_selector basic "*" "legacyAST";
  do basic <- push_selector basic "" "ast";
  do basic <- push_selector basic "" "legacyAST";
  do basic <- push_selector basic "*" "evm.deployedBytecode.sourceMap";
  do basic <- push_selector basic "*" "evm.bytecode";
  do basic <- push_selector basic "*" "evm.deployedBytecode";
  do basic <- push_selector basic "*" "abi";
  Return basic.

(** *** [handleBuildResult] (lines 130-248) *)

(** [output?.errors || []] *)
Definition errors_of (output : value) : completion value :=
  do errors <- match output with
               | VUndefined | VNull => Return VUndefined
               | _ => get output "errors"
               end;
  Return (if truthy errors then errors else VArr [] []).

(** Lines 131-137.  Neither [resolve] nor [err] is bound in the scope of
    [handleBuildResult] or of the module ([resolve] is a parameter of the
    executor at line 251): the call at line 134 raises a [ReferenceError]
    when it evaluates its callee, and line 135 is not reached. *)
Definition scan_errors (output : value) : M unit :=
  val errors <- errors_of output;
  val items <- iterate errors;
  for_of items (fun error =>
    val severity <- get error "severity";
    if is_string severity "error" then
      val message <- get error "formattedMessage";
      run _ <- console_log [message];
      throw (ReferenceError "resolve")
    else ret tt).

(** Line 140, [output['sources'][fn]['source'] = contract['content']]. *)
Definition merge_source (output : value) (entry : string * value) : completion value :=
  let '(fn, contract) := entry in
  do sources <- get output "sources";
  do record <- get sources fn;
  do content <- get contract "content";
  do record' <- set_member record "source" content;
  Return (seen_through output "sources" (seen_through sources fn record')).

(** Lines 139-141. *)
Definition merge_sources (output compiler_json : value) : completion value :=
  do input_sources <- get compiler_json "sources";
  do input_entries <- entries input_sources;
  loop input_entries merge_source output.

(** The four members of a contract that lines 155-230 extract. *)
Definition source_map_of (contract_info : value) : completion value :=
  do evm <- get contract_info "evm";
  do deployed <- get evm "deployedBytecode";
  get deployed "sourceMap".

Definition bytecode_of (contract_info : value) : completion value :=
  do evm <- get contract_info "evm";
  do creation <- get evm "bytecode";
  get creation "object".

Definition runtime_bytecode_of (contract_info : value) : completion value :=
  do evm <- get contract_info "evm";
  do deployed <- get evm "deployedBytecode";
  get deployed "object".

Definition abi_of (contract_info : value) : completion value :=
  get contract_info "abi".

(** The test and the assignment of lines 160-162 (179-181, 198-200,
    217-219). *)
Definition keep_match (member : value -> completion value) (contract_name : value)
    (found : value) (contract_entry : string * value) : completion value :=
  let '(_contract_name, contract_info) := contract_entry in
  if key_is _contract_name contract_name then member contract_info else Return found.

(** The inner loop, over the contracts of a file. *)
Definition scan_file (member : value -> completion value) (contract_name : value)
    (found : value) (file_entry : string * value) : completion value :=
  let '(fn, contract) := file_entry in
  do contract_entries <- entries contract;
  loop contract_entries (keep_match member contract_name) found.

(** The loop with a filter (lines 158-164, 177-183, 196-202, 215-221). *)
Definition extract_one (member : value -> completion value)
    (output contract_name : value) : completion value :=
  do contracts <- get output "contracts";
  do file_entries <- entries contracts;
  loop file_entries (scan_file member contract_name) VNull.

(** Line 170 (189, 208, 227), [table[fn][contract_name] = member]: the row
    is the object that line 168 has put under [fn]. *)
Definition fill_cell (member : value -> completion value) (fn : string)
    (table : value) (contract_entry : string * value) : completion value :=
  let '(contract_name, contract_info) := contract_entry in
  do item <- member contract_info;
  do row <- get table fn;
  do row' <- set_member row contract_name item;
  Return (seen_through table fn row').

(** Lines 168-171: a new row under [fn], and the inner loop. *)
Definition fill_row (member : value -> completion value)
    (table : value) (file_entry : string * value) : completion value :=
  let '(fn, contract) := file_entry in
  do table <- set_member table fn (VObj []);
  do contract_entries <- entries contract;
  loop contract_entries (fill_cell member fn) table.

(** The loop without a filter (lines 166-172, 185-191, 204-210, 223-229). *)
Definition extract_all (member : value -> completion value)
    (output : value) : completion value :=
  do contracts <- get output "contracts";
  do file_entries <- entries contracts;
  loop file_entries (fill_row member) (VObj []).

Definition extract (member : value -> completion value)
    (output contract_name : value) : completion value :=
  if truthy contract_name
  then extract_one member output contract_name
  else extract_all member output.

(** Lines 235-238. *)
Definition project_source (table : value) (source_entry : string * value)
  : completion value :=
  let '(fn, contract) := source_entry in
  do id <- get contract "id";
  do source <- get contract "source";
  set_member table fn (VObj [("id", id); ("source", source)]).

(** Lines 231-239. *)
Definition project_sources (output : value) : completion value :=
  do sources <- get output "sources";
  do source_entries <- entries sources;
  loop source_entries project_source (VObj []).

(** Lines 155-247: the extractions, the sources, the provenance, and the
    object that is returned. *)
Definition build_result (output compiler_version compiler_json contract_name
                         ast invariants : value) : completion value :=
  do sourcemap <- extract source_map_of output contract_name;
  do bytecode <- extract bytecode_of output contract_name;
  do runtime_bytecode <- extract runtime_bytecode_of output contract_name;
  do abi <- extract abi_of output contract_name;
  do sources <- project_sources output;
  let compiler_args :=
    VObj [("version", compiler_version); ("compiler_json", compiler_json)] in
  Return (VObj [("ast", ast); ("sourcemap", sourcemap); ("sources", sources);
                ("bytecode", bytecode); ("runtime_bytecode", runtime_bytecode);
                ("abi", abi); ("invariants", invariants);
                ("compiler_args", compiler_args)]).

(** *** The version number (lines 267-275) *)

Fixpoint take_digits (s : string) : string * string :=
  match s with
  | String c r =>
      if is_digit c then let '(d, rest) := take_digits r in (String c d, rest)
      else (EmptyString, s)
  | EmptyString => (EmptyString, s)
  end.

Definition after_dot (s : string) : option string :=
  match s with
  | String c r => if Ascii.eqb c "." then Some r else None
  | EmptyString => None
  end.

(** [\d+\.\d+\.\d+] at the start of [s]: the text it matches.  A digit
    is never a dot, so each greedy [\d+] keeps all the digits it finds. *)
Definition three_numbers (s : string) : option string :=
  let '(major, r1) := take_digits s in
  if String.eqb major "" then None else
  match after_dot r1 with
  | None => None
  | Some r1' =>
      let '(minor, r2) := take_digits r1' in
      if String.eqb minor "" then None else
      match after_dot r2 with
      | None => None
      | Some r2' =>
          let '(patch, _) := take_digits r2' in
          if String.eqb patch "" then None
          else Some (major +:+ "." +:+ minor +:+ "." +:+ patch)
      end
  end.

(** [compiler_version.match(/v(\d+\.\d+\.\d+)/)], first group of the
    leftmost match. *)
Fixpoint version_number (compiler_version : string) : option string :=
  match compiler_version with
  | EmptyString => None
  | String c r =>
      if Ascii.eqb c "v" then
        match three_numbers r with
        | Some number => Some number
        | None => version_number r
        end
      else version_number r
  end.

(** *** The subprocess *)

Record exec_result : Type := ExecResult {
  exec_failed : bool;
  exec_stdout : string;
  exec_stderr : string;
  exec_files : gmap string string
}.

(** What a promise comes to: fulfilled with the value given to [resolve],
    or never settled because the [async] function that was to call
    [resolve] threw [e] (its rejection is unhandled). *)
Inductive promise : Type :=
| Fulfilled (v : value)
| NeverSettled (e : exn).

Section Collaborators.

(** [get_ast] and [get_invariants] come from [./ast]: each either returns
    a value or throws, as a function of its argument.  [shell] is the
    system behind [child_process.exec]: what a command line does to the
    files, and how it ends.  [checkSolcSelectInstalled] comes from
    [./utils]. *)
Variable get_ast : value -> completion value.
Variable get_invariants : value -> completion value.
Variable shell : string -> gmap string string -> exec_result.
Variable checkSolcSelectInstalled : bool.

Definition call_get_ast (output : value) : M value :=
  run _ <- emit (GetAst output);
  lift (get_ast output).

(** Lines 148-153. *)
Definition try_get_invariants (ast_tree : value) : M value :=
  run _ <- emit (GetInvariants ast_tree);
  match get_invariants ast_tree with
  | Return invariants => ret invariants
  | Throw e => run _ <- console_error e; ret VNull
  end.

Definition handleBuildResult (output compiler_version compiler_json contract_name : value)
  : M value :=
  run _ <- scan_errors output;
  val output <- merge_sources output compiler_json;
  run _ <- console_info [VStr "Compiling took"];
  run analysis <- call_get_ast output;
  val ast <- get analysis "ast";
  val ast_tree <- get analysis "ast_tree";
  run _ <- console_log [VStr "Analyzing AST took"];
  run invariants <- try_get_invariants ast_tree;
  lift (build_result output compiler_version compiler_json contract_name ast invariants).

Definition nl : string := String (ascii_of_nat 10) EmptyString.

(** The command line of lines 281-283. *)
Definition select_and_compile (versionNumber currentFile outputJson : string) : string :=
  nl +:+ "                solc-select use " +:+ versionNumber +:+ " --always-install && " +:+ nl
  +:+ "                solc --standard-json < " +:+ currentFile +:+ " > " +:+ outputJson.

(** The command line of lines 311-313. *)
Definition install_select_and_compile (versionNumber currentFile outputJson : string) : string :=
  "pip3 install solc-select &&" +:+ nl
  +:+ "                    solc-select use " +:+ versionNumber +:+ " --always-install && " +:+ nl
  +:+ "                    solc --standard-json < " +:+ currentFile +:+ " > " +:+ outputJson.

Definition exec (command : string) : M exec_result :=
  fun w =>
    let r := shell command (files w) in
    (Return r, World (exec_files r) (dirs w) (trace w ++ [Exec command])).

(** Lines 293-306, 323-336 and 341-348, after the file has been read:
    parse the output document, normalize it, and give [resolve] the
    result. *)
Definition normalize_and_resolve (text : string)
    (compiler_version compiler_json contract_name : value) : M value :=
  val output <- JSON_parse text;
  run result <- handleBuildResult output compiler_version compiler_json contract_name;
  val settings <- get compiler_json "settings";
  val remappings <- get settings "remappings";
  ret (VObj (spread [("success", VBool true); ("remappings", remappings)] result)).

Definition read_and_normalize (outputJson : string)
    (compiler_version compiler_json contract_name : value) : M value :=
  run text <- readFileSync outputJson;
  normalize_and_resolve text compiler_version compiler_json contract_name.

(** Lines 284-307 and 314-337, the callback of [exec]. *)
Definition after_exec (r : exec_result) (outputJson : string)
    (compiler_version compiler_json contract_name : value) : M value :=
  if exec_failed r then
    run _ <- console_log [VStr "Error loading solc"; VStr (exec_stderr r)];
    ret (VObj [("success", VBool false); ("err", VStr (exec_stderr r))])
  else
    run _ <- console_log [VStr (exec_stdout r)];
    read_and_normalize outputJson compiler_version compiler_json contract_name.

(** Line 257: the digest of the document as it was received. *)
Definition contractHash (compiler_json : value) : completion string :=
  do text <- JSON_stringify compiler_json;
  Return (Md5.md5_hex text).

(** Lines 258 and 276. *)
Definition currentFile (hash : string) : string :=
  ".tmp/compile_config_" +:+ hash +:+ ".json".

Definition outputJson (hash : string) : string :=
  ".tmp/compile_output_" +:+ hash +:+ ".json".

(** Line 259: [generate_settings] changes the settings object in place,
    and the assignment puts it (back) under ['settings'].  The assignment to
    the undeclared [original] in the argument makes a global variable, the
    module not being in strict mode, and has the value assigned. *)
Definition augment (compiler_json : value) : completion value :=
  do original <- get compiler_json "settings";
  do settings <- generate_settings original;
  set_member compiler_json "settings" settings.

(** Lines 253-263: the digest, and the input document after line 259. *)
Definition cache_input (compiler_json : value) : M (string * value) :=
  run tmp <- existsSync ".tmp";
  run _ <- (if tmp then ret tt else mkdirSync ".tmp");
  val hash <- contractHash compiler_json;
  val compiler_json <- augment compiler_json;
  run written <- existsSync (currentFile hash);
  run _ <- (if written then ret tt
            else val text <- JSON_stringify compiler_json;
                 writeFileSync (currentFile hash) text);
  ret (hash, compiler_json).

(** Lines 267-275; in a template, [undefined] prints as its name. *)
Definition find_version (compiler_version : string) : M string :=
  match version_number compiler_version with
  | Some versionNumber =>
      run _ <- console_log [VStr "Found version number"; VStr versionNumber];
      ret versionNumber
  | None =>
      run _ <- console_log [VStr "Could not find version number"];
      ret "undefined"
  end.

(** The executor of the promise (lines 251-350): its result is the value
    given to [resolve]. *)
Definition executor (compiler_version : string) (compiler_json contract_name : value)
  : M value :=
  run cached <- cache_input compiler_json;
  let '(hash, compiler_json) := cached in
  run versionNumber <- find_version compiler_version;
  run compiled <- existsSync (outputJson hash);
  if compiled then
    read_and_normalize (outputJson hash) (VStr compiler_version) compiler_json contract_name
  else
    let command :=
      if checkSolcSelectInstalled
      then select_and_compile versionNumber (currentFile hash) (outputJson hash)
      else install_select_and_compile versionNumber (currentFile hash) (outputJson hash) in
    run r <- exec command;
    after_exec r (outputJson hash) (VStr compiler_version) compiler_json contract_name.

Definition work_on_json (compiler_version : string) (compiler_json contract_name : value)
    (w : world) : promise * world :=
  match executor compiler_version compiler_json contract_name w with
  | (Return v, w') => (Fulfilled v, w')
  | (Throw e, w') => (NeverSettled e, w')
  end.

End Collaborators.

End Builder.

(** * Vocabulary of the specification *)

Module Spec.
Import Js Builder.

(** ** Settings *)

(** The selectors that [settings] requests for the contracts [contract] of
    the files [file]. *)
Definition requested (settings : value) (file contract : string) : completion value :=
  do selection <- get settings "outputSelection";
  do per_file <- get selection file;
  get per_file contract.

Definition per_contract_selectors : list value :=
  [VStr "ast"; VStr "legacyAST"; VStr "evm.deployedBytecode.sourceMap";
   VStr "evm.bytecode"; VStr "evm.deployedBytecode"; VStr "abi"].

Definition whole_file_selectors : list value :=
  [VStr "ast"; VStr "legacyAST"].

(** An [outputSelection] with the wildcard file key alone. *)
Definition selection (per_contract whole_file : list value) : value :=
  VObj [("*", VObj [("*", VArr per_contract []); ("", VArr whole_file [])])].

(** The properties of a settings argument that is an object, or of the
    object that stands for a missing argument. *)
Definition supplied_properties (original : value) : option object :=
  match original with
  | VUndefined => Some []
  | VObj o => Some o
  | _ => None
  end.

(** ** Computations that leave the files alone *)

Definition add_events (w : world) (events : list event) : world :=
  World (files w) (dirs w) (trace w ++ events).

Definition is_exec (e : event) : bool :=
  match e with
  | Exec _ => true
  | _ => false
  end.

Definition no_exec (events : list event) : bool :=
  forallb (fun e => negb (is_exec e)) events.

(** [m] comes to [r] and adds [events] to the trace, whatever the world. *)
Definition traces {A} (m : M A) (r : completion A) (events : list event) : Prop :=
  forall w, m w = (r, add_events w events).

(** [m] is such a computation, and it runs no subprocess. *)
Definition steady {A} (m : M A) : Prop :=
  exists r events, traces m r events /\ no_exec events = true.

(** ** The run of the normalizer *)

(** What line 150 leaves in [invariants]. *)
Definition invariants_or_null (get_invariants : value -> completion value)
    (ast_tree : value) : value :=
  match get_invariants ast_tree with
  | Return invariants => invariants
  | Throw _ => VNull
  end.

(** What lines 148-153 add to the trace. *)
Definition invariants_events (get_invariants : value -> completion value)
    (ast_tree : value) : list event :=
  GetInvariants ast_tree ::
    match get_invariants ast_tree with
    | Return _ => []
    | Throw e => [ConsoleError e]
    end.

(** The events of a run that reaches line 155. *)
Definition analysis_events (get_invariants : value -> completion value)
    (merged ast_tree : value) : list event :=
  [ConsoleInfo [VStr "Compiling took"]; GetAst merged;
   ConsoleLog [VStr "Analyzing AST took"]]
  ++ invariants_events get_invariants ast_tree.

(** ** Contracts of an output document *)

Definition returned (c : completion value) : value :=
  match c with
  | Return v => v
  | Throw _ => VUndefined
  end.

Definition entries_of (v : value) : object :=
  match entries v with
  | Return es => es
  | Throw _ => []
  end.

(** The contracts of all the files, as (name, contract) pairs, in the order
    of iteration: file by file, and within a file contract by contract. *)
Definition all_contracts (files : object) : object :=
  flat_map (fun file => entries_of (snd file)) files.

(** The value of each file is one whose entries can be listed (anything
    but [null] and [undefined]). *)
Definition listable (files : object) : bool :=
  forallb (fun file => match entries (snd file) with
                       | Return _ => true
                       | Throw _ => false
                       end) files.

(** The contracts called [name], in the order of iteration. *)
Fixpoint matching (name : string) (contracts : object) : list value :=
  match contracts with
  | [] => []
  | (contract_name, contract_info) :: r =>
      if String.eqb contract_name name
      then contract_info :: matching name r
      else matching name r
  end.

(** The scalar of the filter policy: the member of the last contract called
    [name], and [null] when there is none. *)
Definition selected (member : value -> completion value) (name : string)
    (files : object) : value :=
  match last (matching name (all_contracts files)) with
  | Some contract_info => returned (member contract_info)
  | None => VNull
  end.

(** The mapping of the filter policy: file path -> contract name -> member. *)
Definition cell_of (member : value -> completion value)
    (contract : string * value) : string * value :=
  (fst contract, returned (member (snd contract))).

Definition row_of (member : value -> completion value)
    (file : string * value) : string * value :=
  (fst file, VObj (map (cell_of member) (entries_of (snd file)))).

Definition table (member : value -> completion value) (files : object) : value :=
  VObj (map (row_of member) files).

(** ** The order of the keys of an object *)

(** [k] can come before [k'] among the keys of an object: they differ, an
    array index comes before a name, and a smaller index before a larger
    one. *)
Definition may_precede (k k' : string) : bool :=
  negb (String.eqb k k') &&
  match array_index k, array_index k' with
  | Some n, Some n' => (n <? n')%N
  | Some _, None => true
  | None, Some _ => false
  | None, None => true
  end.

Fixpoint enumeration_order (keys : list string) : bool :=
  match keys with
  | [] => true
  | k :: r => forallb (may_precede k) r && enumeration_order r
  end.

(** The invariant of the representation of objects. *)
Definition well_ordered (o : object) : bool := enumeration_order (map fst o).


(** ** Source records *)

Definition is_object (v : value) : bool :=
  match v with
  | VObj _ => true
  | _ => false
  end.

(** Every source record of the output is an object ([{id, ast}]). *)
Definition records_are_objects (records : object) : bool :=
  forallb (fun record => is_object (snd record)) records.

(** The record after line 140 has written [content] into it. *)
Definition with_source (content record : value) : value :=
  returned (set_member record "source" content).

(** The source records after one turn of the loop of lines 139-141. *)
Definition merge_record (records : object) (entry : string * value) : object :=
  let '(fn, contract) := entry in
  obj_update records fn
    (with_source (returned (get contract "content"))
       (default VUndefined (obj_get records fn))).

(** The source records after the loop. *)
Definition merged_records (inputs records : object) : object :=
  fold_left merge_record inputs records.

(** What lines 235-238 keep of a source record. *)
Definition projection (record : value) : value :=
  VObj [("id", returned (get record "id")); ("source", returned (get record "source"))].

(** ** Output documents of the compiler's schema *)

Definition is_return (c : completion value) : bool :=
  match c with
  | Return _ => true
  | Throw _ => false
  end.

(** A contract with the members that the normalizer reads:
    [{ abi, evm: { bytecode: { object }, deployedBytecode: { object,
    sourceMap } } }], a missing leaf being read as [undefined]. *)
Definition complete_info (contract_info : value) : bool :=
  is_return (source_map_of contract_info) && is_return (bytecode_of contract_info)
  && is_return (runtime_bytecode_of contract_info) && is_return (abi_of contract_info).

(** [contracts] maps each file to an object of such contracts. *)
Definition complete_contracts (files : object) : bool :=
  forallb (fun file =>
             is_object (snd file)
             && forallb (fun contract => complete_info (snd contract)) (entries_of (snd file)))
    files.

(** Every file of the input has a record among the sources of the output,
    and an entry from which a content can be read. *)
Definition inputs_covered (inputs records : object) : bool :=
  forallb (fun input => obj_has records (fst input) && is_return (get (snd input) "content"))
    inputs.

(** ** Keys that JavaScript treats on their own *)

(** The members of [Object.prototype]: under these keys an object reads a
    value that it does not own. *)
Definition inherited (k : string) : bool :=
  existsb (String.eqb k)
    ["constructor"; "__defineGetter__"; "__defineSetter__"; "hasOwnProperty";
     "__lookupGetter__"; "__lookupSetter__"; "isPrototypeOf"; "propertyIsEnumerable";
     "toString"; "valueOf"; "__proto__"; "toLocaleString"].

(** No file of the input has such a name. *)
Definition own_names (inputs : object) : bool :=
  forallb (fun input => negb (inherited (fst input))) inputs.

(** A key under which an assignment makes an own property: any key but
    ['__proto__']. *)
Definition assignable (k : string) : bool := negb (String.eqb k "__proto__").

Definition assignable_keys (o : object) : bool :=
  forallb (fun entry => assignable (fst entry)) o.


(** ** Diagnostics *)

(** An entry of [errors] that line 132 passes over: its severity can be
    read, and is not the string 'error'. *)
Definition passed_over (entry : value) : bool :=
  match get entry "severity" with
  | Return severity => negb (is_string severity "error")
  | Throw _ => false
  end.

End Spec.

(** * Documents and collaborators of the examples *)

Module Example.
Import Js Builder Spec.

Definition input : value :=
  VObj [("language", VStr "Solidity");
        ("sources", VObj [("A.sol", VObj [("content", VStr "contract Foo {}")])]);
        ("settings", VObj [("remappings", VArr [] [])])].

Definition contract_info (tag : string) : value :=
  VObj [("abi", VArr [VStr ("abi of " +:+ tag)] []);
        ("evm", VObj [("bytecode", VObj [("object", VStr ("60" +:+ tag))]);
                      ("deployedBytecode",
                       VObj [("object", VStr ("61" +:+ tag));
                             ("sourceMap", VStr ("0:1:" +:+ tag))])])].

Definition output : value :=
  VObj [("contracts",
         VObj [("A.sol", VObj [("Foo", contract_info "a"); ("Bar", contract_info "b")]);
               ("B.sol", VObj [("Baz", contract_info "c")])]);
        ("sources", VObj [("A.sol", VObj [("id", VNum 0); ("ast", VObj [])])])].

Definition warning : value :=
  VObj [("severity", VStr "warning"); ("formattedMessage", VStr "Warning: unused variable")].

Definition diagnostic : value :=
  VObj [("severity", VStr "error"); ("formattedMessage", VStr "ParserError: expected ;")].

Definition rejected_output : value :=
  VObj [("errors", VArr [warning; diagnostic] [])].

Definition warned_output : value :=
  VObj [("errors", VArr [warning] []);
        ("contracts", VObj [("A.sol", VObj [("Foo", contract_info "a")])]);
        ("sources", VObj [("A.sol", VObj [("id", VNum 0); ("ast", VObj [])])])].

Definition analysis : value :=
  VObj [("ast", VStr "processed ast"); ("ast_tree", VStr "ast tree")].

Definition ast_ok (output : value) : completion value := Return analysis.
Definition ast_throws (output : value) : completion value :=
  Throw (Raised (VStr "ast failure")).
Definition invariants_ok (ast_tree : value) : completion value :=
  Return (VArr [VStr "invariant"] []).
Definition invariants_throw (ast_tree : value) : completion value :=
  Throw (Raised (VStr "invariants failure")).

(** A collaborator that throws on the tree of [analysis] and on no
    other. *)
Definition throws_on_this_tree (ast_tree : value) : completion value :=
  if is_string ast_tree "ast tree"
  then Throw (Raised (VStr "invariants failure"))
  else Return (VArr [] []).

Definition no_files : world := World ∅ ∅ [].

(** [output] after the source merge, and its normalization for the
    contract ['Baz']. *)
Definition merged : value :=
  Eval vm_compute in
    match merge_sources output input with
    | Return m => m
    | Throw _ => VUndefined
    end.

Definition baz_result : value :=
  Eval vm_compute in
    match build_result merged (VStr "v0.8.20") input (VStr "Baz")
            (VStr "processed ast") (VArr [VStr "invariant"] []) with
    | Return r => r
    | Throw _ => VUndefined
    end.

Definition full_result : value :=
  Eval vm_compute in
    match build_result merged (VStr "v0.8.20") input (VStr "")
            (VStr "processed ast") (VArr [VStr "invariant"] []) with
    | Return r => r
    | Throw _ => VUndefined
    end.

Definition files_of_output : object :=
  [("A.sol", VObj [("Foo", contract_info "a"); ("Bar", contract_info "b")]);
   ("B.sol", VObj [("Baz", contract_info "c")])].

(** A contract name that two files hold. *)
Definition twice : object :=
  [("A.sol", VObj [("Foo", contract_info "first")]);
   ("B.sol", VObj [("Foo", contract_info "second"); ("Bar", contract_info "b")])].


Definition input_hash : string := "8e1cb1b06f5a321403555c19c125c9a6".

Definition augmented_input : value :=
  Eval vm_compute in returned (augment input).

(** The normalization of [output] for the augmented input, without a
    filter. *)
Definition cached_result : value :=
  Eval vm_compute in
    returned (build_result merged (VStr "v0.8.20") augmented_input (VStr "")
                (VStr "processed ast") (VArr [VStr "invariant"] [])).

(** A shell in which every command fails. *)
Definition failing_shell (command : string) (fs : gmap string string) : exec_result :=
  ExecResult true "" "command not found" fs.

(** A cache that holds, under the key of [input], an output document with
    an error diagnostic: what [solc --standard-json] writes for a source
    that does not compile. *)
Definition rejected_cache : world :=
  World {[ outputJson input_hash := default "" (Json.stringify rejected_output) ]} {[ ".tmp" ]} [].

(** A cache that holds the output document of [input]. *)
Definition compiled_cache : world :=
  World {[ outputJson input_hash := default "" (Json.stringify output) ]} {[ ".tmp" ]} [].

(** On the merged example output, [ast_throws] throws. *)
Definition get_ast_throws_here : Prop :=
  (do merged <- merge_sources output input; ast_throws merged)
  = Throw (Raised (VStr "ast failure")).

End Example.

(** * The callers of the pipeline (lines 13-109) *)

Module Cli.
Import Js Builder.

(** ** Strings *)

(** [String(v)], the conversion that [RegExp.prototype.exec] applies to its
    argument. *)
Fixpoint to_string (v : value) : string :=
  match v with
  | VUndefined => "undefined"
  | VNull => "null"
  | VBool b => if b then "true" else "false"
  | VNum n => Json.number_text n
  | VStr s => s
  | VArr l _ =>
      Json.join ","
        ((fix elems (l : list value) : list string :=
            match l with
            | [] => []
            | x :: r =>
                match x with
                | VUndefined | VNull => ""
                | _ => to_string x
                end :: elems r
            end) l)
  | VObj _ => "[object Object]"
  end.

(** [s] ends with [suffix]: what a pattern [/...suffix$/] without
    alternatives of other lengths tests. *)
Definition ends_with (suffix s : string) : bool :=
  let n := String.length s in
  let m := String.length suffix in
  (m <=? n)%nat && String.eqb (String.substring (n - m) m s) suffix.

(** The white space and line terminators that [trim] removes, among the
    code units below 256. *)
Definition is_space (c : ascii) : bool :=
  let u := N_of_ascii c in
  ((u =? 9) || (u =? 10) || (u =? 11) || (u =? 12) || (u =? 13) || (u =? 32) || (u =? 160))%N.

Fixpoint trim_start (s : string) : string :=
  match s with
  | String c r => if is_space c then trim_start r else s
  | EmptyString => EmptyString
  end.

Fixpoint trim_end (s : string) : string :=
  match s with
  | String c r =>
      let r' := trim_end r in
      if is_space c && String.eqb r' "" then EmptyString else String c r'
  | EmptyString => EmptyString
  end.

(** [s.trim()] *)
Definition trim (s : string) : string := trim_end (trim_start s).

Definition line_feed : ascii := ascii_of_nat 10.

(** [s.split('\n')] *)
Fixpoint split_lines (s : string) : list string :=
  match s with
  | EmptyString => [EmptyString]
  | String c r =>
      if Ascii.eqb c line_feed then EmptyString :: split_lines r
      else match split_lines r with
           | first :: others => String c first :: others
           | [] => [String c EmptyString]
           end
  end.

(** ** [auto_detect] (lines 13-28) *)

(** [/(forge|foundry)\.toml$/.test(file)] *)
Definition forgeConfig (file : string) : bool :=
  ends_with "forge.toml" file || ends_with "foundry.toml" file.

(** [/hardhat\.config\.(js|ts)$/.test(file)] *)
Definition hardhatConfig (file : string) : bool :=
  ends_with "hardhat.config.js" file || ends_with "hardhat.config.ts" file.

(** ** The version of a build-info item (lines 65-66) *)

Definition is_line_terminator (c : ascii) : bool :=
  let u := N_of_ascii c in ((u =? 10) || (u =? 13))%N.

(** [[0-9a-z]] *)
Definition is_hash_char (c : ascii) : bool :=
  let u := N_of_ascii c in
  ((48 <=? u) && (u <=? 57) || (97 <=? u) && (u <=? 122))%N.

Fixpoint take_hash (s : string) : string :=
  match s with
  | String c r => if is_hash_char c then String c (take_hash r) else EmptyString
  | EmptyString => EmptyString
  end.

(** [\+commit\.[0-9a-z]+] at the start of [s]: the text it matches. *)
Definition commit_part (s : string) : option string :=
  if String.prefix "+commit." s then
    let hash := take_hash (String.substring 8 (String.length s - 8) s) in
    if String.eqb hash "" then None else Some ("+commit." +:+ hash)
  else None.

(** The rest of a match of [/^(.+?)\+commit\.[0-9a-z]+/] once the lazy
    group holds at least one character: the group grows by one character
    at a time, never over a line terminator, until the commit part
    follows. *)
Fixpoint after_first (s : string) : option string :=
  match commit_part s with
  | Some matched => Some matched
  | None =>
      match s with
      | String c r =>
          if is_line_terminator c then None
          else option_map (String c) (after_first r)
      | EmptyString => None
      end
  end.

(** [version_finder.exec(text)[0]], [None] when [exec] returns [null]. *)
Definition long_version (text : string) : option string :=
  match text with
  | String c r =>
      if is_line_terminator c then None
      else option_map (String c) (after_first r)
  | EmptyString => None
  end.

(** ** [handle_multi_build]: the remappings (lines 86-95) *)

(** Lines 89-94: the trimmed lines of the file that are not blank. *)
Definition remappings_of (text : string) : list string :=
  List.filter (fun line => negb (String.eqb line "")) (map trim (split_lines text)).

(** ** Endings of a build *)

(** What [console.error] printed last before [process.exit]. *)
Inductive report : Type :=
| Printed (args : list value)
| Caught (e : exn).

(** How a call of [build] ends: its promise is fulfilled with [v]; or it is
    never settled, a promise it waits for being never settled or an [async]
    function that nobody awaits having thrown [e]; or the process exits. *)
Inductive ending : Type :=
| Resolved (v : value)
| Unsettled (e : exn)
| Exited (code : Z) (last : report).

(** A step inside the [try] block of [handle_build_info_task]. *)
Inductive step (A : Type) : Type :=
| Next (a : A)
| Thrown (e : exn)
| Hung (e : exn).
Arguments Next {A} a.
Arguments Thrown {A} e.
Arguments Hung {A} e.

Section Collaborators.

(** [get_ast], [get_invariants], [shell] and [checkSolcSelectInstalled] as
    for the pipeline.  [readdirSync] and [globSync] read the file system
    through libraries that are not represented; [path_join] is
    [path.join]; [hardhat_build_json] and [forge_build_json] come from
    [./hardhat] and [./foundry], run a build tool, and return (or throw)
    with the files in a new state. *)
Variable get_ast : value -> completion value.
Variable get_invariants : value -> completion value.
Variable shell : string -> gmap string string -> exec_result.
Variable checkSolcSelectInstalled : bool.
Variable readdirSync : string -> world -> completion (list string).
Variable globSync : string -> world -> completion (list string).
Variable path_join : string -> string -> string.
Variable hardhat_build_json : string -> gmap string string -> completion value * gmap string string.
Variable forge_build_json : string -> gmap string string -> completion value * gmap string string.

(** Lines 13-28. *)
Definition auto_detect (task_dir : string) : M string :=
  run files <- (fun w => (readdirSync task_dir w, w));
  if existsb forgeConfig files then ret "forge"
  else if existsb hardhatConfig files then ret "hardhat"
  else
    run _ <- console_log
               [VStr "Unknown project, treating everything *.sol in this folder as smart contract."];
    ret "solidity_folder".

(** Lines 65-67, up to the call of [work_on_json]: the version string and
    the input document of a build-info item. *)
Definition item_request (data : value) : completion (string * value) :=
  do long <- get data "solcLongVersion";
  do version <- match long_version (to_string long) with
                | Some matched => Return matched
                | None => Throw TypeError
                end;
  do input <- get data "input";
  Return ("v" +:+ version, input).

(** The loop of lines 64-69. *)
Fixpoint compile_all (contents : list value) (results : list value) (w : world)
  : step (list value) * world :=
  match contents with
  | [] => (Next results, w)
  | data :: rest =>
      match item_request data with
      | Throw e => (Thrown e, w)
      | Return (compiler_version, input) =>
          match work_on_json get_ast get_invariants shell checkSolcSelectInstalled
                  compiler_version input (VStr "") w with
          | (Fulfilled result, w') => compile_all rest (results ++ [result]) w'
          | (NeverSettled e, w') => (Hung e, w')
          end
      end
  end.

(** Lines 59-63: the test of [result.success], and the contents to
    compile. *)
Definition build_info_contents (result : value) : completion (list value) + report :=
  match get result "success" with
  | Throw e => inr (Caught e)
  | Return success =>
      if truthy success then
        match (do contents <- get result "contents"; iterate contents) with
        | Return items => inl (Return items)
        | Throw e => inl (Throw e)
        end
      else
        match get result "err" with
        | Return err => inr (Printed [VStr "Build failed"; err])
        | Throw e => inr (Caught e)
        end
  end.

(** Lines 56-75. *)
Definition handle_build_info_task (task_dir : string)
    (build_func : string -> gmap string string -> completion value * gmap string string)
    (w : world) : ending * world :=
  let '(built, fs) := build_func task_dir (files w) in
  let w1 := World fs (dirs w) (trace w) in
  match built with
  | Throw e => (Exited 1 (Caught e), w1)
  | Return result =>
      match build_info_contents result with
      | inr last => (Exited 1 last, w1)
      | inl (Throw e) => (Exited 1 (Caught e), w1)
      | inl (Return items) =>
          match compile_all items [] w1 with
          | (Next results, w2) => (Resolved (VArr results []), w2)
          | (Thrown e, w2) => (Exited 1 (Caught e), w2)
          | (Hung e, w2) => (Unsettled e, w2)
          end
      end
  end.

(** Lines 81-84. *)
Fixpoint read_sources (paths : list string) (build_sources : value) : M value :=
  match paths with
  | [] => ret build_sources
  | file :: rest =>
      run content <- readFileSync file;
      val build_sources <- set_member build_sources file (VObj [("content", VStr content)]);
      read_sources rest build_sources
  end.

(** Lines 86-95. *)
Definition read_remappings (task_dir : string) : M (list string) :=
  let remappings_file := path_join task_dir "remappings.txt" in
  run present <- existsSync remappings_file;
  if present then
    run text <- readFileSync remappings_file;
    ret (remappings_of text)
  else ret [].

(** Lines 97-107, the document given to [work_on_json]. *)
Definition folder_input (build_sources : value) (remappings : list string) : value :=
  VObj [("language", VStr "Solidity");
        ("sources", build_sources);
        ("settings", VObj [("remappings", VArr (map VStr remappings) [])])].

(** Lines 78-95: what [handle_multi_build] does before it calls
    [work_on_json]. *)
Definition gather (task_dir : string) : M value :=
  run paths <- (fun w => (globSync (path_join task_dir "**/*.sol") w, w));
  run build_sources <- read_sources paths (VObj []);
  run remappings <- read_remappings task_dir;
  ret (folder_input build_sources remappings).

(** Lines 77-109. *)
Definition handle_multi_build (task_dir compiler_version : string) (w : world)
  : ending * world :=
  match gather task_dir w with
  | (Throw e, w1) => (Unsettled e, w1)
  | (Return input, w1) =>
      match work_on_json get_ast get_invariants shell checkSolcSelectInstalled
              compiler_version input (VStr "") w1 with
      | (Fulfilled result, w2) => (Resolved result, w2)
      | (NeverSettled e, w2) => (Unsettled e, w2)
      end
  end.

(** Lines 30-54.  The command line gives [compiler_version] as a string or
    not at all ([None]). *)
Definition build (project : value) (task_dir : string) (compiler_version : option string)
    (w : world) : ending * world :=
  if is_string project "hardhat" then
    handle_build_info_task task_dir hardhat_build_json w
  else if is_string project "forge" then
    handle_build_info_task task_dir forge_build_json w
  else if is_string project "solidity_folder" then
    match compiler_version with
    | Some version =>
        if String.eqb version "" then
          (Exited 1 (Printed [VStr "Compiler version not specified"]), w)
        else handle_multi_build task_dir version w
    | None => (Exited 1 (Printed [VStr "Compiler version not specified"]), w)
    end
  else (Exited 1 (Printed [VStr "Unknown project type"; project]), w).

End Collaborators.

End Cli.

(** * Vocabulary of the further properties *)

Module More.
Import Js Builder Spec Cli.

(** The values that line 113 can write a property to. *)
Definition holds_properties (v : value) : bool :=
  match v with
  | VUndefined | VArr _ _ | VObj _ => true
  | _ => false
  end.

(** An output document whose [errors] are missing, falsy, or a list in
    which no entry has the severity 'error'. *)
Definition without_error (output : value) : bool :=
  match errors_of output with
  | Return errors =>
      match iterate errors with
      | Return items => forallb passed_over items
      | Throw _ => false
      end
  | Throw _ => false
  end.

Definition is_nullish (v : value) : bool :=
  match v with
  | VUndefined | VNull => true
  | _ => false
  end.

(** The text that the command line gets for the version (lines 270-275,
    282). *)
Definition version_text (compiler_version : string) : string :=
  default "undefined" (version_number compiler_version).

(** What line 272 or line 274 prints. *)
Definition version_event (compiler_version : string) : event :=
  match version_number compiler_version with
  | Some number => ConsoleLog [VStr "Found version number"; VStr number]
  | None => ConsoleLog [VStr "Could not find version number"]
  end.

(** The command line of a request (lines 279-283, 310-313). *)
Definition command_of (checkSolcSelectInstalled : bool)
    (compiler_version hash : string) : string :=
  if checkSolcSelectInstalled
  then select_and_compile (version_text compiler_version) (currentFile hash) (outputJson hash)
  else install_select_and_compile (version_text compiler_version)
         (currentFile hash) (outputJson hash).

(** [c] does not occur in [s]. *)
Fixpoint lacks (c : ascii) (s : string) : bool :=
  match s with
  | String c' r => negb (Ascii.eqb c' c) && lacks c r
  | EmptyString => true
  end.

Fixpoint all_chars (p : ascii -> bool) (s : string) : bool :=
  match s with
  | String c r => p c && all_chars p r
  | EmptyString => true
  end.

(** A non-empty run of decimal digits. *)
Definition is_number (s : string) : bool :=
  negb (String.eqb s "") && all_chars is_digit s.

(** A non-empty run of [[0-9a-z]]. *)
Definition is_hash (s : string) : bool :=
  negb (String.eqb s "") && all_chars is_hash_char s.

(** [s] does not start with a character of the class [p]. *)
Definition stops (p : ascii -> bool) (s : string) : bool :=
  match s with
  | String c _ => negb (p c)
  | EmptyString => true
  end.

(** A line that [remappings_of] keeps as it is: not empty, no white space
    at either end, no line feed. *)
Definition clean_line (line : string) : bool :=
  negb (String.eqb line "") && String.eqb (trim line) line && lacks line_feed line.

(** The white space and line terminators of JavaScript below 256, by code
    unit: tab, line feed, vertical tab, form feed, carriage return, space,
    no-break space. *)
Definition white (c : ascii) : bool :=
  existsb (Nat.eqb (nat_of_ascii c)) [9; 10; 11; 12; 13; 32; 160]%nat.

(** A line that holds nothing but white space. *)
Definition blank (raw : string) : bool := all_chars white raw.

(** [s] does not end with a character of the class [p]. *)
Fixpoint closes (p : ascii -> bool) (s : string) : bool :=
  match s with
  | EmptyString => true
  | String c EmptyString => negb (p c)
  | String _ r => closes p r
  end.

(** [remapping] is the line [raw] without the white space around it, and
    is not empty. *)
Definition core_of (raw remapping : string) : Prop :=
  exists before after,
    raw = before +:+ remapping +:+ after
    /\ all_chars white before = true
    /\ all_chars white after = true
    /\ remapping <> ""
    /\ stops white remapping = true
    /\ closes white remapping = true.

(** ** The world of a request *)

(** [fs.existsSync(path)] *)
Definition exists_in (w : world) (path : string) : bool :=
  bool_decide (path ∈ dirs w) || bool_decide (is_Some (files w !! path)).

(** The world after lines 253-263, for a request with the digest [hash]
    whose augmented document serializes to [text]. *)
Definition prepared (w : world) (hash text : string) : world :=
  let w1 := if exists_in w ".tmp" then w
            else World (files w) ({[".tmp"]} ∪ dirs w) (trace w) in
  if exists_in w1 (currentFile hash) then w1
  else World (<[currentFile hash := text]> (files w1)) (dirs w1) (trace w1).

(** The world after the subprocess of a request has run in [w]. *)
Definition compiled (shell : string -> gmap string string -> exec_result)
    (command : string) (w : world) (before : list event) : world :=
  World (exec_files (shell command (files w))) (dirs w)
    (trace w ++ before ++ [Exec command]).

(** What [resolve] gets at lines 287 and 317. *)
Definition failure (stderr : string) : value :=
  VObj [("success", VBool false); ("err", VStr stderr)].

(** ** Documents of the examples *)

(** An output in which the contract [Lib] has no [evm] member. *)
Definition partial_output : value :=
  VObj [("contracts",
         VObj [("A.sol", VObj [("Foo", Example.contract_info "a");
                               ("Lib", VObj [("abi", VArr [] [])])])]);
        ("sources", VObj [("A.sol", VObj [("id", VNum 0)])])].

Definition partial_merged : value :=
  Eval vm_compute in returned (merge_sources partial_output Example.input).

(** ** Versions, build-info items, folders *)

(** A character that the lazy group of the version pattern takes and at
    which the commit part does not start. *)
Definition plain (c : ascii) : bool :=
  negb (Ascii.eqb c "+") && negb (is_line_terminator c).

(** The loop of lines 64-69 seen from outside: [results] holds, for each
    item of [items] and in their order, what [work_on_json] fulfilled its
    promise with for the version 'v' followed by the match of the version
    pattern in the [solcLongVersion] of the item, for its [input], and
    without a contract filter; each request runs in the world that the
    request before it has left, the first in [w] and the last leaving
    [w']. *)
Inductive compiled_in_turn (get_ast get_invariants : value -> completion value)
    (shell : string -> gmap string string -> exec_result) (checkSolcSelectInstalled : bool)
  : list value -> list value -> world -> world -> Prop :=
| turn_done w :
    compiled_in_turn get_ast get_invariants shell checkSolcSelectInstalled [] [] w w
| turn_next data items result results long matched input w w1 w' :
    get data "solcLongVersion" = Return long ->
    long_version (to_string long) = Some matched ->
    get data "input" = Return input ->
    work_on_json get_ast get_invariants shell checkSolcSelectInstalled
      ("v" +:+ matched) input (VStr "") w = (Fulfilled result, w1) ->
    compiled_in_turn get_ast get_invariants shell checkSolcSelectInstalled
      items results w1 w' ->
    compiled_in_turn get_ast get_invariants shell checkSolcSelectInstalled
      (data :: items) (result :: results) w w'.

(** The remappings that the file [path] holds; none when it is not
    there. *)
Definition remappings_in (w : world) (path : string) : list string :=
  match files w !! path with
  | Some text => remappings_of text
  | None => []
  end.

(** The document of lines 99-105 after line 259. *)
Definition folder_augmented (sources : value) (remappings : list string) : value :=
  VObj [("language", VStr "Solidity");
        ("sources", sources);
        ("settings", VObj [("remappings", VArr (map VStr remappings) []);
                           ("outputSelection",
                            selection per_contract_selectors whole_file_selectors)])].

(** The texts of the example documents. *)
Definition input_text : string :=
  Eval vm_compute in default "" (Json.stringify Example.input).

Definition augmented_text : string :=
  Eval vm_compute in default "" (Json.stringify Example.augmented_input).

Definition output_text : string :=
  Eval vm_compute in default "" (Json.stringify Example.output).

(** A shell in which the compiler succeeds and leaves the output document
    of [Example.input] in the output cache file of that input. *)
Definition compiling_shell (command : string) (fs : gmap string string) : exec_result :=
  ExecResult false "" "" (<[outputJson Example.input_hash := output_text]> fs).

(** What the request of [Example.input] is fulfilled with when its output
    is cached. *)
Definition cached_fulfilment : value :=
  VObj (spread [("success", VBool true); ("remappings", VArr [] [])] Example.cached_result).

(** An input document whose settings are [null]. *)
Definition null_settings : value :=
  VObj [("language", VStr "Solidity"); ("sources", VObj []); ("settings", VNull)].

(** ** Projects of the examples *)

(** A folder that holds both a Hardhat and a Foundry configuration. *)
Definition both_configs (task_dir : string) (w : world) : completion (list string) :=
  Return ["contracts"; "hardhat.config.js"; "foundry.toml"].

(** A folder without a configuration file. *)
Definition no_config (task_dir : string) (w : world) : completion (list string) :=
  Return ["A.sol"].

Definition one_source (pattern : string) (w : world) : completion (list string) :=
  Return ["A.sol"].

Definition join_with_slash (a b : string) : string := a +:+ "/" +:+ b.

(** What the build tool returns: one build-info item, for [Example.input]. *)
Definition build_info : value :=
  VObj [("success", VBool true);
        ("contents",
         VArr [VObj [("solcLongVersion", VStr "0.8.20+commit.a1b79de6.Linux.g++");
                     ("input", Example.input)]] [])].

Definition build_tool (task_dir : string) (fs : gmap string string)
  : completion value * gmap string string :=
  (Return build_info, fs).

(** What [handle_build_info_task] resolves with for [build_tool], the
    output of the item being cached. *)
Definition built : value :=
  Eval vm_compute in
    match fst (handle_build_info_task Example.ast_ok Example.invariants_ok
                 Example.failing_shell true "project" build_tool Example.compiled_cache) with
    | Resolved v => v
    | _ => VUndefined
    end.

(** A build with a second item whose settings are [null]. *)
Definition bad_item : value :=
  VObj [("solcLongVersion", VStr "0.8.20+commit.a1b79de6"); ("input", null_settings)].

Definition build_info_with_bad_item : value :=
  VObj [("success", VBool true);
        ("contents",
         VArr [VObj [("solcLongVersion", VStr "0.8.20+commit.a1b79de6.Linux.g++");
                     ("input", Example.input)];
               bad_item;
               VObj [("solcLongVersion", VStr "0.8.20+commit.a1b79de6.Linux.g++");
                     ("input", Example.input)]] [])].

Definition bad_build_tool (task_dir : string) (fs : gmap string string)
  : completion value * gmap string string :=
  (Return build_info_with_bad_item, fs).

(** The document that [handle_multi_build] makes of the folder below, and
    its digest. *)
Definition folder_request : value :=
  folder_input (VObj [("A.sol", VObj [("content", VStr "contract Foo {}")])])
    ["@oz/=lib/oz/"; "ds-test/=lib/ds-test/src/"].

Definition folder_hash : string :=
  Eval vm_compute in Md5.md5_hex (default "" (Json.stringify folder_request)).

(** A folder with one source file and a remappings file with a blank line
    and white space around its entries; the output of its document is
    cached. *)
Definition folder_world : world :=
  World {[ "A.sol" := "contract Foo {}";
           "project/remappings.txt" :=
             "  @oz/=lib/oz/" +:+ nl +:+ nl +:+ "ds-test/=lib/ds-test/src/  " +:+ nl;
           outputJson folder_hash := output_text ]}
        {[ ".tmp" ]} [].

Definition folder_result : value :=
  Eval vm_compute in
    match fst (handle_multi_build Example.ast_ok Example.invariants_ok
                 Example.failing_shell true one_source join_with_slash
                 "project" "v0.8.20" folder_world) with
    | Resolved v => v
    | _ => VUndefined
    end.

(** A folder in which the pattern finds a path that cannot be read. *)
Definition unreadable_world : world := World {[ "A.sol" := "contract Foo {}" ]} {[ "lib.sol" ]} [].

Definition two_paths (pattern : string) (w : world) : completion (list string) :=
  Return ["A.sol"; "lib.sol"].

End More.

(** * Properties *)

Import Js Builder Spec Example.

(** ** The library functions, on known values *)

Example md5_empty : Md5.md5_hex "" = "d41d8cd98f00b204e9800998ecf8427e".
Proof. vm_compute. reflexivity. Qed.

Example md5_abc : Md5.md5_hex "abc" = "900150983cd24fb0d6963f7d28e17f72".
Proof. vm_compute. reflexivity. Qed.

Example md5_two_blocks :
  Md5.md5_hex "aaaaaaaaaaaaaaaaaaaaaaaaaaaaaaaaaaaaaaaaaaaaaaaaaaaaaaaaaaaaaaaaaaaaaaaaaaaaaaaa"
  = "b15af9cdabbaea0516866a33d8fd0f98".
Proof. vm_compute. reflexivity. Qed.

Example md5_fifty_six :
  Md5.md5_hex "aaaaaaaaaaaaaaaaaaaaaaaaaaaaaaaaaaaaaaaaaaaaaaaaaaaaaaaa"
  = "3b0c8ac703f828b04c6c197006d17218".
Proof. vm_compute. reflexivity. Qed.

Example md5_latin1 :
  Md5.md5_hex ("h" +:+ String (ascii_of_nat 233) "llo") = "be50e8478cf24ff3595bc7307fb91b50".
Proof. vm_compute. reflexivity. Qed.

Example version_number_examples :
  version_number "v0.8.20+commit.a1b79de6" = Some "0.8.20"
  /\ version_number "0.8.20" = None
  /\ version_number "v1.v2.3.4" = Some "2.3.4".
Proof. repeat split; reflexivity. Qed.

Example stringify_settings :
  Json.stringify
    (Js.VObj [("language", Js.VStr "Solidity");
              ("sources", Js.VObj [("A.sol", Js.VObj [("content", Js.VStr "contract Foo {}")])]);
              ("settings", Js.VObj [("remappings", Js.VArr [] []); ("runs", Js.VNum 200);
                                    ("x", Js.VUndefined); ("on", Js.VBool true)])])
  = Some ("{" +:+ Json.quote "language" +:+ ":" +:+ Json.quote "Solidity" +:+ ","
          +:+ Json.quote "sources" +:+ ":{" +:+ Json.quote "A.sol" +:+ ":{"
          +:+ Json.quote "content" +:+ ":" +:+ Json.quote "contract Foo {}" +:+ "}},"
          +:+ Json.quote "settings" +:+ ":{" +:+ Json.quote "remappings" +:+ ":[],"
          +:+ Json.quote "runs" +:+ ":200," +:+ Json.quote "on" +:+ ":true}}").
Proof. vm_compute. reflexivity. Qed.

Example parse_stringify_example :
  let doc :=
    Js.VObj [("errors", Js.VArr [Js.VObj [("severity", Js.VStr "warning");
                                          ("formattedMessage", Js.VStr ("a" +:+ Json.str1 Json.dquote +:+ "b"))]] []);
             ("sources", Js.VObj [("A.sol", Js.VObj [("id", Js.VNum 0)])]);
             ("n", Js.VNull); ("neg", Js.VNum (-12))] in
  Json.parse_text (default "" (Json.stringify doc)) = Json.Parsed doc.
Proof. vm_compute. reflexivity. Qed.

Example parse_orders_index_keys :
  Json.parse_text (" { " +:+ Json.quote "b" +:+ ": 1, " +:+ Json.quote "10" +:+ ":2,"
                   +:+ Json.quote "9" +:+ " : [true , null], " +:+ Json.quote "b" +:+ ":3 } ")
  = Json.Parsed (Js.VObj [("9", Js.VArr [Js.VBool true; Js.VNull] []); ("10", Js.VNum 2); ("b", Js.VNum 3)]).
Proof. vm_compute. reflexivity. Qed.

(** ** Objects *)

Section ObjectLemmas.

Implicit Types (o : object) (k : string) (v x : value).

Lemma obj_has_true o k : obj_has o k = true <-> exists v, obj_get o k = Some v.
Proof.
  unfold obj_has. destruct (obj_get o k) as [v|]; split; try discriminate; eauto.
  intros [v Hv]; discriminate.
Qed.

Lemma obj_has_false o k : obj_has o k = false <-> obj_get o k = None.
Proof.
  unfold obj_has. destruct (obj_get o k); split; congruence.
Qed.

Lemma obj_get_update_ne o k k' v :
  k <> k' -> obj_get (obj_update o k v) k' = obj_get o k'.
Proof.
  intros Hne. induction o as [|[k0 v0] r IH]; simpl; [reflexivity|].
  destruct (String.eqb_spec k0 k) as [->|Hk]; simpl.
  - destruct (String.eqb_spec k k'); [contradiction | reflexivity].
  - rewrite IH. reflexivity.
Qed.

Lemma obj_get_update_eq o k v :
  obj_get (obj_update o k v) k = match obj_get o k with Some _ => Some v | None => None end.
Proof.
  induction o as [|[k0 v0] r IH]; simpl; [reflexivity|].
  destruct (String.eqb_spec k0 k) as [->|Hk]; simpl.
  - rewrite String.eqb_refl. reflexivity.
  - destruct (String.eqb_spec k0 k); [contradiction | exact IH].
Qed.

Lemma obj_update_update o k v x : obj_update (obj_update o k v) k x = obj_update o k x.
Proof.
  induction o as [|[k0 v0] r IH]; simpl; [reflexivity|].
  destruct (String.eqb_spec k0 k) as [->|Hk]; simpl.
  - rewrite String.eqb_refl. reflexivity.
  - destruct (String.eqb_spec k0 k); [contradiction|]. rewrite IH. reflexivity.
Qed.

Lemma obj_get_app o o' k :
  obj_get (o ++ o') k = match obj_get o k with Some v => Some v | None => obj_get o' k end.
Proof.
  induction o as [|[k0 v0] r IH]; simpl; [reflexivity|].
  destruct (String.eqb k0 k); [reflexivity | exact IH].
Qed.

Lemma obj_update_app_absent o k v x :
  obj_get o k = None -> obj_update (o ++ [(k, v)]) k x = o ++ [(k, x)].
Proof.
  induction o as [|[k0 v0] r IH]; simpl.
  - rewrite String.eqb_refl. reflexivity.
  - destruct (String.eqb_spec k0 k) as [->|Hk]; [discriminate|].
    intros H. rewrite IH by exact H. reflexivity.
Qed.

Lemma obj_get_add_index_ne o n k k' v :
  k <> k' -> obj_get (obj_add_index o n k v) k' = obj_get o k'.
Proof.
  intros Hne. induction o as [|[k0 v0] r IH]; simpl.
  - destruct (String.eqb_spec k k'); [contradiction | reflexivity].
  - destruct (array_index k0) as [n'|]; [destruct (n' <? n)%N|]; simpl;
      try rewrite IH; try reflexivity;
      destruct (String.eqb_spec k k'); try contradiction; reflexivity.
Qed.

Lemma obj_get_add_index_eq o n k v :
  obj_get o k = None -> obj_get (obj_add_index o n k v) k = Some v.
Proof.
  induction o as [|[k0 v0] r IH]; simpl.
  - rewrite String.eqb_refl. reflexivity.
  - destruct (String.eqb_spec k0 k) as [->|Hk]; [discriminate|]. intros H.
    destruct (array_index k0) as [n'|]; [destruct (n' <? n)%N|]; simpl;
      rewrite ?String.eqb_refl; try reflexivity.
    destruct (String.eqb_spec k0 k); [contradiction | apply IH, H].
Qed.

Lemma obj_update_add_index o n k v x :
  obj_get o k = None -> obj_update (obj_add_index o n k v) k x = obj_add_index o n k x.
Proof.
  induction o as [|[k0 v0] r IH]; simpl.
  - rewrite String.eqb_refl. reflexivity.
  - destruct (String.eqb_spec k0 k) as [->|Hk]; [discriminate|]. intros H.
    destruct (array_index k0) as [n'|]; [destruct (n' <? n)%N|]; simpl;
      rewrite ?String.eqb_refl; try reflexivity.
    destruct (String.eqb_spec k0 k); [contradiction|]. rewrite IH by exact H. reflexivity.
Qed.

Lemma obj_get_set_eq o k v : obj_get (obj_set o k v) k = Some v.
Proof.
  unfold obj_set. destruct (obj_has o k) eqn:Hhas.
  - apply obj_has_true in Hhas as [v0 Hv0]. rewrite obj_get_update_eq, Hv0. reflexivity.
  - apply obj_has_false in Hhas. destruct (array_index k).
    + apply obj_get_add_index_eq, Hhas.
    + rewrite obj_get_app, Hhas. simpl. rewrite String.eqb_refl. reflexivity.
Qed.

Lemma obj_get_set_ne o k k' v : k <> k' -> obj_get (obj_set o k v) k' = obj_get o k'.
Proof.
  intros Hne. unfold obj_set. destruct (obj_has o k).
  - apply obj_get_update_ne, Hne.
  - destruct (array_index k).
    + apply obj_get_add_index_ne, Hne.
    + rewrite obj_get_app. simpl.
      destruct (String.eqb_spec k k'); [contradiction|].
      destruct (obj_get o k'); reflexivity.
Qed.

Lemma obj_update_set o k v x : obj_update (obj_set o k v) k x = obj_set o k x.
Proof.
  unfold obj_set. destruct (obj_has o k) eqn:Hhas.
  - apply obj_update_update.
  - apply obj_has_false in Hhas. destruct (array_index k).
    + apply obj_update_add_index, Hhas.
    + apply obj_update_app_absent, Hhas.
Qed.

Lemma obj_has_set o k v : obj_has (obj_set o k v) k = true.
Proof. apply obj_has_true. exists v. apply obj_get_set_eq. Qed.

Lemma obj_set_set o k v x : obj_set (obj_set o k v) k x = obj_set o k x.
Proof.
  unfold obj_set at 1. rewrite obj_has_set. apply obj_update_set.
Qed.

End ObjectLemmas.

(** ** [generate_settings] *)

Section Settings.

Lemma get_object o k : get (VObj o) k = Return (default VUndefined (obj_get o k)).
Proof. reflexivity. Qed.

Lemma push_per_contract o a b s :
  push_selector (VObj (obj_set o "outputSelection" (selection a b))) "*" s
  = Return (VObj (obj_set o "outputSelection" (selection (a ++ [VStr s]) b))).
Proof.
  unfold push_selector. rewrite get_object, obj_get_set_eq. cbn.
  rewrite obj_update_set. reflexivity.
Qed.

Lemma push_whole_file o a b s :
  push_selector (VObj (obj_set o "outputSelection" (selection a b))) "" s
  = Return (VObj (obj_set o "outputSelection" (selection a (b ++ [VStr s])))).
Proof.
  unfold push_selector. rewrite get_object, obj_get_set_eq. cbn.
  rewrite obj_update_set. reflexivity.
Qed.

Lemma generate_settings_object o :
  generate_settings (VObj o)
  = Return (VObj (obj_set o "outputSelection"
                    (selection per_contract_selectors whole_file_selectors))).
Proof.
  unfold generate_settings. cbn [set_member cbind].
  change (VObj [("*", VObj [("*", VArr [] []); ("", VArr [] [])])]) with (selection [] []).
  repeat (first [rewrite push_per_contract | rewrite push_whole_file]; cbn [cbind app]).
  reflexivity.
Qed.

Lemma generate_settings_undefined :
  generate_settings VUndefined
  = Return (VObj [("outputSelection", selection per_contract_selectors whole_file_selectors)]).
Proof. reflexivity. Qed.

Lemma get_array_named l p k :
  array_index k = None -> String.eqb k "length" = false ->
  get (VArr l p) k = Return (default VUndefined (obj_get p k)).
Proof. intros Hi Hl. unfold get. rewrite Hi, Hl. reflexivity. Qed.

Lemma push_per_contract_array l p a b s :
  push_selector (VArr l (obj_set p "outputSelection" (selection a b))) "*" s
  = Return (VArr l (obj_set p "outputSelection" (selection (a ++ [VStr s]) b))).
Proof.
  unfold push_selector. rewrite get_array_named by reflexivity.
  rewrite obj_get_set_eq. cbn. rewrite obj_update_set. reflexivity.
Qed.

Lemma push_whole_file_array l p a b s :
  push_selector (VArr l (obj_set p "outputSelection" (selection a b))) "" s
  = Return (VArr l (obj_set p "outputSelection" (selection a (b ++ [VStr s])))).
Proof.
  unfold push_selector. rewrite get_array_named by reflexivity.
  rewrite obj_get_set_eq. cbn. rewrite obj_update_set. reflexivity.
Qed.

Lemma generate_settings_array l p :
  generate_settings (VArr l p)
  = Return (VArr l (obj_set p "outputSelection"
                      (selection per_contract_selectors whole_file_selectors))).
Proof.
  unfold generate_settings. cbn [set_member cbind].
  change (VObj [("*", VObj [("*", VArr [] []); ("", VArr [] [])])]) with (selection [] []).
  repeat (first [rewrite push_per_contract_array | rewrite push_whole_file_array];
          cbn [cbind app]).
  reflexivity.
Qed.

(** The results of [generate_settings]: the argument, or a new object in
    the place of a missing one, with the mandatory selection under
    ['outputSelection']. *)
Lemma generate_settings_returns original result :
  generate_settings original = Return result ->
  (exists o, (original = VObj o \/ (original = VUndefined /\ o = []))
             /\ result = VObj (obj_set o "outputSelection"
                                (selection per_contract_selectors whole_file_selectors)))
  \/ (exists l p, original = VArr l p
                  /\ result = VArr l (obj_set p "outputSelection"
                                       (selection per_contract_selectors whole_file_selectors))).
Proof.
  destruct original as [| |b|n|s|l p|o]; try discriminate.
  - rewrite generate_settings_undefined. intros [= <-]. left. exists []. split; [|reflexivity]. auto.
  - rewrite generate_settings_array. intros [= <-]. right. eauto.
  - rewrite generate_settings_object. intros [= <-]. left. exists o. split; [|reflexivity]. auto.
Qed.

Lemma selectors_distinct : NoDup per_contract_selectors /\ NoDup whole_file_selectors.
Proof.
  split; unfold per_contract_selectors, whole_file_selectors;
    repeat (constructor; [rewrite ?elem_of_cons, elem_of_nil; intuition discriminate|]);
    constructor.
Qed.

(** C5. For a settings argument that is an object, or is missing, the result
    of [generate_settings] is an object that requests, for every file and
    every contract, 'ast', 'legacyAST', 'evm.deployedBytecode.sourceMap',
    'evm.bytecode', 'evm.deployedBytecode' and 'abi', and for every file as
    a whole 'ast' and 'legacyAST'; each property of the argument other than
    'outputSelection' is in the result with the value it had. *)
Theorem generate_settings_selects_and_preserves original supplied :
  supplied_properties original = Some supplied ->
  exists result,
    generate_settings original = Return (VObj result)
    /\ requested (VObj result) "*" "*"
       = Return (VArr [VStr "ast"; VStr "legacyAST"; VStr "evm.deployedBytecode.sourceMap";
                       VStr "evm.bytecode"; VStr "evm.deployedBytecode"; VStr "abi"] [])
    /\ requested (VObj result) "*" "" = Return (VArr [VStr "ast"; VStr "legacyAST"] [])
    /\ forall k, k <> "outputSelection" -> obj_get result k = obj_get supplied k.
Proof.
  intros Hs.
  exists (obj_set supplied "outputSelection"
            (selection per_contract_selectors whole_file_selectors)).
  split; [|split; [|split]].
  - destruct original; try discriminate; injection Hs as <-.
    + apply generate_settings_undefined.
    + apply generate_settings_object.
  - unfold requested. rewrite get_object, obj_get_set_eq. reflexivity.
  - unfold requested. rewrite get_object, obj_get_set_eq. reflexivity.
  - intros k Hk. apply obj_get_set_ne. congruence.
Qed.

Lemma generate_settings_selects_and_preserves_witness :
  exists result,
    generate_settings (VObj [("remappings", VArr [VStr "a=b"] []); ("outputSelection", VNum 1)])
    = Return (VObj result)
    /\ obj_get result "remappings" = Some (VArr [VStr "a=b"] []).
Proof.
  destruct (generate_settings_selects_and_preserves
              (VObj [("remappings", VArr [VStr "a=b"] []); ("outputSelection", VNum 1)])
              [("remappings", VArr [VStr "a=b"] []); ("outputSelection", VNum 1)]
              eq_refl) as (result & Hg & _ & _ & Hk).
  exists result. split; [exact Hg|]. rewrite Hk; [reflexivity | discriminate].
Defined.

(** C6. Applied to its own result, [generate_settings] returns that result
    unchanged, and the selector lists of the result have no repeated
    entry. *)
Theorem generate_settings_idempotent original once :
  generate_settings original = Return once ->
  generate_settings once = Return once
  /\ exists per_contract whole_file,
       requested once "*" "*" = Return (VArr per_contract [])
       /\ requested once "*" "" = Return (VArr whole_file [])
       /\ NoDup per_contract /\ NoDup whole_file.
Proof.
  intros Hg. apply generate_settings_returns in Hg as [(o & _ & ->)|(l & p & _ & ->)].
  - split.
    + rewrite generate_settings_object, obj_set_set. reflexivity.
    + exists per_contract_selectors, whole_file_selectors. unfold requested.
      rewrite get_object, obj_get_set_eq. repeat split; try apply selectors_distinct.
  - split.
    + rewrite generate_settings_array, obj_set_set. reflexivity.
    + exists per_contract_selectors, whole_file_selectors. unfold requested.
      rewrite get_array_named by reflexivity. rewrite obj_get_set_eq.
      repeat split; try apply selectors_distinct.
Qed.

Lemma generate_settings_idempotent_witness :
  generate_settings
    (VObj [("outputSelection", selection per_contract_selectors whole_file_selectors);
           ("remappings", VArr [] [])])
  = Return (VObj [("outputSelection", selection per_contract_selectors whole_file_selectors);
                  ("remappings", VArr [] [])]).
Proof.
  exact (proj1 (generate_settings_idempotent
                  (VObj [("outputSelection", VNull); ("remappings", VArr [] [])])
                  (VObj [("outputSelection", selection per_contract_selectors whole_file_selectors);
                         ("remappings", VArr [] [])])
                  eq_refl)).
Defined.

End Settings.

(** ** Computations and their traces *)

Section Traces.

Context {A B : Type}.

Lemma add_no_events w : add_events w [] = w.
Proof. destruct w. unfold add_events. cbn. rewrite app_nil_r. reflexivity. Qed.

Lemma add_events_app w e1 e2 : add_events (add_events w e1) e2 = add_events w (e1 ++ e2).
Proof. unfold add_events. cbn. rewrite app_assoc. reflexivity. Qed.

Lemma traces_ret (a : A) : traces (ret a) (Return a) [].
Proof. intros w. unfold ret. rewrite add_no_events. reflexivity. Qed.

Lemma traces_throw e : traces (@throw A e) (Throw e) [].
Proof. intros w. unfold throw. rewrite add_no_events. reflexivity. Qed.

Lemma traces_lift (c : completion A) : traces (lift c) c [].
Proof. intros w. unfold lift. rewrite add_no_events. reflexivity. Qed.

Lemma traces_bind (m : M A) (k : A -> M B) a r e1 e2 :
  traces m (Return a) e1 -> traces (k a) r e2 -> traces (bind m k) r (e1 ++ e2).
Proof.
  intros Hm Hk w. unfold bind. rewrite Hm, Hk. rewrite add_events_app. reflexivity.
Qed.

Lemma traces_bind_last (m : M A) (k : A -> M B) a r events :
  traces m (Return a) events -> traces (k a) r [] -> traces (bind m k) r events.
Proof.
  intros Hm Hk. rewrite <- (app_nil_r events). eapply traces_bind; eassumption.
Qed.

Lemma traces_bind_throw (m : M A) (k : A -> M B) e events :
  traces m (Throw e) events -> traces (bind m k) (Throw e) events.
Proof. intros Hm w. unfold bind. rewrite Hm. reflexivity. Qed.

Lemma traces_val (c : completion A) (k : A -> M B) a r events :
  c = Return a -> traces (k a) r events -> traces (bind (lift c) k) r events.
Proof. intros -> Hk. apply (traces_bind _ _ a r [] events); [apply traces_lift | exact Hk]. Qed.

Lemma traces_unique (m : M A) r r' events events' :
  traces m r events -> traces m r' events' -> r = r' /\ events = events'.
Proof.
  intros H H'. specialize (H no_files). specialize (H' no_files).
  rewrite H in H'. injection H' as Hr He. split; [exact Hr | exact He].
Qed.

Lemma no_exec_app e1 e2 : no_exec (e1 ++ e2) = no_exec e1 && no_exec e2.
Proof. apply forallb_app. Qed.

Lemma steady_ret (a : A) : steady (ret a).
Proof. exists (Return a), []. split; [apply traces_ret | reflexivity]. Qed.

Lemma steady_throw e : steady (@throw A e).
Proof. exists (Throw e), []. split; [apply traces_throw | reflexivity]. Qed.

Lemma steady_lift (c : completion A) : steady (lift c).
Proof. exists c, []. split; [apply traces_lift | reflexivity]. Qed.

Lemma steady_bind (m : M A) (k : A -> M B) :
  steady m -> (forall a, steady (k a)) -> steady (bind m k).
Proof.
  intros (r & e1 & Hm & Hn) Hk. destruct r as [a|e].
  - destruct (Hk a) as (r2 & e2 & Hk2 & Hn2).
    exists r2, (e1 ++ e2). split; [eapply traces_bind; eassumption|].
    rewrite no_exec_app, Hn, Hn2. reflexivity.
  - exists (Throw e), e1. split; [apply traces_bind_throw, Hm | exact Hn].
Qed.

End Traces.

Lemma traces_emit e : traces (emit e) (Return tt) [e].
Proof. intros w. reflexivity. Qed.

Lemma steady_emit e : is_exec e = false -> steady (emit e).
Proof.
  intros He. exists (Return tt), [e]. split; [apply traces_emit|].
  unfold no_exec. cbn. rewrite He. reflexivity.
Qed.

Lemma for_of_passes {A} (body : A -> M unit) l :
  (forall x, In x l -> traces (body x) (Return tt) []) ->
  traces (for_of l body) (Return tt) [].
Proof.
  induction l as [|x r IH]; intros Hl; cbn [for_of].
  - apply traces_ret.
  - apply (traces_bind _ _ tt (Return tt) [] []).
    + apply Hl. left. reflexivity.
    + apply IH. intros y Hy. apply Hl. right. exact Hy.
Qed.

Lemma for_of_stops {A} (body : A -> M unit) before x after e events :
  (forall y, In y before -> traces (body y) (Return tt) []) ->
  traces (body x) (Throw e) events ->
  traces (for_of (before ++ x :: after) body) (Throw e) events.
Proof.
  induction before as [|y r IH]; intros Hb Hx; cbn [for_of app].
  - apply traces_bind_throw, Hx.
  - apply (traces_bind _ _ tt (Throw e) [] events).
    + apply Hb. left. reflexivity.
    + apply IH; [|exact Hx]. intros z Hz. apply Hb. right. exact Hz.
Qed.

Lemma steady_for_of {A} (body : A -> M unit) l :
  (forall x, steady (body x)) -> steady (for_of l body).
Proof.
  intros Hb. induction l as [|x r IH]; cbn [for_of].
  - apply steady_ret.
  - apply steady_bind; [apply Hb | intros _; exact IH].
Qed.

Lemma traces_bind_inv {A B} (m : M A) (k : A -> M B) r events :
  steady m -> (forall a, steady (k a)) -> traces (bind m k) r events ->
  (exists a e1 e2, traces m (Return a) e1 /\ traces (k a) r e2 /\ events = e1 ++ e2)
  \/ (exists e, r = Throw e /\ traces m (Throw e) events).
Proof.
  intros (rm & e1 & Hm & _) Hk H. destruct rm as [a|e].
  - destruct (Hk a) as (r2 & e2 & Hk2 & _).
    destruct (traces_unique _ _ _ _ _ H (traces_bind _ _ _ _ _ _ Hm Hk2)) as [-> ->].
    left. exists a, e1, e2. auto.
  - destruct (traces_unique _ _ _ _ _ H (traces_bind_throw _ k _ _ Hm)) as [-> ->].
    right. exists e. auto.
Qed.

Lemma traces_val_inv {A B} (c : completion A) (k : A -> M B) b events :
  (forall a, steady (k a)) ->
  traces (bind (lift c) k) (Return b) events ->
  exists a, c = Return a /\ traces (k a) (Return b) events.
Proof.
  intros Hk H.
  apply traces_bind_inv in H as [(a & e1 & e2 & Hc & H & ->)|(e & [=] & _)];
    [|apply steady_lift | exact Hk].
  destruct (traces_unique _ _ _ _ _ Hc (traces_lift c)) as [<- ->].
  exists a. split; [reflexivity | exact H].
Qed.

Lemma traces_emit_inv {B} ev (k : unit -> M B) r events :
  (forall u, steady (k u)) ->
  traces (bind (emit ev) k) r events ->
  exists rest, traces (k tt) r rest /\ events = ev :: rest.
Proof.
  intros Hk H. destruct (Hk tt) as (r2 & e2 & Hk2 & _).
  destruct (traces_unique _ _ _ _ _ H (traces_bind _ _ _ _ _ _ (traces_emit ev) Hk2))
    as [-> ->].
  exists e2. split; [exact Hk2 | reflexivity].
Qed.

(** ** The scan of the diagnostics (lines 131-137) *)

Section Diagnostics.

Lemma scan_errors_steady output : steady (scan_errors output).
Proof.
  unfold scan_errors.
  apply steady_bind; [apply steady_lift | intros errors].
  apply steady_bind; [apply steady_lift | intros items].
  apply steady_for_of. intros error.
  apply steady_bind; [apply steady_lift | intros severity].
  destruct (is_string severity "error"); [|apply steady_ret].
  apply steady_bind; [apply steady_lift | intros message].
  apply steady_bind; [apply steady_emit; reflexivity | intros _; apply steady_throw].
Qed.

(** Warnings, and entries of any severity other than 'error', leave the
    scan without a trace. *)
Lemma scan_errors_passes output errors items :
  errors_of output = Return errors ->
  iterate errors = Return items ->
  forallb passed_over items = true ->
  traces (scan_errors output) (Return tt) [].
Proof.
  intros He Hi Hp. unfold scan_errors.
  eapply traces_val; [exact He|]. eapply traces_val; [exact Hi|].
  apply for_of_passes. intros entry Hin.
  rewrite forallb_forall in Hp. specialize (Hp entry Hin).
  unfold passed_over in Hp. destruct (get entry "severity") as [severity|] eqn:Hs; [|discriminate].
  eapply traces_val; [reflexivity|].
  destruct (is_string severity "error"); [discriminate | apply traces_ret].
Qed.

(** The first entry of severity 'error' ends the scan: its message is
    printed, and the call of the unbound [resolve] throws. *)
Lemma scan_errors_stops output errors before entry after message :
  errors_of output = Return errors ->
  iterate errors = Return (before ++ entry :: after) ->
  forallb passed_over before = true ->
  get entry "severity" = Return (VStr "error") ->
  get entry "formattedMessage" = Return message ->
  traces (scan_errors output) (Throw (ReferenceError "resolve")) [ConsoleLog [message]].
Proof.
  intros He Hi Hp Hs Hm. unfold scan_errors.
  eapply traces_val; [exact He|]. eapply traces_val; [exact Hi|].
  apply for_of_stops.
  - intros y Hin. rewrite forallb_forall in Hp. specialize (Hp y Hin).
    unfold passed_over in Hp. destruct (get y "severity") as [severity|] eqn:Hy; [|discriminate].
    eapply traces_val; [reflexivity|].
    destruct (is_string severity "error"); [discriminate | apply traces_ret].
  - eapply traces_val; [exact Hs|]. cbn [is_string]. rewrite String.eqb_refl.
    eapply traces_val; [exact Hm|].
    apply (traces_bind _ _ tt _ [ConsoleLog [message]] []).
    + apply traces_emit.
    + apply traces_throw.
Qed.

End Diagnostics.

(** ** [handleBuildResult] *)

Section Normalizer.

Variable get_ast : value -> completion value.
Variable get_invariants : value -> completion value.

Implicit Types (output compiler_version compiler_json contract_name : value).

Lemma call_get_ast_traces output :
  traces (call_get_ast get_ast output) (get_ast output) [GetAst output].
Proof.
  unfold call_get_ast.
  apply (traces_bind _ _ tt _ [GetAst output] []); [apply traces_emit | apply traces_lift].
Qed.

Lemma try_get_invariants_traces ast_tree :
  traces (try_get_invariants get_invariants ast_tree)
    (Return (invariants_or_null get_invariants ast_tree))
    (invariants_events get_invariants ast_tree).
Proof.
  unfold try_get_invariants, invariants_or_null, invariants_events.
  apply (traces_bind _ _ tt _ [GetInvariants ast_tree] _); [apply traces_emit|].
  destruct (get_invariants ast_tree) as [v|e].
  - apply traces_ret.
  - apply (traces_bind _ _ tt _ [ConsoleError e] []); [apply traces_emit | apply traces_ret].
Qed.

Lemma call_get_ast_steady output : steady (call_get_ast get_ast output).
Proof. eexists _, _. split; [apply call_get_ast_traces | reflexivity]. Qed.

Lemma try_get_invariants_steady ast_tree :
  steady (try_get_invariants get_invariants ast_tree).
Proof.
  eexists _, _. split; [apply try_get_invariants_traces|].
  unfold invariants_events. destruct (get_invariants ast_tree); reflexivity.
Qed.

Ltac steadiness :=
  repeat first
    [ apply steady_lift | apply steady_ret | apply steady_throw
    | apply scan_errors_steady | apply call_get_ast_steady
    | apply try_get_invariants_steady
    | apply steady_emit; reflexivity
    | apply steady_bind
    | intros ? ].

(** [handleBuildResult] reads and writes no file and runs no subprocess,
    and its result does not depend on the world. *)
Lemma handleBuildResult_steady output compiler_version compiler_json contract_name :
  steady (handleBuildResult get_ast get_invariants
            output compiler_version compiler_json contract_name).
Proof.
  unfold handleBuildResult.
  apply steady_bind; [apply scan_errors_steady | intros _].
  apply steady_bind; [apply steady_lift | intros merged].
  apply steady_bind; [apply steady_emit; reflexivity | intros _].
  apply steady_bind; [apply call_get_ast_steady | intros analysis].
  apply steady_bind; [apply steady_lift | intros ast].
  apply steady_bind; [apply steady_lift | intros ast_tree].
  apply steady_bind; [apply steady_emit; reflexivity | intros _].
  apply steady_bind; [apply try_get_invariants_steady | intros invariants].
  apply steady_lift.
Qed.

(** The run of [handleBuildResult], step by step. *)
Lemma handleBuildResult_run output compiler_version compiler_json contract_name
    scanned merged analysis ast ast_tree :
  traces (scan_errors output) (Return tt) scanned ->
  merge_sources output compiler_json = Return merged ->
  get_ast merged = Return analysis ->
  get analysis "ast" = Return ast ->
  get analysis "ast_tree" = Return ast_tree ->
  traces (handleBuildResult get_ast get_invariants
            output compiler_version compiler_json contract_name)
    (build_result merged compiler_version compiler_json contract_name
       ast (invariants_or_null get_invariants ast_tree))
    (scanned ++ analysis_events get_invariants merged ast_tree).
Proof.
  intros Hscan Hmerge Hast Ha Ht. unfold handleBuildResult.
  apply (traces_bind _ _ tt _ _ _ Hscan).
  eapply traces_val; [exact Hmerge|].
  apply (traces_bind _ _ tt _ [ConsoleInfo [VStr "Compiling took"]] _ (traces_emit _)).
  apply (traces_bind _ _ analysis _ [GetAst merged] _).
  { rewrite <- Hast. apply call_get_ast_traces. }
  eapply traces_val; [exact Ha|]. eapply traces_val; [exact Ht|].
  apply (traces_bind _ _ tt _ [ConsoleLog [VStr "Analyzing AST took"]] _ (traces_emit _)).
  apply (traces_bind_last _ _ _ _ _ (try_get_invariants_traces ast_tree)).
  apply traces_lift.
Qed.

(** A run that returns went through every step. *)
Lemma handleBuildResult_returned output compiler_version compiler_json contract_name
    result events :
  traces (handleBuildResult get_ast get_invariants
            output compiler_version compiler_json contract_name)
    (Return result) events ->
  exists scanned merged analysis ast ast_tree,
    traces (scan_errors output) (Return tt) scanned
    /\ merge_sources output compiler_json = Return merged
    /\ get_ast merged = Return analysis
    /\ get analysis "ast" = Return ast
    /\ get analysis "ast_tree" = Return ast_tree
    /\ build_result merged compiler_version compiler_json contract_name
         ast (invariants_or_null get_invariants ast_tree) = Return result
    /\ events = scanned ++ analysis_events get_invariants merged ast_tree.
Proof.
  intros H. unfold handleBuildResult in H.
  apply traces_bind_inv in H as [(u & scanned & e2 & Hscan & H & ->)|(e & [=] & _)];
    [destruct u | steadiness ..].
  apply traces_val_inv in H as (merged & Hmerge & H); [|steadiness].
  apply traces_emit_inv in H as (e3 & H & ->); [|steadiness].
  apply traces_bind_inv in H as [(analysis & e4 & e5 & Hcall & H & ->)|(e & [=] & _)];
    [|steadiness ..].
  destruct (traces_unique _ _ _ _ _ Hcall (call_get_ast_traces merged)) as [Hast ->].
  apply traces_val_inv in H as (ast & Ha & H); [|steadiness].
  apply traces_val_inv in H as (ast_tree & Ht & H); [|steadiness].
  apply traces_emit_inv in H as (e6 & H & ->); [|steadiness].
  apply traces_bind_inv in H as [(invariants & e7 & e8 & Hinv & H & ->)|(e & [=] & _)];
    [|steadiness ..].
  destruct (traces_unique _ _ _ _ _ Hinv (try_get_invariants_traces ast_tree)) as [[= ->] ->].
  destruct (traces_unique _ _ _ _ _ H (traces_lift _)) as [Hb ->].
  exists scanned, merged, analysis, ast, ast_tree.
  repeat split; auto. unfold analysis_events. cbn. rewrite app_nil_r. reflexivity.
Qed.

End Normalizer.

(** ** Failures of the diagnostics scan and of the collaborators *)

Section Failures.

Implicit Types (get_ast get_invariants : value -> completion value).
Implicit Types (output compiler_version compiler_json contract_name : value).

(** C1, as the code has it. When an entry of the errors list has severity
    'error' and the entries before it do not, [handleBuildResult] prints
    the formatted message of that entry and stops, before the source merge,
    the AST analysis and every extraction: the trace holds the message and
    nothing else.  What it fails with is the [ReferenceError] of the unbound
    [resolve] at line 134, not the formatted message. *)
Theorem diagnostic_error_stops_normalization get_ast get_invariants
    output compiler_version compiler_json contract_name
    errors before entry after message :
  errors_of output = Return errors ->
  iterate errors = Return (before ++ entry :: after) ->
  forallb passed_over before = true ->
  get entry "severity" = Return (VStr "error") ->
  get entry "formattedMessage" = Return message ->
  traces (handleBuildResult get_ast get_invariants
            output compiler_version compiler_json contract_name)
    (Throw (ReferenceError "resolve")) [ConsoleLog [message]].
Proof.
  intros He Hi Hp Hs Hm. unfold handleBuildResult.
  apply traces_bind_throw. eapply scan_errors_stops; eassumption.
Qed.

Lemma diagnostic_error_stops_normalization_witness :
  handleBuildResult ast_ok invariants_ok rejected_output (VStr "v0.8.20") input (VStr "") no_files
  = (Throw (ReferenceError "resolve"),
     World ∅ ∅ [ConsoleLog [VStr "ParserError: expected ;"]]).
Proof.
  exact (diagnostic_error_stops_normalization ast_ok invariants_ok
           rejected_output (VStr "v0.8.20") input (VStr "")
           (VArr [warning; diagnostic] []) [warning] diagnostic []
           (VStr "ParserError: expected ;")
           eq_refl eq_refl eq_refl eq_refl eq_refl no_files).
Defined.

(** C3, counterexample. With an AST collaborator that throws, the
    normalization of a well-formed output document returns no result. *)
Lemma ast_failure_is_fatal :
  get_ast_throws_here
  /\ ~ exists result events,
        traces (handleBuildResult ast_throws invariants_ok
                  output (VStr "v0.8.20") input (VStr ""))
          (Return result) events.
Proof.
  split; [reflexivity|].
  intros (result & events & H). specialize (H no_files).
  vm_compute in H. discriminate H.
Qed.

(** C3, amended. When [get_ast] throws, [handleBuildResult] throws the same
    exception: there is no result, nothing is printed with [console.error],
    and [get_invariants] is not called. *)
Theorem ast_failure_propagates get_ast get_invariants
    output compiler_version compiler_json contract_name scanned merged e :
  traces (scan_errors output) (Return tt) scanned ->
  merge_sources output compiler_json = Return merged ->
  get_ast merged = Throw e ->
  traces (handleBuildResult get_ast get_invariants
            output compiler_version compiler_json contract_name)
    (Throw e) (scanned ++ [ConsoleInfo [VStr "Compiling took"]; GetAst merged]).
Proof.
  intros Hscan Hmerge Hast. unfold handleBuildResult.
  apply (traces_bind _ _ tt _ _ _ Hscan).
  eapply traces_val; [exact Hmerge|].
  apply (traces_bind _ _ tt _ [ConsoleInfo [VStr "Compiling took"]] _ (traces_emit _)).
  apply traces_bind_throw. rewrite <- Hast. apply call_get_ast_traces.
Qed.

Lemma ast_failure_propagates_witness :
  exists merged,
    merge_sources output input = Return merged
    /\ traces (handleBuildResult ast_throws invariants_ok
                 output (VStr "v0.8.20") input (VStr ""))
         (Throw (Raised (VStr "ast failure")))
         [ConsoleInfo [VStr "Compiling took"]; GetAst merged].
Proof.
  eexists. split; [reflexivity|].
  apply (ast_failure_propagates ast_throws invariants_ok
           output (VStr "v0.8.20") input (VStr "") [] _ (Raised (VStr "ast failure"))).
  - apply (scan_errors_passes output (VArr [] []) []); reflexivity.
  - reflexivity.
  - reflexivity.
Defined.

(** The result object with another value of [invariants]. *)
Lemma build_result_invariants output compiler_version compiler_json contract_name
    ast invariants invariants' result :
  build_result output compiler_version compiler_json contract_name ast invariants
  = Return result ->
  exists degraded,
    build_result output compiler_version compiler_json contract_name ast invariants'
    = Return degraded
    /\ get degraded "invariants" = Return invariants'
    /\ forall k, k <> "invariants" -> get degraded k = get result k.
Proof.
  unfold build_result. intros H.
  destruct (extract source_map_of output contract_name) as [sourcemap|]; [|discriminate].
  destruct (extract bytecode_of output contract_name) as [bytecode|]; [|discriminate].
  destruct (extract runtime_bytecode_of output contract_name) as [runtime|]; [|discriminate].
  destruct (extract abi_of output contract_name) as [abi|]; [|discriminate].
  destruct (project_sources output) as [sources|]; [|discriminate].
  cbn [cbind] in *. injection H as <-.
  eexists. split; [reflexivity|]. split; [reflexivity|].
  intros k Hk. rewrite !get_object. cbn [obj_get].
  destruct (String.eqb_spec "invariants" k) as [<-|_]; [congruence | reflexivity].
Qed.

(** C4. When [get_invariants] throws on the tree that [get_ast] has given
    for the output at hand, [handleBuildResult] still returns a result: the
    exception is printed with [console.error], the [invariants] member is
    [null], and every other member is what it is in a run where the
    collaborator does not throw. *)
Theorem invariants_failure_degrades get_ast get_invariants other_invariants
    output compiler_version compiler_json contract_name
    merged analysis ast_tree e result events :
  merge_sources output compiler_json = Return merged ->
  get_ast merged = Return analysis ->
  get analysis "ast_tree" = Return ast_tree ->
  get_invariants ast_tree = Throw e ->
  traces (handleBuildResult get_ast other_invariants
            output compiler_version compiler_json contract_name)
    (Return result) events ->
  exists degraded events',
    traces (handleBuildResult get_ast get_invariants
              output compiler_version compiler_json contract_name)
      (Return degraded) events'
    /\ get degraded "invariants" = Return VNull
    /\ (forall k, k <> "invariants" -> get degraded k = get result k)
    /\ In (ConsoleError e) events'.
Proof.
  intros Hm Hg Htree Hthrow H.
  apply handleBuildResult_returned in H
    as (scanned & merged' & analysis' & ast & ast_tree' & Hscan & Hmerge & Hast & Ha & Ht & Hb & _).
  rewrite Hm in Hmerge. injection Hmerge as <-.
  rewrite Hg in Hast. injection Hast as <-.
  rewrite Htree in Ht. injection Ht as <-.
  destruct (build_result_invariants _ _ _ _ _ _ VNull _ Hb) as (degraded & Hd & Hnull & Hsame).
  exists degraded, (scanned ++ analysis_events get_invariants merged ast_tree).
  split; [|split; [exact Hnull | split; [exact Hsame|]]].
  - rewrite <- Hd.
    replace VNull with (invariants_or_null get_invariants ast_tree)
      by (unfold invariants_or_null; rewrite Hthrow; reflexivity).
    apply handleBuildResult_run with (analysis := analysis); assumption.
  - apply in_or_app. right. unfold analysis_events, invariants_events.
    rewrite Hthrow. cbn. tauto.
Qed.

Lemma invariants_failure_degrades_witness :
  exists degraded events',
    traces (handleBuildResult ast_ok throws_on_this_tree
              output (VStr "v0.8.20") input (VStr "Baz"))
      (Return degraded) events'
    /\ get degraded "invariants" = Return VNull
    /\ get degraded "bytecode" = Return (VStr "60c")
    /\ In (ConsoleError (Raised (VStr "invariants failure"))) events'.
Proof.
  assert (Hrun : traces (handleBuildResult ast_ok invariants_ok
                           output (VStr "v0.8.20") input (VStr "Baz"))
                   (Return baz_result)
                   (analysis_events invariants_ok merged (VStr "ast tree"))).
  { exact (handleBuildResult_run ast_ok invariants_ok output (VStr "v0.8.20") input
             (VStr "Baz") [] merged analysis (VStr "processed ast") (VStr "ast tree")
             (scan_errors_passes output (VArr [] []) [] eq_refl eq_refl eq_refl)
             eq_refl eq_refl eq_refl eq_refl). }
  destruct (invariants_failure_degrades ast_ok throws_on_this_tree invariants_ok
              output (VStr "v0.8.20") input (VStr "Baz")
              merged analysis (VStr "ast tree")
              (Raised (VStr "invariants failure")) baz_result _
              eq_refl eq_refl eq_refl eq_refl Hrun)
    as (degraded & events' & Ht & Hn & Hk & Hin).
  exists degraded, events'. split; [exact Ht|]. split; [exact Hn|]. split; [|exact Hin].
  rewrite Hk by discriminate. reflexivity.
Defined.

End Failures.

(** ** Loops *)

Section Loops.

Context {A B : Type}.
Implicit Types (body : B -> A -> completion B) (l : list A).

Lemma loop_invariant (P : B -> Prop) body l acc result :
  P acc ->
  (forall b x b', In x l -> P b -> body b x = Return b' -> P b') ->
  loop l body acc = Return result ->
  P result.
Proof.
  revert acc. induction l as [|x r IH]; intros acc Hacc Hstep; cbn [loop].
  - intros [= <-]. exact Hacc.
  - destruct (body acc x) as [acc'|e] eqn:Hb; cbn [cbind]; [|discriminate].
    apply IH.
    + eapply Hstep; [left; reflexivity | exact Hacc | exact Hb].
    + intros b y b' Hin. apply Hstep. right. exact Hin.
Qed.

End Loops.

(** ** The extraction with a filter *)

Section FilteredExtraction.

Variable member : value -> completion value.
Variable name : string.

Lemma matching_app l1 l2 : matching name (l1 ++ l2) = matching name l1 ++ matching name l2.
Proof.
  induction l1 as [|[n info] r IH]; cbn [matching app]; [reflexivity|].
  destruct (String.eqb n name); cbn [app]; rewrite IH; reflexivity.
Qed.


(** When no contract has the name, no member is read. *)
Lemma inner_loop_no_match contracts found :
  matching name contracts = [] ->
  loop contracts (keep_match member (VStr name)) found = Return found.
Proof.
  induction contracts as [|[n info] r IH]; cbn [loop matching]; [reflexivity|].
  unfold keep_match at 1. unfold key_is, is_string. rewrite (String.eqb_sym name n).
  destruct (String.eqb n name); [discriminate|]. cbn [cbind]. exact IH.
Qed.


Lemma outer_loop_no_match files found :
  listable files = true ->
  matching name (all_contracts files) = [] ->
  loop files (scan_file member (VStr name)) found = Return found.
Proof.
  unfold listable.
  induction files as [|[fn contract] r IH]; cbn [loop forallb snd]; [reflexivity|].
  intros Hd Hm. apply andb_true_iff in Hd as [Hc Hr].
  unfold all_contracts in Hm. cbn [flat_map snd] in Hm. rewrite matching_app in Hm.
  apply app_eq_nil in Hm as [Hm1 Hm2].
  unfold scan_file at 1. unfold entries_of in Hm1.
  destruct (entries contract) as [cs|e]; [|discriminate]. cbn [cbind].
  rewrite inner_loop_no_match by exact Hm1. cbn [cbind]. apply IH; assumption.
Qed.

End FilteredExtraction.

(** ** Keys in enumeration order *)

Section EnumerationOrder.

Implicit Types (o : object) (k : string) (keys : list string).

Lemma enumeration_order_app keys1 keys2 :
  enumeration_order (keys1 ++ keys2) = true ->
  enumeration_order keys1 = true
  /\ enumeration_order keys2 = true
  /\ forall a b, In a keys1 -> In b keys2 -> may_precede a b = true.
Proof.
  induction keys1 as [|k r IH]; cbn [app enumeration_order].
  - intros H. split; [reflexivity|]. split; [exact H|]. intros a b [].
  - intros H. apply andb_true_iff in H as [Hk Hr].
    rewrite forallb_app in Hk. apply andb_true_iff in Hk as [Hk1 Hk2].
    destruct (IH Hr) as (H1 & H2 & H12).
    split; [rewrite Hk1, H1; reflexivity|]. split; [exact H2|].
    intros a b [<-|Ha] Hb.
    + rewrite forallb_forall in Hk2. apply Hk2, Hb.
    + apply H12; assumption.
Qed.

Lemma enumeration_order_middle keys1 k keys2 :
  enumeration_order (keys1 ++ k :: keys2) = true ->
  enumeration_order (keys1 ++ [k]) = true.
Proof.
  change (k :: keys2) with ([k] ++ keys2). rewrite app_assoc.
  intros H. apply enumeration_order_app in H. tauto.
Qed.

Lemma may_precede_differ a k : may_precede a k = true -> a <> k.
Proof.
  unfold may_precede. intros H. apply andb_true_iff in H as [H _].
  apply negb_true_iff in H. apply String.eqb_neq. exact H.
Qed.

Lemma obj_get_absent o k :
  (forall a, In a (map fst o) -> a <> k) -> obj_get o k = None.
Proof.
  induction o as [|[a v] r IH]; cbn [obj_get map fst]; [reflexivity|].
  intros H. destruct (String.eqb_spec a k) as [->|_].
  - exfalso. apply (H k); [left; reflexivity | reflexivity].
  - apply IH. intros b Hb. apply H. right. exact Hb.
Qed.

Lemma enumeration_order_fresh o k :
  enumeration_order (map fst o ++ [k]) = true -> obj_get o k = None.
Proof.
  intros H. apply enumeration_order_app in H as (_ & _ & H).
  apply obj_get_absent. intros a Ha. apply may_precede_differ, H; [exact Ha | left; reflexivity].
Qed.

Lemma obj_add_index_last o n k v :
  array_index k = Some n ->
  (forall a, In a (map fst o) -> may_precede a k = true) ->
  obj_add_index o n k v = o ++ [(k, v)].
Proof.
  intros Hk. induction o as [|[a x] r IH]; cbn [obj_add_index map fst app]; [reflexivity|].
  intros H. assert (Ha := H a (or_introl eq_refl)).
  unfold may_precede in Ha. rewrite Hk in Ha. apply andb_true_iff in Ha as [_ Ha].
  destruct (array_index a) as [n'|]; [|discriminate]. rewrite Ha.
  rewrite IH; [reflexivity|]. intros b Hb. apply H. right. exact Hb.
Qed.

(** A key that can follow all the keys of an object is added at the end. *)
Lemma obj_set_last o k v :
  enumeration_order (map fst o ++ [k]) = true -> obj_set o k v = o ++ [(k, v)].
Proof.
  intros H. unfold obj_set.
  assert (Hfresh := enumeration_order_fresh o k H).
  apply obj_has_false in Hfresh. rewrite Hfresh.
  destruct (array_index k) as [n|] eqn:Hk; [|reflexivity].
  apply obj_add_index_last; [exact Hk|].
  apply enumeration_order_app in H as (_ & _ & H).
  intros a Ha. apply H; [exact Ha | left; reflexivity].
Qed.

End EnumerationOrder.

(** ** The extraction without a filter *)

Section FullExtraction.

Variable member : value -> completion value.




End FullExtraction.

(** ** The source merge leaves the rest of the output alone *)

Section MergeFrame.

Lemma get_seen_through_other v k x k' :
  array_index k = None -> k <> k' -> get (seen_through v k x) k' = get v k'.
Proof.
  intros Hk Hne. destruct v as [| |b|n|s|l p|o]; try reflexivity.
  - cbn [seen_through]. rewrite Hk.
    destruct (String.eqb k "length"); [reflexivity|].
    cbn [get]. destruct (array_index k'); [reflexivity|].
    destruct (String.eqb k' "length"); [reflexivity|].
    rewrite obj_get_update_ne by exact Hne. reflexivity.
  - cbn [seen_through get]. rewrite obj_get_update_ne by exact Hne. reflexivity.
Qed.

Lemma merge_source_other output entry merged k :
  merge_source output entry = Return merged ->
  k <> "sources" -> get merged k = get output k.
Proof.
  unfold merge_source. destruct entry as [fn contract].
  destruct (get output "sources") as [sources|]; cbn [cbind]; [|discriminate].
  destruct (get sources fn) as [record|]; cbn [cbind]; [|discriminate].
  destruct (get contract "content") as [content|]; cbn [cbind]; [|discriminate].
  destruct (set_member record "source" content) as [record'|]; cbn [cbind]; [|discriminate].
  intros [= <-] Hk. apply get_seen_through_other; [reflexivity | congruence].
Qed.

Lemma merge_sources_other output compiler_json merged k :
  merge_sources output compiler_json = Return merged ->
  k <> "sources" -> get merged k = get output k.
Proof.
  unfold merge_sources. intros H Hk.
  destruct (get compiler_json "sources") as [inputs|]; cbn [cbind] in H; [|discriminate].
  destruct (entries inputs) as [es|]; cbn [cbind] in H; [|discriminate].
  apply (loop_invariant (fun out => get out k = get output k)) in H; [exact H | reflexivity|].
  intros out x out' _ Hout Hstep. rewrite <- Hout. eapply merge_source_other; eassumption.
Qed.

Lemma extract_merged member output compiler_json merged contract_name :
  merge_sources output compiler_json = Return merged ->
  extract member merged contract_name = extract member output contract_name.
Proof.
  intros H. unfold extract, extract_one, extract_all.
  rewrite (merge_sources_other _ _ _ "contracts" H) by discriminate. reflexivity.
Qed.

End MergeFrame.

(** ** The members of the result *)

Section Members.

Lemma build_result_members output compiler_version compiler_json contract_name
    ast invariants result :
  build_result output compiler_version compiler_json contract_name ast invariants
  = Return result ->
  exists sourcemap bytecode runtime_bytecode abi sources,
    (extract source_map_of output contract_name = Return sourcemap
     /\ get result "sourcemap" = Return sourcemap)
    /\ (extract bytecode_of output contract_name = Return bytecode
        /\ get result "bytecode" = Return bytecode)
    /\ (extract runtime_bytecode_of output contract_name = Return runtime_bytecode
        /\ get result "runtime_bytecode" = Return runtime_bytecode)
    /\ (extract abi_of output contract_name = Return abi
        /\ get result "abi" = Return abi)
    /\ (project_sources output = Return sources
        /\ get result "sources" = Return sources)
    /\ get result "ast" = Return ast
    /\ get result "invariants" = Return invariants.
Proof.
  unfold build_result.
  destruct (extract source_map_of output contract_name) as [sourcemap|]; [|discriminate].
  destruct (extract bytecode_of output contract_name) as [bytecode|]; [|discriminate].
  destruct (extract runtime_bytecode_of output contract_name) as [runtime|]; [|discriminate].
  destruct (extract abi_of output contract_name) as [abi|]; [|discriminate].
  destruct (project_sources output) as [sources|]; [|discriminate].
  cbn [cbind]. intros [= <-]. exists sourcemap, bytecode, runtime, abi, sources.
  repeat split; reflexivity.
Qed.



End Members.

(** ** The filter policy *)

Section FilterPolicy.

Variable get_ast : value -> completion value.
Variable get_invariants : value -> completion value.


End FilterPolicy.

Section FilterPolicyExamples.

Example last_match_wins :
  selected bytecode_of "Foo" twice = VStr "60second"
  /\ extract bytecode_of (VObj [("contracts", VObj twice)]) (VStr "Foo")
     = Return (VStr "60second").
Proof. split; reflexivity. Qed.

Lemma example_run contract_name result :
  build_result merged (VStr "v0.8.20") input contract_name
    (VStr "processed ast") (VArr [VStr "invariant"] []) = Return result ->
  traces (handleBuildResult ast_ok invariants_ok
            output (VStr "v0.8.20") input contract_name)
    (Return result) (analysis_events invariants_ok merged (VStr "ast tree")).
Proof.
  intros <-.
  exact (handleBuildResult_run ast_ok invariants_ok output (VStr "v0.8.20") input
           contract_name [] merged analysis (VStr "processed ast") (VStr "ast tree")
           (scan_errors_passes output (VArr [] []) [] eq_refl eq_refl eq_refl)
           eq_refl eq_refl eq_refl eq_refl).
Defined.


End FilterPolicyExamples.

(** ** A contract name that no contract has *)

Section UnknownName.

Variable get_ast : value -> completion value.
Variable get_invariants : value -> completion value.

Lemma extract_no_match member output name files :
  name <> "" ->
  get output "contracts" = Return (VObj files) ->
  listable files = true ->
  matching name (all_contracts files) = [] ->
  extract member output (VStr name) = Return VNull.
Proof.
  intros Hname Hc Hl Hm. unfold extract. cbn [truthy].
  apply String.eqb_neq in Hname. rewrite Hname. cbn [negb].
  unfold extract_one. rewrite Hc. cbn [cbind entries].
  apply outer_loop_no_match; assumption.
Qed.

(** C10. With a non-empty contract name that no contract of the output
    has, and an output whose other steps of the normalization go through,
    [handleBuildResult] returns a result, in which [sourcemap], [bytecode],
    [runtime_bytecode] and [abi] are [null]. *)
Theorem unknown_contract_name_gives_nulls
    output compiler_version compiler_json name
    scanned merged analysis ast ast_tree files sources :
  name <> "" ->
  traces (scan_errors output) (Return tt) scanned ->
  merge_sources output compiler_json = Return merged ->
  get_ast merged = Return analysis ->
  get analysis "ast" = Return ast ->
  get analysis "ast_tree" = Return ast_tree ->
  project_sources merged = Return sources ->
  get output "contracts" = Return (VObj files) ->
  listable files = true ->
  matching name (all_contracts files) = [] ->
  traces (handleBuildResult get_ast get_invariants
            output compiler_version compiler_json (VStr name))
    (Return (VObj [("ast", ast); ("sourcemap", VNull); ("sources", sources);
                   ("bytecode", VNull); ("runtime_bytecode", VNull); ("abi", VNull);
                   ("invariants", invariants_or_null get_invariants ast_tree);
                   ("compiler_args",
                    VObj [("version", compiler_version);
                          ("compiler_json", compiler_json)])]))
    (scanned ++ analysis_events get_invariants merged ast_tree).
Proof.
  intros Hname Hscan Hmerge Hast Ha Ht Hp Hc Hl Hm.
  assert (Hx : forall member, extract member merged (VStr name) = Return VNull).
  { intros member. rewrite (extract_merged member _ _ _ _ Hmerge).
    eapply extract_no_match; eassumption. }
  assert (Hb : build_result merged compiler_version compiler_json (VStr name) ast
                 (invariants_or_null get_invariants ast_tree)
               = Return (VObj [("ast", ast); ("sourcemap", VNull); ("sources", sources);
                               ("bytecode", VNull); ("runtime_bytecode", VNull);
                               ("abi", VNull);
                               ("invariants", invariants_or_null get_invariants ast_tree);
                               ("compiler_args",
                                VObj [("version", compiler_version);
                                      ("compiler_json", compiler_json)])])).
  { unfold build_result. rewrite !Hx, Hp. reflexivity. }
  rewrite <- Hb. eapply handleBuildResult_run; eassumption.
Qed.

End UnknownName.

Lemma unknown_contract_name_gives_nulls_witness :
  exists sources invariants compiler_args,
    traces (handleBuildResult ast_ok invariants_ok
              output (VStr "v0.8.20") input (VStr "Qux"))
      (Return (VObj [("ast", VStr "processed ast"); ("sourcemap", VNull);
                     ("sources", sources);
                     ("bytecode", VNull); ("runtime_bytecode", VNull); ("abi", VNull);
                     ("invariants", invariants); ("compiler_args", compiler_args)]))
      (analysis_events invariants_ok merged (VStr "ast tree")).
Proof.
  eexists _, _, _.
  apply (unknown_contract_name_gives_nulls ast_ok invariants_ok
           output (VStr "v0.8.20") input "Qux" [] merged analysis
           (VStr "processed ast") (VStr "ast tree") files_of_output).
  - discriminate.
  - apply (scan_errors_passes output (VArr [] []) []); reflexivity.
  - reflexivity.
  - reflexivity.
  - reflexivity.
  - reflexivity.
  - reflexivity.
  - reflexivity.
  - reflexivity.
  - reflexivity.
Defined.

(** ** The source merge and the projection of the sources *)

Section SourceMerge.

Implicit Types (o records inputs : object) (k fn : string).

Lemma obj_update_keys o k v : map fst (obj_update o k v) = map fst o.
Proof.
  induction o as [|[a x] r IH]; cbn [obj_update map fst]; [reflexivity|].
  destruct (String.eqb a k); cbn [map fst]; [reflexivity | rewrite IH; reflexivity].
Qed.

Lemma well_ordered_head k v o :
  well_ordered ((k, v) :: o) = true -> obj_get o k = None /\ well_ordered o = true.
Proof.
  unfold well_ordered. cbn [map fst enumeration_order]. intros H.
  apply andb_true_iff in H as [Hk Hr]. split; [|exact Hr].
  apply obj_get_absent. intros a Ha Heq. subst a.
  rewrite forallb_forall in Hk. specialize (Hk k Ha).
  apply may_precede_differ in Hk. congruence.
Qed.

Lemma obj_get_in o k v : well_ordered o = true -> In (k, v) o -> obj_get o k = Some v.
Proof.
  induction o as [|[a x] r IH]; intros Hord Hin; [destruct Hin|].
  apply well_ordered_head in Hord as [Ha Hr]. cbn [obj_get].
  destruct Hin as [[= -> ->]|Hin].
  - rewrite String.eqb_refl. reflexivity.
  - destruct (String.eqb_spec a k) as [->|_]; [|apply IH; assumption].
    rewrite (IH Hr Hin) in Ha. discriminate.
Qed.

Lemma get_seen_through_same v k x x0 :
  array_index k = None -> String.eqb k "length" = false ->
  get v k = Return x0 -> x0 <> VUndefined ->
  get (seen_through v k x) k = Return x.
Proof.
  intros Hi Hl Hg Hx. destruct v as [| |b|n|s|l p|o]; try discriminate.
  - injection Hg as <-. congruence.
  - injection Hg as <-. congruence.
  - cbn [get] in Hg. rewrite Hi, Hl in Hg. injection Hg as <-. congruence.
  - cbn [get seen_through] in *. rewrite Hi, Hl in *. cbn [get]. rewrite Hi, Hl.
    rewrite obj_get_update_eq. destruct (obj_get p k); [reflexivity|].
    injection Hg as <-. congruence.
  - cbn [get seen_through] in *. rewrite obj_get_update_eq.
    destruct (obj_get o k); [reflexivity|]. injection Hg as <-. congruence.
Qed.

(** One turn of the merge loop, on the source records. *)
Lemma merge_source_records out entry out' records :
  get out "sources" = Return (VObj records) ->
  merge_source out entry = Return out' ->
  get out' "sources" = Return (VObj (merge_record records entry))
  /\ obj_has records (fst entry) = true
  /\ exists content, get (snd entry) "content" = Return content.
Proof.
  intros Hs. unfold merge_source, merge_record. destruct entry as [fn contract].
  rewrite Hs. cbn [cbind fst snd]. rewrite get_object. cbn [cbind].
  destruct (get contract "content") as [content|] eqn:Hc; cbn [cbind]; [|discriminate].
  unfold with_source. cbn [returned].
  destruct (set_member (default VUndefined (obj_get records fn)) "source" content)
    as [record'|] eqn:Hset; cbn [cbind]; [|discriminate].
  intros [= <-]. split; [|split].
  - cbn [seen_through returned].
    eapply get_seen_through_same; [reflexivity | reflexivity | exact Hs | discriminate].
  - unfold obj_has. destruct (obj_get records fn); [reflexivity | discriminate].
  - exists content. reflexivity.
Qed.

Lemma obj_has_merge_record records entry fn :
  obj_has (merge_record records entry) fn = obj_has records fn.
Proof.
  unfold merge_record, obj_has. destruct entry as [k contract].
  destruct (String.eqb_spec k fn) as [->|Hne].
  - rewrite obj_get_update_eq. destruct (obj_get records fn); reflexivity.
  - rewrite obj_get_update_ne by exact Hne. reflexivity.
Qed.

(** The merge loop, on the source records; a loop that returns has found
    a record and a readable input for every file of the input. *)
Lemma merge_loop_records inputs out merged records :
  get out "sources" = Return (VObj records) ->
  loop inputs merge_source out = Return merged ->
  get merged "sources" = Return (VObj (merged_records inputs records))
  /\ forall fn contract, In (fn, contract) inputs ->
       obj_has records fn = true /\ exists content, get contract "content" = Return content.
Proof.
  revert out records. induction inputs as [|entry r IH]; intros out records Hs; cbn [loop].
  - intros [= <-]. split; [exact Hs | intros fn contract []].
  - destruct (merge_source out entry) as [out1|] eqn:Hstep; cbn [cbind]; [|discriminate].
    destruct (merge_source_records _ _ _ _ Hs Hstep) as (Hs1 & Hhas & Hcontent).
    intros H. destruct (IH _ _ Hs1 H) as [Hm Hall]. split; [exact Hm|].
    intros fn contract [->|Hin].
    + split; [exact Hhas | exact Hcontent].
    + destruct (Hall fn contract Hin) as [Hh Hc]. rewrite obj_has_merge_record in Hh.
      split; [exact Hh | exact Hc].
Qed.

Lemma merged_records_keys inputs records :
  map fst (merged_records inputs records) = map fst records.
Proof.
  revert records. induction inputs as [|[fn contract] r IH]; intros records; [reflexivity|].
  unfold merged_records. cbn [fold_left]. fold (merged_records r).
  rewrite IH. unfold merge_record. apply obj_update_keys.
Qed.

(** The record of [fn] after the loop, when no two inputs have the same
    path. *)
Lemma merged_records_lookup inputs records fn :
  well_ordered inputs = true ->
  obj_get (merged_records inputs records) fn
  = match obj_get records fn with
    | Some record =>
        Some (match obj_get inputs fn with
              | Some contract => with_source (returned (get contract "content")) record
              | None => record
              end)
    | None => None
    end.
Proof.
  revert records. induction inputs as [|[k contract] r IH]; intros records Hord.
  - cbn. destruct (obj_get records fn); reflexivity.
  - apply well_ordered_head in Hord as [Hk Hr].
    unfold merged_records. cbn [fold_left]. fold (merged_records r).
    rewrite (IH _ Hr). unfold merge_record. cbn [obj_get].
    destruct (String.eqb_spec k fn) as [->|Hne].
    + rewrite obj_get_update_eq, Hk. destruct (obj_get records fn); reflexivity.
    + rewrite obj_get_update_ne by exact Hne. reflexivity.
Qed.

(** The projection loop: the table holds the projection of each record. *)
Lemma project_loop_lookup records table0 result :
  well_ordered records = true ->
  loop records project_source (VObj table0) = Return result ->
  exists table,
    result = VObj table
    /\ forall fn, obj_get table fn
                  = match obj_get records fn with
                    | Some record => Some (projection record)
                    | None => obj_get table0 fn
                    end.
Proof.
  revert table0. induction records as [|[k record] r IH]; intros table0 Hord; cbn [loop].
  - intros [= <-]. exists table0. split; [reflexivity | intros fn; reflexivity].
  - apply well_ordered_head in Hord as [Hk Hr].
    unfold project_source at 1.
    destruct (get record "id") as [id|] eqn:Hid; cbn [cbind]; [|discriminate].
    destruct (get record "source") as [source|] eqn:Hsrc; cbn [cbind set_member]; [|discriminate].
    intros H. destruct (IH _ Hr H) as (table & -> & Hlook).
    exists table. split; [reflexivity|]. intros fn. rewrite Hlook. cbn [obj_get].
    destruct (String.eqb_spec k fn) as [->|Hne].
    + rewrite Hk, obj_get_set_eq. unfold projection. rewrite Hid, Hsrc. reflexivity.
    + destruct (obj_get r fn); [reflexivity|]. apply obj_get_set_ne, Hne.
Qed.

Lemma projection_with_source content props :
  projection (with_source content (VObj props))
  = VObj [("id", returned (get (VObj props) "id")); ("source", content)].
Proof.
  unfold projection, with_source. cbn [set_member returned].
  rewrite !get_object, obj_get_set_eq, obj_get_set_ne by discriminate. reflexivity.
Qed.

End SourceMerge.

Section SourcesOfTheResult.

Variable get_ast : value -> completion value.
Variable get_invariants : value -> completion value.

Lemma obj_get_member o k v : obj_get o k = Some v -> In (k, v) o.
Proof.
  induction o as [|[a x] r IH]; cbn [obj_get]; [discriminate|].
  destruct (String.eqb_spec a k) as [->|_].
  - intros [= ->]. left. reflexivity.
  - intros H. right. apply IH, H.
Qed.

(** C9. In a result of [handleBuildResult], for every file path of the
    sources of the input document that has a record among the sources of
    the output document, [sources[file].source] is the content that the
    input document gives for that file, and [sources[file].id] is the id of
    the file in the output document of the compiler. *)
Theorem sources_carry_input_content
    output compiler_version compiler_json contract_name result events inputs records :
  traces (handleBuildResult get_ast get_invariants
            output compiler_version compiler_json contract_name)
    (Return result) events ->
  get compiler_json "sources" = Return (VObj inputs) ->
  well_ordered inputs = true ->
  get output "sources" = Return (VObj records) ->
  well_ordered records = true ->
  records_are_objects records = true ->
  forall fn contract record,
    In (fn, contract) inputs ->
    obj_get records fn = Some record ->
    exists content sources,
      get contract "content" = Return content
      /\ get result "sources" = Return sources
      /\ get sources fn = Return (VObj [("id", returned (get record "id"));
                                        ("source", content)]).
Proof.
  intros H Hin Hoin Hrec Horec Hobj fn contract record Hfn Hrecord.
  apply handleBuildResult_returned in H
    as (scanned & merged & analysis & ast & ast_tree & _ & Hmerge & _ & _ & _ & Hb & _).
  apply build_result_members in Hb
    as (_ & _ & _ & _ & sources & _ & _ & _ & _ & (Hp & Hs) & _).
  unfold merge_sources in Hmerge. rewrite Hin in Hmerge. cbn [cbind entries] in Hmerge.
  destruct (merge_loop_records _ _ _ _ Hrec Hmerge) as [Hm Hall].
  destruct (Hall fn contract Hfn) as [_ (content & Hc)].
  exists content, sources. split; [exact Hc|].
  split; [exact Hs|].
  unfold project_sources in Hp. rewrite Hm in Hp. cbn [cbind entries] in Hp.
  apply project_loop_lookup in Hp as (table & -> & Hlook).
  2:{ unfold well_ordered. rewrite merged_records_keys. exact Horec. }
  rewrite get_object, Hlook, merged_records_lookup by exact Hoin.
  rewrite Hrecord, (obj_get_in _ _ _ Hoin Hfn), Hc. cbn [returned default from_option id].
  assert (Hisobj : is_object record = true).
  { unfold records_are_objects in Hobj. rewrite forallb_forall in Hobj.
    apply (Hobj (fn, record)). apply obj_get_member, Hrecord. }
  destruct record as [| | | | | |props]; try discriminate.
  rewrite projection_with_source. reflexivity.
Qed.

End SourcesOfTheResult.

Lemma sources_carry_input_content_witness :
  exists sources,
    get full_result "sources" = Return sources
    /\ get sources "A.sol"
       = Return (VObj [("id", VNum 0); ("source", VStr "contract Foo {}")]).
Proof.
  destruct (sources_carry_input_content ast_ok invariants_ok
              output (VStr "v0.8.20") input (VStr "") full_result _
              [("A.sol", VObj [("content", VStr "contract Foo {}")])]
              [("A.sol", VObj [("id", VNum 0); ("ast", VObj [])])]
              (example_run (VStr "") full_result eq_refl)
              eq_refl eq_refl eq_refl eq_refl eq_refl
              "A.sol" (VObj [("content", VStr "contract Foo {}")])
              (VObj [("id", VNum 0); ("ast", VObj [])])
              (or_introl eq_refl) eq_refl)
    as (content & sources & Hcontent & Hs & Hfn).
  injection Hcontent as <-.
  exists sources. split; [exact Hs | exact Hfn].
Defined.

(** ** The cache (lines 253-263) *)

Section Cache.

Lemma paths_differ hash : outputJson hash <> currentFile hash.
Proof. unfold outputJson, currentFile. cbn. discriminate. Qed.

Lemma tmp_differs hash : currentFile hash <> ".tmp".
Proof. unfold currentFile. cbn. discriminate. Qed.

(** [cache_input] prints nothing and leaves every file but the input cache
    file as it is; what it returns is the digest of the document it received
    and the augmented document. *)
Lemma cache_input_frame compiler_json hash w r w1 :
  contractHash compiler_json = Return hash ->
  cache_input compiler_json w = (r, w1) ->
  trace w1 = trace w
  /\ (forall path, path <> currentFile hash -> files w1 !! path = files w !! path)
  /\ match r with
     | Return (h, a) => h = hash /\ augment compiler_json = Return a
     | Throw _ => True
     end.
Proof.
  intros Hh H. unfold cache_input, bind, lift, ret, existsSync, mkdirSync, writeFileSync in H.
  rewrite Hh in H.
  destruct (augment compiler_json) as [a|e].
  - destruct (bool_decide (".tmp" ∈ dirs w) || bool_decide (is_Some (files w !! ".tmp")));
      cbn [files dirs trace] in H;
      match type of H with context [if ?b then _ else _] => destruct b end;
      try destruct (JSON_stringify a) as [text|e];
      injection H as <- <-; cbn [files dirs trace];
      (split; [reflexivity|]); (split; [|tauto]);
      intros path Hp; rewrite ?lookup_insert_ne by congruence; reflexivity.
  - destruct (bool_decide (".tmp" ∈ dirs w) || bool_decide (is_Some (files w !! ".tmp")));
      injection H as <- <-; cbn [files dirs trace]; auto.
Qed.

Lemma cache_input_returns compiler_json text augmented augmented_text w :
  JSON_stringify compiler_json = Return text ->
  augment compiler_json = Return augmented ->
  JSON_stringify augmented = Return augmented_text ->
  exists w',
    cache_input compiler_json w = (Return (Md5.md5_hex text, augmented), w')
    /\ (files w !! currentFile (Md5.md5_hex text) = None ->
        currentFile (Md5.md5_hex text) ∉ dirs w ->
        files w' !! currentFile (Md5.md5_hex text) = Some augmented_text).
Proof.
  intros Ht Ha Hat.
  unfold cache_input, bind, lift, ret, existsSync, mkdirSync, writeFileSync, contractHash.
  rewrite Ht, Ha. cbn [cbind].
  destruct (bool_decide (".tmp" ∈ dirs w) || bool_decide (is_Some (files w !! ".tmp")));
    cbn [files dirs trace];
    match goal with |- context [if ?b then _ else _] => destruct b eqn:Hb end;
    rewrite ?Hat; eexists; (split; [reflexivity|]); cbn [files dirs trace]; intros Hnone Hdir.
  all: try (rewrite lookup_insert_eq; reflexivity).
  all: exfalso; apply orb_true_iff in Hb as [Hb|Hb]; apply bool_decide_eq_true_1 in Hb.
  - contradiction.
  - rewrite Hnone in Hb. destruct Hb as [x Hx]. discriminate.
  - apply elem_of_union in Hb as [Hb|Hb]; [|contradiction].
    apply elem_of_singleton in Hb. exact (tmp_differs _ Hb).
  - rewrite Hnone in Hb. destruct Hb as [x Hx]. discriminate.
Qed.

(** The augmented document can be serialized. *)
Lemma augment_serializable compiler_json augmented :
  augment compiler_json = Return augmented ->
  exists text, JSON_stringify augmented = Return text.
Proof.
  unfold augment.
  destruct (get compiler_json "settings") as [original|]; cbn [cbind]; [|discriminate].
  destruct (generate_settings original) as [settings|]; cbn [cbind]; [|discriminate].
  destruct compiler_json; cbn [set_member]; try discriminate;
    intros [= <-]; unfold JSON_stringify; cbn [Json.stringify]; eauto.
Qed.




End Cache.

(** ** The pipeline with a cached output *)

Section CachedOutput.

Variable get_ast : value -> completion value.
Variable get_invariants : value -> completion value.
Variable shell : string -> gmap string string -> exec_result.
Variable checkSolcSelectInstalled : bool.

Lemma find_version_traces compiler_version :
  exists versionNumber event,
    traces (find_version compiler_version) (Return versionNumber) [event]
    /\ is_exec event = false.
Proof.
  unfold find_version. destruct (version_number compiler_version) as [number|].
  - exists number, (ConsoleLog [VStr "Found version number"; VStr number]).
    split; [|reflexivity].
    apply (traces_bind_last _ _ tt); [apply traces_emit | apply traces_ret].
  - exists "undefined", (ConsoleLog [VStr "Could not find version number"]).
    split; [|reflexivity].
    apply (traces_bind_last _ _ tt); [apply traces_emit | apply traces_ret].
Qed.

Lemma normalize_and_resolve_steady text compiler_version compiler_json contract_name :
  steady (normalize_and_resolve get_ast get_invariants
            text compiler_version compiler_json contract_name).
Proof.
  unfold normalize_and_resolve.
  apply steady_bind; [apply steady_lift | intros output].
  apply steady_bind; [apply handleBuildResult_steady | intros result].
  apply steady_bind; [apply steady_lift | intros settings].
  apply steady_bind; [apply steady_lift | intros remappings].
  apply steady_ret.
Qed.

Lemma normalize_and_resolve_run text compiler_version compiler_json contract_name
    output result events settings remappings :
  JSON_parse text = Return output ->
  traces (handleBuildResult get_ast get_invariants
            output compiler_version compiler_json contract_name)
    (Return result) events ->
  get compiler_json "settings" = Return settings ->
  get settings "remappings" = Return remappings ->
  traces (normalize_and_resolve get_ast get_invariants
            text compiler_version compiler_json contract_name)
    (Return (VObj (spread [("success", VBool true); ("remappings", remappings)] result)))
    events.
Proof.
  intros Hparse Hrun Hs Hr. unfold normalize_and_resolve.
  eapply traces_val; [exact Hparse|].
  eapply traces_bind_last; [exact Hrun|].
  eapply traces_val; [exact Hs|]. eapply traces_val; [exact Hr|]. apply traces_ret.
Qed.

(** The executor, when the output cache file is there: no subprocess, and
    the file is read and normalized. *)
Lemma executor_cached compiler_version compiler_json contract_name w hash text :
  contractHash compiler_json = Return hash ->
  files w !! outputJson hash = Some text ->
  exists r w' events,
    executor get_ast get_invariants shell checkSolcSelectInstalled
      compiler_version compiler_json contract_name w = (r, w')
    /\ trace w' = trace w ++ events
    /\ no_exec events = true
    /\ forall augmented,
         augment compiler_json = Return augmented ->
         exists versioned,
           traces (normalize_and_resolve get_ast get_invariants text
                     (VStr compiler_version) augmented contract_name) r versioned.
Proof.
  intros Hh Hfile. unfold executor. unfold bind at 1.
  destruct (cache_input compiler_json w) as [c w1] eqn:Hc.
  destruct (cache_input_frame _ _ _ _ _ Hh Hc) as (Ht & Hf & Hr).
  destruct c as [[h a]|e].
  - destruct Hr as [-> Ha].
    destruct (find_version_traces compiler_version) as (v & ev & Hv & Hev).
    unfold bind at 1. rewrite Hv.
    unfold bind at 1. unfold existsSync at 1. cbn [files dirs add_events].
    rewrite (Hf _ (paths_differ hash)), Hfile.
    assert (Hsome : bool_decide (is_Some (Some text)) = true)
      by (apply bool_decide_eq_true_2; eauto).
    rewrite Hsome, orb_true_r.
    unfold read_and_normalize, bind at 1, readFileSync.
    cbn [files add_events]. rewrite (Hf _ (paths_differ hash)), Hfile.
    destruct (normalize_and_resolve_steady text (VStr compiler_version) a contract_name)
      as (r & evs & Hn & Hne).
    rewrite Hn. eexists r, _, (ev :: evs). split; [reflexivity|].
    split; [|split].
    + cbn [trace add_events]. rewrite Ht, <- app_assoc. reflexivity.
    + unfold no_exec in *. cbn [forallb]. rewrite Hev, Hne. reflexivity.
    + intros augmented Haug. rewrite Ha in Haug. injection Haug as <-.
      exists evs. exact Hn.
  - exists (Throw e), w1, []. split; [reflexivity|]. split; [|split].
    + rewrite Ht, app_nil_r. reflexivity.
    + reflexivity.
    + intros augmented Haug. exfalso.
      assert (Hs : exists t, JSON_stringify compiler_json = Return t).
      { unfold contractHash in Hh. destruct (JSON_stringify compiler_json); [eauto|discriminate]. }
      destruct Hs as (t & Hs). destruct (augment_serializable _ _ Haug) as (t' & Ht').
      destruct (cache_input_returns _ _ _ _ w Hs Haug Ht') as (w' & Hret & _).
      rewrite Hret in Hc. discriminate.
Qed.

(** C8, counterexample. The output cache file of the request exists and
    holds an output document with an error diagnostic; the promise of
    [work_on_json] is not fulfilled: there is no result, successful or
    not. *)
Lemma cached_output_without_result :
  contractHash input = Return input_hash
  /\ is_Some (files rejected_cache !! outputJson input_hash)
  /\ ~ exists v w',
        work_on_json ast_ok invariants_ok failing_shell true
          "v0.8.20" input (VStr "") rejected_cache
        = (Fulfilled v, w').
Proof.
  split; [vm_compute; reflexivity|]. split; [vm_compute; eauto|].
  intros (v & w' & H). vm_compute in H. discriminate H.
Qed.

(** C8, amended. When the output cache file of a request exists,
    [work_on_json] runs no subprocess; it reads the file and parses and
    normalizes what it holds; and when that normalization returns a result,
    the promise is fulfilled with [success: true], the remappings of the
    settings and the members of the result. *)
Theorem cached_output_skips_compiler
    compiler_version compiler_json contract_name w hash text p w' :
  contractHash compiler_json = Return hash ->
  files w !! outputJson hash = Some text ->
  work_on_json get_ast get_invariants shell checkSolcSelectInstalled
    compiler_version compiler_json contract_name w = (p, w') ->
  (exists events, trace w' = trace w ++ events /\ no_exec events = true)
  /\ forall augmented output result events settings remappings,
       augment compiler_json = Return augmented ->
       JSON_parse text = Return output ->
       traces (handleBuildResult get_ast get_invariants
                 output (VStr compiler_version) augmented contract_name)
         (Return result) events ->
       get augmented "settings" = Return settings ->
       get settings "remappings" = Return remappings ->
       p = Fulfilled
             (VObj (spread [("success", VBool true); ("remappings", remappings)] result)).
Proof.
  intros Hh Hfile Hrun.
  destruct (executor_cached compiler_version compiler_json contract_name w hash text
              Hh Hfile) as (r & w1 & events & Hexec & Htrace & Hno & Hnorm).
  unfold work_on_json in Hrun. rewrite Hexec in Hrun.
  assert (Hw : w' = w1) by (destruct r; injection Hrun as _ <-; reflexivity).
  subst w1. split.
  - exists events. split; [exact Htrace | exact Hno].
  - intros augmented output result evs settings remappings Ha Hparse Hres Hs Hr.
    destruct (Hnorm augmented Ha) as (versioned & Hn).
    destruct (traces_unique _ _ _ _ _ Hn
                (normalize_and_resolve_run _ _ _ _ _ _ _ _ _ Hparse Hres Hs Hr)) as [-> _].
    injection Hrun as <-. reflexivity.
Qed.

End CachedOutput.

Lemma cached_output_skips_compiler_witness :
  exists w',
    work_on_json ast_ok invariants_ok failing_shell true
      "v0.8.20" input (VStr "") compiled_cache
    = (Fulfilled (VObj (spread [("success", VBool true); ("remappings", VArr [] [])]
                          cached_result)),
       w')
    /\ exists events, trace w' = events /\ no_exec events = true.
Proof.
  assert (Hh : contractHash input = Return input_hash) by (vm_compute; reflexivity).
  assert (Hfile : files compiled_cache !! outputJson input_hash
                  = Some (default "" (Json.stringify output)))
    by (vm_compute; reflexivity).
  assert (Haug : augment input = Return augmented_input) by (vm_compute; reflexivity).
  assert (Hparse : JSON_parse (default "" (Json.stringify output)) = Return output)
    by (vm_compute; reflexivity).
  assert (Hrun : traces (handleBuildResult ast_ok invariants_ok
                           output (VStr "v0.8.20") augmented_input (VStr ""))
                   (Return cached_result)
                   (analysis_events invariants_ok merged (VStr "ast tree"))).
  { exact (handleBuildResult_run ast_ok invariants_ok output (VStr "v0.8.20")
             augmented_input (VStr "") [] merged analysis
             (VStr "processed ast") (VStr "ast tree")
             (scan_errors_passes output (VArr [] []) [] eq_refl eq_refl eq_refl)
             eq_refl eq_refl eq_refl eq_refl). }
  destruct (work_on_json ast_ok invariants_ok failing_shell true
              "v0.8.20" input (VStr "") compiled_cache) as [p w'] eqn:Hwork.
  destruct (cached_output_skips_compiler ast_ok invariants_ok failing_shell true
              "v0.8.20" input (VStr "") compiled_cache input_hash
              (default "" (Json.stringify output)) p w' Hh Hfile Hwork)
    as [(events & Ht & Hno) Hp].
  exists w'. split.
  - f_equal.
    exact (Hp augmented_input output cached_result _
              (VObj [("remappings", VArr [] []);
                     ("outputSelection", selection per_contract_selectors whole_file_selectors)])
              (VArr [] []) Haug Hparse Hrun eq_refl eq_refl).
  - exists events. split; [exact Ht | exact Hno].
Defined.

(** ** Well-formed documents are normalized *)

Section WellFormed.

Variable get_ast : value -> completion value.
Variable get_invariants : value -> completion value.

Lemma loop_returns {A B} (P : B -> Prop) (body : B -> A -> completion B) l acc :
  P acc ->
  (forall b x, In x l -> P b -> exists b', body b x = Return b' /\ P b') ->
  exists result, loop l body acc = Return result /\ P result.
Proof.
  revert acc. induction l as [|x r IH]; intros acc Hacc Hstep; cbn [loop].
  - exists acc. split; [reflexivity | exact Hacc].
  - destruct (Hstep acc x (or_introl eq_refl) Hacc) as (b' & Hb & Hp).
    rewrite Hb. cbn [cbind]. apply IH; [exact Hp|].
    intros b y Hy. apply Hstep. right. exact Hy.
Qed.

Lemma obj_has_keys o o' k : map fst o = map fst o' -> obj_has o k = obj_has o' k.
Proof.
  unfold obj_has. revert o'. induction o as [|[a x] r IH]; intros [|[a' x'] r'];
    cbn [map fst obj_get]; try discriminate; [reflexivity|].
  intros [= -> Hr]. destruct (String.eqb a' k); [reflexivity | apply IH, Hr].
Qed.

Lemma records_are_objects_update records fn props :
  records_are_objects records = true ->
  records_are_objects (obj_update records fn (VObj props)) = true.
Proof.
  unfold records_are_objects.
  induction records as [|[a x] r IH]; cbn [obj_update forallb snd]; [reflexivity|].
  intros H. apply andb_true_iff in H as [Hx Hr].
  destruct (String.eqb a fn); cbn [forallb snd is_object].
  - exact Hr.
  - rewrite Hx, IH by exact Hr. reflexivity.
Qed.

Lemma merge_sources_total output compiler_json inputs records :
  get compiler_json "sources" = Return (VObj inputs) ->
  get output "sources" = Return (VObj records) ->
  records_are_objects records = true ->
  inputs_covered inputs records = true ->
  exists merged,
    merge_sources output compiler_json = Return merged
    /\ exists records',
         get merged "sources" = Return (VObj records')
         /\ records_are_objects records' = true.
Proof.
  intros Hin Hout Hobj Hcov. unfold merge_sources. rewrite Hin. cbn [cbind entries].
  destruct (loop_returns
              (fun out => exists records',
                   get out "sources" = Return (VObj records')
                   /\ map fst records' = map fst records
                   /\ records_are_objects records' = true)
              merge_source inputs output)
    as (merged & Hloop & records' & Hs & _ & Ho); [eauto | | eauto].
  - intros out [fn contract] Hx (recs & Hs & Hk & Ho).
    unfold inputs_covered in Hcov. rewrite forallb_forall in Hcov.
    specialize (Hcov _ Hx). cbn [fst snd] in Hcov. apply andb_true_iff in Hcov as [Hhas Hc].
    rewrite <- (obj_has_keys _ _ fn Hk) in Hhas. apply obj_has_true in Hhas as (record & Hrec).
    assert (Hro : is_object record = true).
    { unfold records_are_objects in Ho. rewrite forallb_forall in Ho.
      apply (Ho (fn, record)), obj_get_member, Hrec. }
    destruct record as [| | | | | |props]; try discriminate.
    destruct (get contract "content") as [content|] eqn:Hcontent; [|discriminate].
    unfold merge_source. rewrite Hs. cbn [cbind]. rewrite get_object, Hrec.
    cbn [default from_option id cbind]. rewrite Hcontent. cbn [cbind set_member seen_through].
    eexists. split; [reflexivity|].
    exists (obj_update recs fn (VObj (obj_set props "source" content))). split; [|split].
    + eapply get_seen_through_same; [reflexivity | reflexivity | exact Hs | discriminate].
    + rewrite obj_update_keys. exact Hk.
    + apply records_are_objects_update, Ho.
Qed.

Lemma project_sources_total merged records :
  get merged "sources" = Return (VObj records) ->
  records_are_objects records = true ->
  exists sources, project_sources merged = Return sources.
Proof.
  intros Hs Ho. unfold project_sources. rewrite Hs. cbn [cbind entries].
  destruct (loop_returns (fun table => exists t, table = VObj t) project_source records (VObj []))
    as (sources & Hloop & _); [eauto | | eauto].
  intros table [fn record] Hx (t & ->).
  unfold records_are_objects in Ho. rewrite forallb_forall in Ho.
  specialize (Ho _ Hx). cbn [snd] in Ho.
  destruct record as [| | | | | |props]; try discriminate.
  unfold project_source. rewrite !get_object. cbn [cbind set_member]. eauto.
Qed.

Variable member : value -> completion value.

Lemma extract_total output contract_name files :
  get output "contracts" = Return (VObj files) ->
  forallb (fun file =>
             is_object (snd file)
             && forallb (fun contract => is_return (member (snd contract)))
                  (entries_of (snd file))) files = true ->
  exists extracted, extract member output contract_name = Return extracted.
Proof.
  intros Hc Hf. unfold extract, extract_one, extract_all. rewrite Hc. cbn [cbind entries].
  rewrite forallb_forall in Hf.
  destruct (truthy contract_name).
  - destruct (loop_returns (fun _ => True) (scan_file member contract_name) files VNull)
      as (found & Hloop & _); [exact I | | eauto].
    intros found [fn contract] Hx _. specialize (Hf _ Hx). cbn [snd] in Hf.
    apply andb_true_iff in Hf as [Ho Hm].
    destruct contract as [| | | | | |cs]; try discriminate.
    unfold scan_file. cbn [entries cbind]. unfold entries_of in Hm. cbn [entries] in Hm.
    rewrite forallb_forall in Hm.
    destruct (loop_returns (fun _ => True) (keep_match member contract_name) cs found)
      as (found' & Hin & _); [exact I | | eauto].
    intros b [n info] Hy _. specialize (Hm _ Hy). cbn [snd] in Hm.
    unfold keep_match. destruct (key_is n contract_name); [|eauto].
    destruct (member info); [eauto | discriminate].
  - destruct (loop_returns (fun table => exists rows, table = VObj rows)
                (fill_row member) files (VObj []))
      as (table & Hloop & _); [eauto | | eauto].
    intros table [fn contract] Hx (rows & ->). specialize (Hf _ Hx). cbn [snd] in Hf.
    apply andb_true_iff in Hf as [Ho Hm].
    destruct contract as [| | | | | |cs]; try discriminate.
    unfold fill_row. cbn [set_member entries cbind].
    unfold entries_of in Hm. cbn [entries] in Hm. rewrite forallb_forall in Hm.
    destruct (loop_returns
                (fun table => exists rows' row,
                     table = VObj rows' /\ obj_get rows' fn = Some (VObj row))
                (fill_cell member fn) cs (VObj (obj_set rows fn (VObj []))))
      as (table & Hin & rows' & _ & -> & _).
    + exists (obj_set rows fn (VObj [])), []. split; [reflexivity | apply obj_get_set_eq].
    + intros b [n info] Hy (rows' & row & -> & Hrow). specialize (Hm _ Hy). cbn [snd] in Hm.
      unfold fill_cell. destruct (member info) as [item|]; [|discriminate].
      cbn [cbind]. rewrite get_object, Hrow.
      cbn [default from_option id cbind set_member seen_through].
      eexists. split; [reflexivity|].
      exists (obj_update rows' fn (VObj (obj_set row n item))), (obj_set row n item).
      split; [reflexivity|]. rewrite obj_get_update_eq, Hrow. reflexivity.
    + exists (VObj rows'). split; [exact Hin | eauto].
Qed.

End WellFormed.

Section WellFormedRun.

Variable get_ast : value -> completion value.
Variable get_invariants : value -> completion value.

Lemma complete_contracts_member files :
  complete_contracts files = true ->
  forall member,
    member = source_map_of \/ member = bytecode_of
    \/ member = runtime_bytecode_of \/ member = abi_of ->
    forallb (fun file =>
               is_object (snd file)
               && forallb (fun contract => is_return (member (snd contract)))
                    (entries_of (snd file))) files = true.
Proof.
  unfold complete_contracts. intros H member Hm.
  rewrite forallb_forall in *. intros file Hfile. specialize (H file Hfile).
  apply andb_true_iff in H as [Ho Hc]. rewrite Ho. cbn [andb].
  rewrite forallb_forall in *. intros contract Hcontract. specialize (Hc contract Hcontract).
  unfold complete_info in Hc.
  apply andb_true_iff in Hc as [Hc H4]. apply andb_true_iff in Hc as [Hc H3].
  apply andb_true_iff in Hc as [H1 H2].
  destruct Hm as [->|[->|[->| ->]]]; assumption.
Qed.

(** An output document of the compiler's schema, without an error
    diagnostic, whose sources cover the files of the input, is normalized:
    [handleBuildResult] returns a result, with or without a filter, provided
    the AST collaborator returns an analysis. *)
Lemma handleBuildResult_total output compiler_version compiler_json contract_name
    scanned inputs records files :
  traces (scan_errors output) (Return tt) scanned ->
  get compiler_json "sources" = Return (VObj inputs) ->
  get output "sources" = Return (VObj records) ->
  records_are_objects records = true ->
  inputs_covered inputs records = true ->
  get output "contracts" = Return (VObj files) ->
  complete_contracts files = true ->
  (forall merged, exists analysis ast ast_tree,
      get_ast merged = Return analysis
      /\ get analysis "ast" = Return ast /\ get analysis "ast_tree" = Return ast_tree) ->
  exists result events,
    traces (handleBuildResult get_ast get_invariants
              output compiler_version compiler_json contract_name)
      (Return result) events.
Proof.
  intros Hscan Hin Hout Hobj Hcov Hc Hfiles Hast.
  destruct (merge_sources_total _ _ _ _ Hin Hout Hobj Hcov)
    as (merged & Hmerge & records' & Hs & Ho).
  destruct (Hast merged) as (analysis & ast & ast_tree & Ha & Hx & Ht).
  destruct (project_sources_total _ _ Hs Ho) as (sources & Hp).
  assert (Hcm : get merged "contracts" = Return (VObj files))
    by (rewrite (merge_sources_other _ _ _ "contracts" Hmerge) by discriminate; exact Hc).
  assert (Hext : forall member,
             member = source_map_of \/ member = bytecode_of
             \/ member = runtime_bytecode_of \/ member = abi_of ->
             exists v, extract member merged contract_name = Return v).
  { intros member Hm. eapply extract_total; [exact Hcm|].
    apply complete_contracts_member; assumption. }
  destruct (Hext source_map_of) as (v1 & H1); [tauto|].
  destruct (Hext bytecode_of) as (v2 & H2); [tauto|].
  destruct (Hext runtime_bytecode_of) as (v3 & H3); [tauto|].
  destruct (Hext abi_of) as (v4 & H4); [tauto|].
  eexists _, _.
  assert (Hrun := handleBuildResult_run get_ast get_invariants output compiler_version
                    compiler_json contract_name scanned merged analysis ast ast_tree
                    Hscan Hmerge Ha Hx Ht).
  unfold build_result in Hrun. rewrite H1, H2, H3, H4, Hp in Hrun. cbn [cbind] in Hrun.
  exact Hrun.
Qed.

End WellFormedRun.

Example handleBuildResult_total_example :
  exists result events,
    traces (handleBuildResult ast_ok invariants_throw
              warned_output (VStr "v0.8.20") input (VStr "Foo"))
      (Return result) events.
Proof.
  apply (handleBuildResult_total ast_ok invariants_throw warned_output (VStr "v0.8.20")
           input (VStr "Foo") []
           [("A.sol", VObj [("content", VStr "contract Foo {}")])]
           [("A.sol", VObj [("id", VNum 0); ("ast", VObj [])])]
           [("A.sol", VObj [("Foo", contract_info "a")])]).
  - apply (scan_errors_passes warned_output (VArr [warning] []) [warning]); reflexivity.
  - reflexivity.
  - reflexivity.
  - reflexivity.
  - reflexivity.
  - reflexivity.
  - reflexivity.
  - intros merged. exists analysis, (VStr "processed ast"), (VStr "ast tree").
    repeat split; reflexivity.
Qed.

(** * Further properties *)

Import Cli More.

(** ** [generate_settings] on every argument *)

Section SettingsEdge.

(** X1. [generate_settings] returns for a missing argument, an object and
    an array, and throws a [TypeError] for [null] and for every primitive
    value. *)
Theorem generate_settings_needs_an_object original :
  if holds_properties original
  then exists settings, generate_settings original = Return settings
  else generate_settings original = Throw TypeError.
Proof.
  destruct original as [| |b|n|s|l p|o]; cbn [holds_properties]; try reflexivity.
  - eexists. apply generate_settings_undefined.
  - eexists. apply generate_settings_array.
  - eexists. apply generate_settings_object.
Qed.

(** X2. An [outputSelection] that the caller supplies has no effect on the
    result: whatever it holds, it is replaced by the mandatory selection. *)
Theorem supplied_selection_is_discarded o supplied other :
  generate_settings (VObj (obj_set o "outputSelection" supplied))
  = generate_settings (VObj (obj_set o "outputSelection" other))
  /\ requested (returned (generate_settings (VObj (obj_set o "outputSelection" supplied))))
       "*" "*"
     = Return (VArr per_contract_selectors []).
Proof.
  rewrite !generate_settings_object, !obj_set_set. split; [reflexivity|].
  cbn [returned]. unfold requested. rewrite get_object, obj_get_set_eq. reflexivity.
Qed.

End SettingsEdge.

(** ** What [handleBuildResult] throws, and when *)

Section ThrowsTypeError.

Lemma get_throws v k e : get v k = Throw e -> e = TypeError.
Proof.
  destruct v as [| |b|n|s|l p|o]; cbn [get]; try discriminate; try congruence.
  - destruct (array_index k); [discriminate|]. destruct (String.eqb k "length"); discriminate.
  - destruct (array_index k); [discriminate|]. destruct (String.eqb k "length"); discriminate.
Qed.

Lemma set_member_throws v k x e : set_member v k x = Throw e -> e = TypeError.
Proof. destruct v; cbn [set_member]; try discriminate; congruence. Qed.

Lemma entries_throws v e : entries v = Throw e -> e = TypeError.
Proof. destruct v; cbn [entries]; try discriminate; congruence. Qed.

Lemma loop_throws {A B} (body : B -> A -> completion B) l acc e :
  (forall b x e', body b x = Throw e' -> e' = TypeError) ->
  loop l body acc = Throw e -> e = TypeError.
Proof.
  intros Hbody. revert acc. induction l as [|x r IH]; intros acc; cbn [loop]; [discriminate|].
  destruct (body acc x) as [acc'|e'] eqn:Hb; cbn [cbind].
  - apply IH.
  - intros [= <-]. eapply Hbody, Hb.
Qed.

(** Every turn of a loop that returns has returned. *)
Lemma loop_returned_each {A B} (body : B -> A -> completion B) l acc result :
  loop l body acc = Return result ->
  forall x, In x l -> exists b b', body b x = Return b'.
Proof.
  revert acc. induction l as [|y r IH]; intros acc; cbn [loop]; [intros _ x []|].
  destruct (body acc y) as [acc'|] eqn:Hb; cbn [cbind]; [|discriminate].
  intros H x [->|Hx]; [eauto | eapply IH; eassumption].
Qed.

Ltac only_type_error :=
  repeat match goal with
    | |- context [cbind (get ?v ?k) _] =>
        let H := fresh in
        destruct (get v k) eqn:H; cbn [cbind];
        [| intros [= <-]; eapply get_throws; eassumption]
    | |- context [cbind (set_member ?v ?k ?x) _] =>
        let H := fresh in
        destruct (set_member v k x) eqn:H; cbn [cbind];
        [| intros [= <-]; eapply set_member_throws; eassumption]
    | |- context [cbind (entries ?v) _] =>
        let H := fresh in
        destruct (entries v) eqn:H; cbn [cbind];
        [| intros [= <-]; eapply entries_throws; eassumption]
    end.

Lemma merge_source_throws output entry e :
  merge_source output entry = Throw e -> e = TypeError.
Proof.
  unfold merge_source. destruct entry as [fn contract]. only_type_error. discriminate.
Qed.

Lemma merge_sources_throws output compiler_json e :
  merge_sources output compiler_json = Throw e -> e = TypeError.
Proof.
  unfold merge_sources. only_type_error.
  apply loop_throws. intros b x e'. apply merge_source_throws.
Qed.

Lemma member_throws member contract_info e :
  member = source_map_of \/ member = bytecode_of
  \/ member = runtime_bytecode_of \/ member = abi_of ->
  member contract_info = Throw e -> e = TypeError.
Proof.
  intros [->|[->|[->| ->]]];
    unfold source_map_of, bytecode_of, runtime_bytecode_of, abi_of;
    only_type_error; try discriminate; apply get_throws.
Qed.

Lemma extract_throws member output contract_name e :
  (forall contract_info e', member contract_info = Throw e' -> e' = TypeError) ->
  extract member output contract_name = Throw e -> e = TypeError.
Proof.
  intros Hm. unfold extract, extract_one, extract_all.
  destruct (truthy contract_name); only_type_error.
  - apply loop_throws. intros found [fn contract] e'. unfold scan_file. only_type_error.
    apply loop_throws. intros b [n info] e''. unfold keep_match.
    destruct (key_is n contract_name); [apply Hm | discriminate].
  - apply loop_throws. intros table [fn contract] e'. unfold fill_row. only_type_error.
    apply loop_throws. intros b [n info] e''. unfold fill_cell.
    destruct (member info) eqn:Hi; cbn [cbind]; [|intros [= <-]; eapply Hm, Hi].
    only_type_error. discriminate.
Qed.

End ThrowsTypeError.

Section NormalizerEdge.

Variable get_ast : value -> completion value.
Variable get_invariants : value -> completion value.

Implicit Types (output compiler_version compiler_json contract_name : value).

(** X3. Lines 131-137 pass over an [errors] member that is missing or
    falsy, and over a list in which no entry has the severity 'error'
    (warnings): nothing is printed and the normalization goes on. *)
Theorem diagnostics_without_error_pass output errors :
  get output "errors" = Return errors ->
  truthy errors = false
  \/ (exists items, iterate errors = Return items /\ forallb passed_over items = true) ->
  traces (scan_errors output) (Return tt) [].
Proof.
  intros Hg Hcase.
  assert (He : errors_of output
               = Return (if truthy errors then errors else VArr [] [])).
  { unfold errors_of. destruct output; try discriminate; rewrite Hg; reflexivity. }
  destruct Hcase as [Hf|(items & Hi & Hp)].
  - rewrite Hf in He. eapply scan_errors_passes; [exact He | reflexivity | reflexivity].
  - destruct (truthy errors).
    + eapply scan_errors_passes; eassumption.
    + eapply scan_errors_passes; [exact He | reflexivity | reflexivity].
Qed.

Lemma handleBuildResult_merge_fails output compiler_version compiler_json contract_name
    scanned e :
  traces (scan_errors output) (Return tt) scanned ->
  merge_sources output compiler_json = Throw e ->
  traces (handleBuildResult get_ast get_invariants
            output compiler_version compiler_json contract_name) (Throw e) scanned.
Proof.
  intros Hscan Hmerge. unfold handleBuildResult.
  apply (traces_bind_last _ _ tt _ _ Hscan).
  apply traces_bind_throw. rewrite <- Hmerge. apply traces_lift.
Qed.

(** X4. When a file of the input has no record among the sources of the
    output, [handleBuildResult] throws a [TypeError] at line 140, before
    [get_ast] is called: there is no result.  The files of the input have
    names under which an object reads nothing that it does not own (none is
    a member of [Object.prototype]). *)
Theorem missing_source_record_throws
    output compiler_version compiler_json contract_name scanned inputs records fn contract :
  traces (scan_errors output) (Return tt) scanned ->
  get compiler_json "sources" = Return (VObj inputs) ->
  get output "sources" = Return (VObj records) ->
  own_names inputs = true ->
  In (fn, contract) inputs ->
  obj_get records fn = None ->
  traces (handleBuildResult get_ast get_invariants
            output compiler_version compiler_json contract_name) (Throw TypeError) scanned.
Proof.
  intros Hscan Hin Hrec _ Hfn Hnone.
  apply handleBuildResult_merge_fails; [exact Hscan|].
  destruct (merge_sources output compiler_json) as [merged|e] eqn:Hmerge.
  - exfalso. unfold merge_sources in Hmerge. rewrite Hin in Hmerge.
    cbn [cbind entries] in Hmerge.
    destruct (merge_loop_records _ _ _ _ Hrec Hmerge) as [_ Hall].
    destruct (Hall fn contract Hfn) as [Hhas _].
    apply obj_has_true in Hhas as (record & Hrecord). congruence.
  - f_equal. eapply merge_sources_throws, Hmerge.
Qed.

(** X5. When the output has no [contracts] member (or a [null] one),
    [handleBuildResult] throws a [TypeError] at line 158 or 167, with or
    without a filter, after both collaborators have been called: there is
    no result. *)
Theorem missing_contracts_throw
    output compiler_version compiler_json contract_name
    scanned merged analysis ast ast_tree contracts :
  traces (scan_errors output) (Return tt) scanned ->
  merge_sources output compiler_json = Return merged ->
  get_ast merged = Return analysis ->
  get analysis "ast" = Return ast ->
  get analysis "ast_tree" = Return ast_tree ->
  get output "contracts" = Return contracts ->
  is_nullish contracts = true ->
  traces (handleBuildResult get_ast get_invariants
            output compiler_version compiler_json contract_name)
    (Throw TypeError) (scanned ++ analysis_events get_invariants merged ast_tree).
Proof.
  intros Hscan Hmerge Hast Ha Ht Hc Hnull.
  assert (Hb : forall invariants,
             build_result merged compiler_version compiler_json contract_name ast invariants
             = Throw TypeError).
  { intros invariants. unfold build_result.
    rewrite (extract_merged source_map_of _ _ _ _ Hmerge).
    unfold extract, extract_one, extract_all. rewrite Hc.
    destruct contracts; try discriminate; destruct (truthy contract_name); reflexivity. }
  rewrite <- (Hb (invariants_or_null get_invariants ast_tree)).
  eapply handleBuildResult_run; eassumption.
Qed.

End NormalizerEdge.

Lemma diagnostics_without_error_pass_witness :
  traces (scan_errors warned_output) (Return tt) []
  /\ traces (scan_errors output) (Return tt) [].
Proof.
  split.
  - apply (diagnostics_without_error_pass warned_output (VArr [warning] []) eq_refl).
    right. exists [warning]. split; reflexivity.
  - apply (diagnostics_without_error_pass output VUndefined eq_refl).
    left. reflexivity.
Defined.

Lemma missing_source_record_throws_witness :
  handleBuildResult ast_ok invariants_ok
    (VObj [("contracts", VObj []); ("sources", VObj [])])
    (VStr "v0.8.20") input (VStr "") no_files
  = (Throw TypeError, add_events no_files []).
Proof.
  generalize no_files.
  change (traces (handleBuildResult ast_ok invariants_ok
                    (VObj [("contracts", VObj []); ("sources", VObj [])])
                    (VStr "v0.8.20") input (VStr ""))
            (Throw TypeError) []).
  apply (missing_source_record_throws ast_ok invariants_ok
           (VObj [("contracts", VObj []); ("sources", VObj [])])
           (VStr "v0.8.20") input (VStr "") []
           [("A.sol", VObj [("content", VStr "contract Foo {}")])] []
           "A.sol" (VObj [("content", VStr "contract Foo {}")])).
  - apply (scan_errors_passes _ (VArr [] []) []); reflexivity.
  - reflexivity.
  - reflexivity.
  - reflexivity.
  - left. reflexivity.
  - reflexivity.
Defined.

Lemma missing_contracts_throw_witness :
  handleBuildResult ast_ok invariants_ok
    (VObj [("sources", VObj [("A.sol", VObj [("id", VNum 0)])])])
    (VStr "v0.8.20") input (VStr "Foo") no_files
  = (Throw TypeError,
     add_events no_files
       (analysis_events invariants_ok
          (VObj [("sources",
                  VObj [("A.sol", VObj [("id", VNum 0); ("source", VStr "contract Foo {}")])])])
          (VStr "ast tree"))).
Proof.
  generalize no_files.
  change (traces (handleBuildResult ast_ok invariants_ok
                    (VObj [("sources", VObj [("A.sol", VObj [("id", VNum 0)])])])
                    (VStr "v0.8.20") input (VStr "Foo"))
            (Throw TypeError)
            (analysis_events invariants_ok
               (VObj [("sources",
                       VObj [("A.sol",
                              VObj [("id", VNum 0); ("source", VStr "contract Foo {}")])])])
               (VStr "ast tree"))).
  apply (missing_contracts_throw ast_ok invariants_ok
           (VObj [("sources", VObj [("A.sol", VObj [("id", VNum 0)])])])
           (VStr "v0.8.20") input (VStr "Foo") [] _ analysis
           (VStr "processed ast") (VStr "ast tree") VUndefined).
  - apply (scan_errors_passes _ (VArr [] []) []); reflexivity.
  - reflexivity.
  - reflexivity.
  - reflexivity.
  - reflexivity.
  - reflexivity.
  - reflexivity.
Defined.

Section NormalizerShape.

Variable get_ast : value -> completion value.
Variable get_invariants : value -> completion value.

Implicit Types (output compiler_version compiler_json contract_name : value).

Lemma project_loop_keys records table0 result :
  enumeration_order (map fst table0 ++ map fst records) = true ->
  loop records project_source (VObj table0) = Return result ->
  exists table, result = VObj table /\ map fst table = map fst table0 ++ map fst records.
Proof.
  revert table0. induction records as [|[k record] r IH]; intros table0 Hord; cbn [loop].
  - intros [= <-]. exists table0. cbn [map]. rewrite app_nil_r. auto.
  - cbn [map fst] in Hord. unfold project_source at 1.
    destruct (get record "id") as [id|]; cbn [cbind]; [|discriminate].
    destruct (get record "source") as [source|]; cbn [cbind set_member]; [|discriminate].
    rewrite obj_set_last by (eapply enumeration_order_middle; exact Hord).
    intros H. apply IH in H.
    + destruct H as (table & -> & Hk). exists table. split; [reflexivity|].
      rewrite Hk, map_app, <- app_assoc. reflexivity.
    + rewrite map_app, <- app_assoc. exact Hord.
Qed.

(** X6. The [sources] of a result list the files of the sources of the
    output document, all of them and in the same order, whether or not the
    input names them; none of these files is called ['__proto__']. *)
Theorem sources_list_the_output_files
    output compiler_version compiler_json contract_name result events records :
  traces (handleBuildResult get_ast get_invariants
            output compiler_version compiler_json contract_name)
    (Return result) events ->
  get output "sources" = Return (VObj records) ->
  well_ordered records = true ->
  assignable_keys records = true ->
  exists table,
    get result "sources" = Return (VObj table)
    /\ map fst table = map fst records.
Proof.
  intros H Hrec Hord _.
  apply handleBuildResult_returned in H
    as (scanned & merged & analysis & ast & ast_tree & _ & Hmerge & _ & _ & _ & Hb & _).
  apply build_result_members in Hb
    as (_ & _ & _ & _ & sources & _ & _ & _ & _ & (Hp & Hs) & _).
  unfold merge_sources in Hmerge.
  destruct (get compiler_json "sources") as [inputs|]; cbn [cbind] in Hmerge; [|discriminate].
  destruct (entries inputs) as [es|]; cbn [cbind] in Hmerge; [|discriminate].
  destruct (merge_loop_records _ _ _ _ Hrec Hmerge) as [Hm _].
  unfold project_sources in Hp. rewrite Hm in Hp. cbn [cbind entries] in Hp.
  apply project_loop_keys in Hp.
  - destruct Hp as (table & -> & Hk). exists table. split; [exact Hs|].
    rewrite Hk, merged_records_keys. reflexivity.
  - cbn [map app]. rewrite merged_records_keys. exact Hord.
Qed.

(** X7. Without a filter, every contract of the output is read: a single
    contract in which one of the four members cannot be reached (no [evm],
    say) makes [handleBuildResult] throw a [TypeError], where a filter for
    another contract leaves it unread. *)
Theorem unfiltered_extraction_reads_every_contract
    output compiler_version compiler_json contract_name
    scanned merged analysis ast ast_tree files fn contracts name contract_info :
  traces (scan_errors output) (Return tt) scanned ->
  merge_sources output compiler_json = Return merged ->
  get_ast merged = Return analysis ->
  get analysis "ast" = Return ast ->
  get analysis "ast_tree" = Return ast_tree ->
  get output "contracts" = Return (VObj files) ->
  In (fn, VObj contracts) files ->
  In (name, contract_info) contracts ->
  complete_info contract_info = false ->
  truthy contract_name = false ->
  traces (handleBuildResult get_ast get_invariants
            output compiler_version compiler_json contract_name)
    (Throw TypeError) (scanned ++ analysis_events get_invariants merged ast_tree).
Proof.
  intros Hscan Hmerge Hast Ha Ht Hc Hfile Hcontract Hinc Hf.
  assert (Hread : forall member,
             member = source_map_of \/ member = bytecode_of
             \/ member = runtime_bytecode_of \/ member = abi_of ->
             (exists v, extract member merged contract_name = Return v
                        /\ is_return (member contract_info) = true)
             \/ extract member merged contract_name = Throw TypeError).
  { intros member Hm.
    destruct (extract member merged contract_name) as [v|e] eqn:He.
    - left. exists v. split; [reflexivity|].
      rewrite (extract_merged member _ _ _ _ Hmerge) in He.
      unfold extract in He. rewrite Hf in He. unfold extract_all in He.
      rewrite Hc in He. cbn [cbind entries] in He.
      destruct (loop_returned_each _ _ _ _ He _ Hfile) as (table & table' & Hrow).
      unfold fill_row in Hrow.
      destruct (set_member table fn (VObj [])) as [table1|]; cbn [cbind entries] in Hrow;
        [|discriminate].
      destruct (loop_returned_each _ _ _ _ Hrow _ Hcontract) as (b & b' & Hcell).
      unfold fill_cell in Hcell. destruct (member contract_info); [reflexivity | discriminate].
    - right. f_equal. eapply extract_throws; [|exact He].
      intros info e'. apply member_throws, Hm. }
  assert (Hb : forall invariants,
             build_result merged compiler_version compiler_json contract_name ast invariants
             = Throw TypeError).
  { intros invariants. unfold build_result.
    destruct (Hread source_map_of) as [(v1 & -> & H1)| ->]; [tauto | | reflexivity].
    destruct (Hread bytecode_of) as [(v2 & -> & H2)| ->]; [tauto | | reflexivity].
    destruct (Hread runtime_bytecode_of) as [(v3 & -> & H3)| ->]; [tauto | | reflexivity].
    destruct (Hread abi_of) as [(v4 & -> & H4)| ->]; [tauto | | reflexivity].
    unfold complete_info in Hinc. rewrite H1, H2, H3, H4 in Hinc. discriminate. }
  rewrite <- (Hb (invariants_or_null get_invariants ast_tree)).
  eapply handleBuildResult_run; eassumption.
Qed.

End NormalizerShape.

Lemma sources_list_the_output_files_witness :
  exists table,
    get full_result "sources" = Return (VObj table) /\ map fst table = ["A.sol"].
Proof.
  exact (sources_list_the_output_files ast_ok invariants_ok
           output (VStr "v0.8.20") input (VStr "") full_result _
           [("A.sol", VObj [("id", VNum 0); ("ast", VObj [])])]
           (example_run (VStr "") full_result eq_refl) eq_refl eq_refl eq_refl).
Defined.

Lemma unfiltered_extraction_reads_every_contract_witness :
  traces (handleBuildResult ast_ok invariants_ok
            partial_output (VStr "v0.8.20") input (VStr ""))
    (Throw TypeError) (analysis_events invariants_ok partial_merged (VStr "ast tree"))
  /\ exists result,
       traces (handleBuildResult ast_ok invariants_ok
                 partial_output (VStr "v0.8.20") input (VStr "Foo"))
         (Return result) (analysis_events invariants_ok partial_merged (VStr "ast tree")).
Proof.
  split.
  - apply (unfiltered_extraction_reads_every_contract ast_ok invariants_ok
             partial_output (VStr "v0.8.20") input (VStr "") [] partial_merged analysis
             (VStr "processed ast") (VStr "ast tree")
             [("A.sol", VObj [("Foo", contract_info "a"); ("Lib", VObj [("abi", VArr [] [])])])]
             "A.sol" [("Foo", contract_info "a"); ("Lib", VObj [("abi", VArr [] [])])]
             "Lib" (VObj [("abi", VArr [] [])])).
    + apply (scan_errors_passes _ (VArr [] []) []); reflexivity.
    + reflexivity.
    + reflexivity.
    + reflexivity.
    + reflexivity.
    + reflexivity.
    + left. reflexivity.
    + right. left. reflexivity.
    + reflexivity.
    + reflexivity.
  - eexists.
    exact (handleBuildResult_run ast_ok invariants_ok partial_output (VStr "v0.8.20") input
             (VStr "Foo") [] partial_merged analysis (VStr "processed ast") (VStr "ast tree")
             (scan_errors_passes partial_output (VArr [] []) [] eq_refl eq_refl eq_refl)
             eq_refl eq_refl eq_refl eq_refl).
Defined.

(** ** The request, with and without a cached output *)

Section Request.

Variable get_ast : value -> completion value.
Variable get_invariants : value -> completion value.
Variable shell : string -> gmap string string -> exec_result.
Variable checkSolcSelectInstalled : bool.

Implicit Types (compiler_json contract_name : value) (compiler_version hash : string).

Lemma generate_settings_rejects original :
  holds_properties original = false -> generate_settings original = Throw TypeError.
Proof. destruct original; cbn [holds_properties]; try discriminate; reflexivity. Qed.

Lemma exists_in_file w path text : files w !! path = Some text -> exists_in w path = true.
Proof.
  intros H. unfold exists_in. rewrite H.
  assert (Hs : bool_decide (is_Some (Some text)) = true)
    by (apply bool_decide_eq_true_2; eauto).
  rewrite Hs. apply orb_true_r.
Qed.

Lemma exists_in_false w path :
  exists_in w path = false <-> files w !! path = None /\ path ∉ dirs w.
Proof.
  unfold exists_in. rewrite orb_false_iff, !bool_decide_eq_false. split.
  - intros [Hd Hf]. split; [|exact Hd].
    destruct (files w !! path) eqn:E; [|reflexivity]. exfalso. apply Hf. eauto.
  - intros [Hf Hd]. split; [exact Hd|]. rewrite Hf. intros [x Hx]. discriminate.
Qed.

Lemma prepared_trace w hash text : trace (prepared w hash text) = trace w.
Proof.
  unfold prepared. destruct (exists_in w ".tmp");
    match goal with |- context [if ?b then _ else _] => destruct b end; reflexivity.
Qed.

Lemma prepared_other w hash text path :
  path <> currentFile hash -> files (prepared w hash text) !! path = files w !! path.
Proof.
  intros Hp. unfold prepared. destruct (exists_in w ".tmp");
    match goal with |- context [if ?b then _ else _] => destruct b end;
    cbn [files]; rewrite ?lookup_insert_ne by congruence; reflexivity.
Qed.

(** No existing file is overwritten. *)
Lemma prepared_keeps w hash text path content :
  files w !! path = Some content -> files (prepared w hash text) !! path = Some content.
Proof.
  intros H. destruct (decide (path = currentFile hash)) as [->|Hne].
  - unfold prepared. destruct (exists_in w ".tmp").
    + rewrite (exists_in_file _ _ _ H). exact H.
    + rewrite (exists_in_file (World _ _ _) _ content H). exact H.
  - rewrite prepared_other by exact Hne. exact H.
Qed.

Lemma prepared_dirs w hash text path :
  path <> ".tmp" -> (path ∈ dirs (prepared w hash text) <-> path ∈ dirs w).
Proof.
  intros Hp. unfold prepared. destruct (exists_in w ".tmp");
    match goal with |- context [if ?b then _ else _] => destruct b end;
    cbn [dirs]; rewrite ?elem_of_union, ?elem_of_singleton; tauto.
Qed.

Lemma output_is_not_tmp hash : outputJson hash <> ".tmp".
Proof. unfold outputJson. cbn. discriminate. Qed.

Lemma prepared_exists_output w hash text :
  exists_in (prepared w hash text) (outputJson hash) = exists_in w (outputJson hash).
Proof.
  unfold exists_in. rewrite (prepared_other _ _ _ _ (paths_differ hash)).
  f_equal. apply bool_decide_ext, prepared_dirs, output_is_not_tmp.
Qed.

(** Lines 253-263, as a change of the world. *)
Lemma cache_input_prepares compiler_json text augmented augmented_text w :
  JSON_stringify compiler_json = Return text ->
  augment compiler_json = Return augmented ->
  JSON_stringify augmented = Return augmented_text ->
  cache_input compiler_json w
  = (Return (Md5.md5_hex text, augmented), prepared w (Md5.md5_hex text) augmented_text).
Proof.
  intros Ht Ha Hat.
  unfold cache_input, bind, lift, ret, existsSync, mkdirSync, writeFileSync, contractHash,
    prepared, exists_in.
  rewrite Ht, Ha. cbn [cbind].
  destruct (bool_decide (".tmp" ∈ dirs w) || bool_decide (is_Some (files w !! ".tmp")));
    cbn [files dirs trace];
    match goal with |- context [if ?b then _ else _] => destruct b end;
    rewrite ?Hat; reflexivity.
Qed.

(** A request that cannot be prepared throws in the executor. *)
Lemma cache_input_throws compiler_json w e :
  (do hash <- contractHash compiler_json; augment compiler_json) = Throw e ->
  exists w', cache_input compiler_json w = (Throw e, w')
             /\ files w' = files w /\ trace w' = trace w.
Proof.
  intros H. unfold cache_input, bind, lift, ret, existsSync, mkdirSync.
  destruct (bool_decide (".tmp" ∈ dirs w) || bool_decide (is_Some (files w !! ".tmp")));
    destruct (contractHash compiler_json) as [hash|e1]; cbn [cbind] in H |- *;
    try (injection H as <-; eexists; split; [reflexivity | split; reflexivity]);
    rewrite H; eexists; (split; [reflexivity | split; reflexivity]).
Qed.

Lemma find_version_text compiler_version :
  traces (find_version compiler_version) (Return (version_text compiler_version))
    [version_event compiler_version].
Proof.
  unfold find_version, version_text, version_event.
  destruct (version_number compiler_version) as [number|];
    (apply (traces_bind_last _ _ tt); [apply traces_emit | apply traces_ret]).
Qed.

(** The executor after lines 253-263, when the output cache file is
    there... *)
Lemma executor_hit compiler_version compiler_json contract_name
    text augmented augmented_text w output_text :
  JSON_stringify compiler_json = Return text ->
  augment compiler_json = Return augmented ->
  JSON_stringify augmented = Return augmented_text ->
  files w !! outputJson (Md5.md5_hex text) = Some output_text ->
  executor get_ast get_invariants shell checkSolcSelectInstalled
    compiler_version compiler_json contract_name w
  = normalize_and_resolve get_ast get_invariants output_text
      (VStr compiler_version) augmented contract_name
      (add_events (prepared w (Md5.md5_hex text) augmented_text)
         [version_event compiler_version]).
Proof.
  intros Ht Ha Hat Hfile. unfold executor. unfold bind at 1.
  rewrite (cache_input_prepares _ _ _ _ _ Ht Ha Hat).
  unfold bind at 1. rewrite (find_version_text compiler_version).
  unfold bind at 1. unfold existsSync at 1.
  assert (Hread : files (add_events (prepared w (Md5.md5_hex text) augmented_text)
                           [version_event compiler_version])
                  !! outputJson (Md5.md5_hex text) = Some output_text).
  { cbn [files add_events]. rewrite prepared_other by apply paths_differ. exact Hfile. }
  fold (exists_in (add_events (prepared w (Md5.md5_hex text) augmented_text)
                     [version_event compiler_version]) (outputJson (Md5.md5_hex text))).
  rewrite (exists_in_file _ _ _ Hread).
  unfold read_and_normalize, bind at 1, readFileSync. rewrite Hread. reflexivity.
Qed.

(** ... and when it is not. *)
Lemma executor_miss compiler_version compiler_json contract_name
    text augmented augmented_text w :
  JSON_stringify compiler_json = Return text ->
  augment compiler_json = Return augmented ->
  JSON_stringify augmented = Return augmented_text ->
  exists_in w (outputJson (Md5.md5_hex text)) = false ->
  let hash := Md5.md5_hex text in
  let command := command_of checkSolcSelectInstalled compiler_version hash in
  let w1 := prepared w hash augmented_text in
  executor get_ast get_invariants shell checkSolcSelectInstalled
    compiler_version compiler_json contract_name w
  = after_exec get_ast get_invariants (shell command (files w1)) (outputJson hash)
      (VStr compiler_version) augmented contract_name
      (compiled shell command w1 [version_event compiler_version]).
Proof.
  intros Ht Ha Hat Hmiss hash command w1. unfold executor. unfold bind at 1.
  rewrite (cache_input_prepares _ _ _ _ _ Ht Ha Hat).
  unfold bind at 1. rewrite (find_version_text compiler_version).
  unfold bind at 1. unfold existsSync at 1.
  fold (exists_in (add_events (prepared w (Md5.md5_hex text) augmented_text)
                     [version_event compiler_version]) (outputJson (Md5.md5_hex text))).
  assert (He : exists_in (add_events (prepared w (Md5.md5_hex text) augmented_text)
                            [version_event compiler_version])
                 (outputJson (Md5.md5_hex text)) = false).
  { rewrite <- Hmiss, <- (prepared_exists_output w (Md5.md5_hex text) augmented_text).
    reflexivity. }
  rewrite He. unfold bind at 1, exec, compiled, command_of.
  cbn [files dirs trace add_events]. rewrite <- app_assoc.
  destruct checkSolcSelectInstalled; reflexivity.
Qed.

Lemma normalize_and_resolve_returned text compiler_version_value augmented contract_name
    v events :
  traces (normalize_and_resolve get_ast get_invariants
            text compiler_version_value augmented contract_name) (Return v) events ->
  exists output result settings remappings,
    JSON_parse text = Return output
    /\ traces (handleBuildResult get_ast get_invariants
                 output compiler_version_value augmented contract_name)
         (Return result) events
    /\ get augmented "settings" = Return settings
    /\ get settings "remappings" = Return remappings
    /\ v = VObj (spread [("success", VBool true); ("remappings", remappings)] result).
Proof.
  intros H. unfold normalize_and_resolve in H.
  apply traces_val_inv in H as (output & Hparse & H).
  2:{ intros o. apply steady_bind; [apply handleBuildResult_steady | intros r].
      apply steady_bind; [apply steady_lift | intros s].
      apply steady_bind; [apply steady_lift | intros m]. apply steady_ret. }
  apply traces_bind_inv in H as [(result & e1 & e2 & Hrun & H & ->)|(e & [=] & _)].
  2:{ apply handleBuildResult_steady. }
  2:{ intros r. apply steady_bind; [apply steady_lift | intros s].
      apply steady_bind; [apply steady_lift | intros m]. apply steady_ret. }
  apply traces_val_inv in H as (settings & Hs & H).
  2:{ intros r. apply steady_bind; [apply steady_lift | intros m]. apply steady_ret. }
  apply traces_val_inv in H as (remappings & Hr & H).
  2:{ intros r. apply steady_ret. }
  destruct (traces_unique _ _ _ _ _ H (traces_ret _)) as [[= ->] ->].
  rewrite app_nil_r. exists output, result, settings, remappings.
  repeat split; assumption.
Qed.

(** What the executor can give to [resolve]. *)
Lemma executor_fulfils compiler_version compiler_json contract_name w v w' :
  executor get_ast get_invariants shell checkSolcSelectInstalled
    compiler_version compiler_json contract_name w = (Return v, w') ->
  (exists stderr, v = failure stderr)
  \/ exists augmented text events,
       augment compiler_json = Return augmented
       /\ traces (normalize_and_resolve get_ast get_invariants text
                    (VStr compiler_version) augmented contract_name) (Return v) events.
Proof.
  intros H.
  destruct (JSON_stringify compiler_json) as [text|e] eqn:Ht.
  2:{ destruct (cache_input_throws compiler_json w e) as (w1 & Hc & _).
      { unfold contractHash. rewrite Ht. reflexivity. }
      unfold executor, bind in H. rewrite Hc in H. discriminate. }
  destruct (augment compiler_json) as [augmented|e] eqn:Ha.
  2:{ destruct (cache_input_throws compiler_json w e) as (w1 & Hc & _).
      { unfold contractHash. rewrite Ht, Ha. reflexivity. }
      unfold executor, bind in H. rewrite Hc in H. discriminate. }
  destruct (augment_serializable _ _ Ha) as (augmented_text & Hat).
  unfold executor in H. unfold bind at 1 in H.
  rewrite (cache_input_prepares _ _ _ _ _ Ht Ha Hat) in H.
  unfold bind at 1 in H. rewrite (find_version_text compiler_version) in H.
  unfold bind at 1 in H. unfold existsSync at 1 in H.
  match type of H with context [if ?b then _ else _] => destruct b end.
  - unfold read_and_normalize, bind at 1, readFileSync in H.
    match type of H with context [files ?w0 !! ?path] =>
      destruct (files w0 !! path) as [out|] end; [|discriminate].
    destruct (normalize_and_resolve_steady get_ast get_invariants out
                (VStr compiler_version) augmented contract_name) as (r & evs & Hn & _).
    rewrite Hn in H. injection H as -> _. right. exists augmented, out, evs. auto.
  - unfold bind at 1, exec in H. unfold after_exec in H.
    match type of H with context [exec_failed ?r0] => destruct (exec_failed r0) end.
    + unfold bind, console_log, emit, ret in H. injection H as <- _. left. eexists. reflexivity.
    + unfold bind at 1, console_log, emit in H.
      unfold read_and_normalize, bind at 1, readFileSync in H.
      match type of H with context [files ?w0 !! ?path] =>
        destruct (files w0 !! path) as [out|] end; [|discriminate].
      destruct (normalize_and_resolve_steady get_ast get_invariants out
                  (VStr compiler_version) augmented contract_name) as (r & evs & Hn & _).
      rewrite Hn in H. injection H as -> _. right. exists augmented, out, evs. auto.
Qed.

(** X8. When the output cache file of a request is not there, ['.tmp'] is
    not a regular file, and the subprocess fails, the promise is fulfilled
    with [success: false] and the error text of the subprocess; the version
    line, the command and the error are all that is recorded: the output
    file is not read, and the analysis does not run. *)
Theorem subprocess_failure_is_reported compiler_version compiler_json contract_name
    text augmented augmented_text w :
  JSON_stringify compiler_json = Return text ->
  augment compiler_json = Return augmented ->
  JSON_stringify augmented = Return augmented_text ->
  files w !! ".tmp" = None ->
  exists_in w (outputJson (Md5.md5_hex text)) = false ->
  let hash := Md5.md5_hex text in
  let command := command_of checkSolcSelectInstalled compiler_version hash in
  let r := shell command (files (prepared w hash augmented_text)) in
  exec_failed r = true ->
  exists w',
    work_on_json get_ast get_invariants shell checkSolcSelectInstalled
      compiler_version compiler_json contract_name w
    = (Fulfilled (failure (exec_stderr r)), w')
    /\ trace w' = trace w ++ [version_event compiler_version; Exec command;
                              ConsoleLog [VStr "Error loading solc"; VStr (exec_stderr r)]].
Proof.
  intros Ht Ha Hat _ Hmiss hash command r Hfail. unfold work_on_json.
  rewrite (executor_miss compiler_version compiler_json contract_name
             text augmented augmented_text w Ht Ha Hat Hmiss).
  fold hash. fold command. fold r. unfold after_exec. rewrite Hfail.
  unfold bind, console_log, emit, ret, compiled. cbn [files dirs trace].
  eexists. split; [reflexivity|]. cbn [trace].
  rewrite prepared_trace, <- !app_assoc. reflexivity.
Qed.

(** X9. A request that finds no output cache file, and whose subprocess
    succeeds and leaves the output file, is answered again from that file:
    a second request with an equal document and the same arguments ends as
    the first did, and runs no subprocess. *)
Theorem repeated_request_hits_the_cache compiler_version compiler_json contract_name
    text augmented augmented_text output_text w :
  JSON_stringify compiler_json = Return text ->
  augment compiler_json = Return augmented ->
  JSON_stringify augmented = Return augmented_text ->
  exists_in w (outputJson (Md5.md5_hex text)) = false ->
  let hash := Md5.md5_hex text in
  let command := command_of checkSolcSelectInstalled compiler_version hash in
  let r := shell command (files (prepared w hash augmented_text)) in
  exec_failed r = false ->
  exec_files r !! outputJson hash = Some output_text ->
  exists p w1 w2 events,
    work_on_json get_ast get_invariants shell checkSolcSelectInstalled
      compiler_version compiler_json contract_name w = (p, w1)
    /\ work_on_json get_ast get_invariants shell checkSolcSelectInstalled
         compiler_version compiler_json contract_name w1 = (p, w2)
    /\ trace w2 = trace w1 ++ events
    /\ no_exec events = true.
Proof.
  intros Ht Ha Hat Hmiss hash command r Hok Hout.
  destruct (normalize_and_resolve_steady get_ast get_invariants output_text
              (VStr compiler_version) augmented contract_name) as (res & evs & Hn & Hne).
  assert (Hfirst : exists w1,
             executor get_ast get_invariants shell checkSolcSelectInstalled
               compiler_version compiler_json contract_name w = (res, w1)
             /\ files w1 = exec_files r).
  { rewrite (executor_miss compiler_version compiler_json contract_name
               text augmented augmented_text w Ht Ha Hat Hmiss).
    fold hash. fold command. fold r. unfold after_exec. rewrite Hok.
    unfold bind at 1, console_log, emit.
    unfold read_and_normalize, bind at 1, readFileSync, compiled. cbn [files dirs trace].
    fold r. rewrite Hout, Hn. eexists. split; reflexivity. }
  destruct Hfirst as (w1 & Hfirst & Hfiles).
  assert (Hcached : files w1 !! outputJson (Md5.md5_hex text) = Some output_text).
  { rewrite Hfiles. exact Hout. }
  pose proof (executor_hit compiler_version compiler_json contract_name
                text augmented augmented_text w1 output_text Ht Ha Hat Hcached) as Hsecond.
  rewrite Hn in Hsecond.
  destruct res as [v|e]; eexists _, w1, _, (version_event compiler_version :: evs);
    unfold work_on_json; rewrite Hfirst, Hsecond;
    (split; [reflexivity|]); (split; [reflexivity|]);
    (split; [cbn [trace add_events]; rewrite prepared_trace, <- app_assoc; reflexivity|]);
    unfold no_exec in *; cbn [forallb]; rewrite Hne;
    unfold version_event; destruct (version_number compiler_version); reflexivity.
Qed.

(** X10. A request answered from its output cache file changes and removes
    no file: the only file it can create is its input cache file. *)
Theorem cached_request_keeps_files compiler_version compiler_json contract_name
    text output_text w p w' :
  JSON_stringify compiler_json = Return text ->
  files w !! outputJson (Md5.md5_hex text) = Some output_text ->
  work_on_json get_ast get_invariants shell checkSolcSelectInstalled
    compiler_version compiler_json contract_name w = (p, w') ->
  (forall path content, files w !! path = Some content -> files w' !! path = Some content)
  /\ (forall path, path <> currentFile (Md5.md5_hex text) ->
       files w' !! path = files w !! path).
Proof.
  intros Ht Hcached Hrun. unfold work_on_json in Hrun.
  destruct (augment compiler_json) as [augmented|e] eqn:Ha.
  - destruct (augment_serializable _ _ Ha) as (augmented_text & Hat).
    rewrite (executor_hit compiler_version compiler_json contract_name
               text augmented augmented_text w output_text Ht Ha Hat Hcached) in Hrun.
    destruct (normalize_and_resolve_steady get_ast get_invariants output_text
                (VStr compiler_version) augmented contract_name) as (res & evs & Hn & _).
    rewrite Hn in Hrun.
    assert (Hw : w' = add_events (add_events (prepared w (Md5.md5_hex text) augmented_text)
                                    [version_event compiler_version]) evs)
      by (destruct res; injection Hrun as _ <-; reflexivity).
    subst w'. cbn [files add_events]. split.
    + intros path content. apply prepared_keeps.
    + intros path. apply prepared_other.
  - destruct (cache_input_throws compiler_json w e) as (w1 & Hc & Hf & _).
    { unfold contractHash. rewrite Ht, Ha. reflexivity. }
    unfold executor, bind in Hrun. rewrite Hc in Hrun. injection Hrun as _ <-.
    rewrite Hf. split; auto.
Qed.

(** X11. A request whose document holds settings that are not an object
    ([null], a number, a string, a boolean) is never settled: line 259
    throws a [TypeError] inside the executor.  Nothing is printed, no file
    is written, and no subprocess runs. *)
Theorem unusable_settings_never_settle compiler_version compiler_json contract_name
    text settings w :
  JSON_stringify compiler_json = Return text ->
  get compiler_json "settings" = Return settings ->
  holds_properties settings = false ->
  exists w',
    work_on_json get_ast get_invariants shell checkSolcSelectInstalled
      compiler_version compiler_json contract_name w = (NeverSettled TypeError, w')
    /\ files w' = files w /\ trace w' = trace w.
Proof.
  intros Ht Hs Hbad.
  destruct (cache_input_throws compiler_json w TypeError) as (w1 & Hc & Hf & Htr).
  { unfold contractHash, augment. rewrite Ht, Hs. cbn [cbind].
    rewrite (generate_settings_rejects _ Hbad). reflexivity. }
  exists w1. unfold work_on_json, executor, bind. rewrite Hc. auto.
Qed.

(** What a fulfilled promise of [work_on_json] holds. *)
Lemma work_on_json_fulfils compiler_version compiler_json contract_name w v w' :
  work_on_json get_ast get_invariants shell checkSolcSelectInstalled
    compiler_version compiler_json contract_name w = (Fulfilled v, w') ->
  (exists stderr, v = failure stderr)
  \/ exists augmented settings remappings,
       augment compiler_json = Return augmented
       /\ get augmented "settings" = Return settings
       /\ get settings "remappings" = Return remappings
       /\ get v "success" = Return (VBool true)
       /\ get v "remappings" = Return remappings
       /\ get v "compiler_args"
          = Return (VObj [("version", VStr compiler_version);
                          ("compiler_json", augmented)]).
Proof.
  intros H. unfold work_on_json in H.
  destruct (executor get_ast get_invariants shell checkSolcSelectInstalled
              compiler_version compiler_json contract_name w) as [[v0|e] w0] eqn:He;
    [|discriminate].
  injection H as -> ->.
  destruct (executor_fulfils _ _ _ _ _ _ He) as [Hfail|(augmented & out & evs & Ha & Hn)];
    [left; exact Hfail|].
  right.
  apply normalize_and_resolve_returned
    in Hn as (output & result & settings & remappings & _ & Hrun & Hs & Hr & ->).
  apply handleBuildResult_returned
    in Hrun as (scanned & merged & analysis & ast & ast_tree & _ & _ & _ & _ & _ & Hb & _).
  exists augmented, settings, remappings.
  unfold build_result in Hb.
  destruct (extract source_map_of merged contract_name); [|discriminate].
  destruct (extract bytecode_of merged contract_name); [|discriminate].
  destruct (extract runtime_bytecode_of merged contract_name); [|discriminate].
  destruct (extract abi_of merged contract_name); [|discriminate].
  destruct (project_sources merged); [|discriminate].
  cbn [cbind] in Hb. injection Hb as <-.
  repeat split; try assumption; reflexivity.
Qed.

(** X12. Whatever [work_on_json] fulfils its promise with is either the
    failure report of the subprocess, or a result with [success: true], the
    remappings of the settings it was given, and, under [compiler_args],
    the version string as it was given and the augmented document. *)
Theorem fulfilled_result_members compiler_version compiler_json contract_name w v w' :
  work_on_json get_ast get_invariants shell checkSolcSelectInstalled
    compiler_version compiler_json contract_name w = (Fulfilled v, w') ->
  (exists stderr, v = failure stderr)
  \/ exists augmented settings remappings,
       augment compiler_json = Return augmented
       /\ get augmented "settings" = Return settings
       /\ get settings "remappings" = Return remappings
       /\ get v "success" = Return (VBool true)
       /\ get v "remappings" = Return remappings
       /\ get v "compiler_args"
          = Return (VObj [("version", VStr compiler_version);
                          ("compiler_json", augmented)]).
Proof. apply work_on_json_fulfils. Qed.

End Request.

Lemma subprocess_failure_is_reported_witness :
  exists w',
    work_on_json ast_ok invariants_ok failing_shell true "v0.8.20" input (VStr "") no_files
    = (Fulfilled (failure "command not found"), w')
    /\ trace w'
       = [ConsoleLog [VStr "Found version number"; VStr "0.8.20"];
          Exec (command_of true "v0.8.20" (Md5.md5_hex input_text));
          ConsoleLog [VStr "Error loading solc"; VStr "command not found"]].
Proof.
  apply (subprocess_failure_is_reported ast_ok invariants_ok failing_shell true
           "v0.8.20" input (VStr "") input_text augmented_input augmented_text no_files);
    vm_compute; reflexivity.
Defined.

Lemma repeated_request_hits_the_cache_witness :
  exists p w1 w2 events,
    work_on_json ast_ok invariants_ok compiling_shell true "v0.8.20" input (VStr "") no_files
    = (p, w1)
    /\ work_on_json ast_ok invariants_ok compiling_shell true "v0.8.20" input (VStr "") w1
       = (p, w2)
    /\ trace w2 = trace w1 ++ events
    /\ no_exec events = true.
Proof.
  apply (repeated_request_hits_the_cache ast_ok invariants_ok compiling_shell true
           "v0.8.20" input (VStr "") input_text augmented_input augmented_text output_text
           no_files);
    vm_compute; reflexivity.
Defined.

Lemma cached_request_keeps_files_witness :
  (forall path content,
     files compiled_cache !! path = Some content ->
     files (snd (work_on_json ast_ok invariants_ok failing_shell true
                   "v0.8.20" input (VStr "") compiled_cache)) !! path = Some content)
  /\ (forall path, path <> currentFile (Md5.md5_hex input_text) ->
       files (snd (work_on_json ast_ok invariants_ok failing_shell true
                     "v0.8.20" input (VStr "") compiled_cache)) !! path
       = files compiled_cache !! path).
Proof.
  apply (cached_request_keeps_files ast_ok invariants_ok failing_shell true
           "v0.8.20" input (VStr "") input_text output_text compiled_cache
           (fst (work_on_json ast_ok invariants_ok failing_shell true
                   "v0.8.20" input (VStr "") compiled_cache))).
  - vm_compute; reflexivity.
  - vm_compute; reflexivity.
  - apply surjective_pairing.
Defined.

Lemma unusable_settings_never_settle_witness :
  exists w',
    work_on_json ast_ok invariants_ok failing_shell true "v0.8.20" null_settings (VStr "")
      no_files
    = (NeverSettled TypeError, w')
    /\ files w' = files no_files /\ trace w' = trace no_files.
Proof.
  eapply (unusable_settings_never_settle ast_ok invariants_ok failing_shell true
            "v0.8.20" null_settings (VStr "") _ VNull no_files);
    vm_compute; reflexivity.
Defined.

Lemma fulfilled_result_members_witness :
  (exists stderr, cached_fulfilment = failure stderr)
  \/ exists augmented settings remappings,
       augment input = Return augmented
       /\ get augmented "settings" = Return settings
       /\ get settings "remappings" = Return remappings
       /\ get cached_fulfilment "success" = Return (VBool true)
       /\ get cached_fulfilment "remappings" = Return remappings
       /\ get cached_fulfilment "compiler_args"
          = Return (VObj [("version", VStr "v0.8.20"); ("compiler_json", augmented)]).
Proof.
  apply (fulfilled_result_members ast_ok invariants_ok failing_shell true
           "v0.8.20" input (VStr "") compiled_cache cached_fulfilment
           (snd (work_on_json ast_ok invariants_ok failing_shell true
                   "v0.8.20" input (VStr "") compiled_cache))).
  vm_compute; reflexivity.
Defined.

(** ** Strings: versions *)

Section Versions.

Lemma append_empty t : "" +:+ t = t.
Proof. reflexivity. Qed.

Lemma append_cons c s t : String c s +:+ t = String c (s +:+ t).
Proof. reflexivity. Qed.

Lemma take_digits_app d rest :
  all_chars is_digit d = true -> stops is_digit rest = true ->
  take_digits (d +:+ rest) = (d, rest).
Proof.
  intros Hd Hr. induction d as [|c d IH]; rewrite ?append_empty, ?append_cons; cbn [all_chars] in *.
  - destruct rest as [|c r]; [reflexivity|]. cbn [take_digits stops] in *.
    apply negb_true_iff in Hr. rewrite Hr. reflexivity.
  - apply andb_true_iff in Hd as [Hc Hd]. cbn [take_digits]. rewrite Hc, (IH Hd).
    reflexivity.
Qed.

Lemma take_hash_app h rest :
  all_chars is_hash_char h = true -> stops is_hash_char rest = true ->
  take_hash (h +:+ rest) = h.
Proof.
  intros Hh Hr. induction h as [|c h IH]; rewrite ?append_empty, ?append_cons; cbn [all_chars] in *.
  - destruct rest as [|c r]; [reflexivity|]. cbn [take_hash stops] in *.
    apply negb_true_iff in Hr. rewrite Hr. reflexivity.
  - apply andb_true_iff in Hh as [Hc Hh]. cbn [take_hash]. rewrite Hc, (IH Hh).
    reflexivity.
Qed.

Lemma commit_part_plain c r : Ascii.eqb c "+" = false -> commit_part (String c r) = None.
Proof.
  intros Hc. unfold commit_part. cbn [String.prefix].
  destruct (ascii_dec "+" c) as [<-|Hne]; [discriminate|]. reflexivity.
Qed.

Lemma after_first_skip pre s :
  all_chars plain pre = true ->
  after_first (pre +:+ s) = option_map (String.append pre) (after_first s).
Proof.
  intros Hp. induction pre as [|c pre IH]; rewrite ?append_empty, ?append_cons; cbn [all_chars] in *.
  - destruct (after_first s); reflexivity.
  - apply andb_true_iff in Hp as [Hc Hp]. unfold plain in Hc.
    apply andb_true_iff in Hc as [Hplus Hterm].
    apply negb_true_iff in Hplus. apply negb_true_iff in Hterm.
    cbn [after_first]. rewrite (commit_part_plain _ _ Hplus), Hterm, (IH Hp).
    destruct (after_first s); reflexivity.
Qed.

Lemma substring_all n s : String.substring 0 (String.length s + n) s = s.
Proof.
  induction s as [|c s IH]; cbn [String.length String.substring Nat.add].
  - destruct n; reflexivity.
  - rewrite IH. reflexivity.
Qed.

Lemma commit_part_here hash rest :
  is_hash hash = true -> stops is_hash_char rest = true ->
  commit_part ("+commit." +:+ hash +:+ rest) = Some ("+commit." +:+ hash).
Proof.
  intros Hh Hr. unfold is_hash in Hh. apply andb_true_iff in Hh as [Hne Hall].
  unfold commit_part.
  change (String.prefix "+commit." ("+commit." +:+ hash +:+ rest)) with
    (String.prefix "" (hash +:+ rest)).
  assert (Hp : String.prefix "" (hash +:+ rest) = true) by (destruct (hash +:+ rest); reflexivity).
  rewrite Hp.
  change (String.length ("+commit." +:+ hash +:+ rest) - 8)
    with (String.length (hash +:+ rest) - 0).
  rewrite Nat.sub_0_r.
  change (String.substring 8 (String.length (hash +:+ rest)) ("+commit." +:+ hash +:+ rest))
    with (String.substring 0 (String.length (hash +:+ rest)) (hash +:+ rest)).
  rewrite <- (Nat.add_0_r (String.length (hash +:+ rest))), substring_all.
  rewrite (take_hash_app _ _ Hall Hr).
  apply negb_true_iff in Hne. rewrite Hne. reflexivity.
Qed.


Lemma append_assoc a b c : (a +:+ b) +:+ c = a +:+ b +:+ c.
Proof. induction a as [|x a IH]; rewrite ?append_empty, ?append_cons; [|rewrite IH]; reflexivity. Qed.

Lemma all_chars_app p a b : all_chars p (a +:+ b) = all_chars p a && all_chars p b.
Proof.
  induction a as [|x a IH]; rewrite ?append_empty, ?append_cons; cbn [all_chars].
  - reflexivity.
  - rewrite IH, andb_assoc. reflexivity.
Qed.

Lemma all_chars_weaken (p q : ascii -> bool) s :
  (forall c, p c = true -> q c = true) -> all_chars p s = true -> all_chars q s = true.
Proof.
  intros Hpq. induction s as [|c s IH]; cbn [all_chars]; [reflexivity|].
  intros H. apply andb_true_iff in H as [Hc Hs]. rewrite (Hpq _ Hc), (IH Hs). reflexivity.
Qed.

Lemma digit_is_plain c : is_digit c = true -> plain c = true.
Proof.
  destruct c as [[] [] [] [] [] [] [] []]; intros H; try reflexivity; discriminate H.
Qed.

Lemma after_first_here s matched : commit_part s = Some matched -> after_first s = Some matched.
Proof. intros H. destruct s; cbn [after_first]; rewrite H; reflexivity. Qed.

Lemma long_version_plain pre s matched :
  negb (String.eqb pre "") = true -> all_chars plain pre = true ->
  commit_part s = Some matched ->
  long_version (pre +:+ s) = Some (pre +:+ matched).
Proof.
  intros Hne Hp Hc. destruct pre as [|c pre]; [discriminate|].
  cbn [all_chars] in Hp. apply andb_true_iff in Hp as [Hpc Hp].
  unfold plain in Hpc. apply andb_true_iff in Hpc as [_ Hterm].
  apply negb_true_iff in Hterm.
  rewrite !append_cons. cbn [long_version]. rewrite Hterm.
  rewrite (after_first_skip _ _ Hp), (after_first_here _ _ Hc). reflexivity.
Qed.

Lemma number_chars s : is_number s = true -> negb (String.eqb s "") = true /\ all_chars is_digit s = true.
Proof. unfold is_number. apply andb_true_iff. Qed.

Lemma three_numbers_here major minor patch rest :
  is_number major = true -> is_number minor = true -> is_number patch = true ->
  stops is_digit rest = true ->
  three_numbers (major +:+ "." +:+ minor +:+ "." +:+ patch +:+ rest)
  = Some (major +:+ "." +:+ minor +:+ "." +:+ patch).
Proof.
  intros Hmajor Hminor Hpatch Hrest.
  apply number_chars in Hmajor as [Hmajor0 Hmajor].
  apply number_chars in Hminor as [Hminor0 Hminor].
  apply number_chars in Hpatch as [Hpatch0 Hpatch].
  apply negb_true_iff in Hmajor0, Hminor0, Hpatch0.
  unfold three_numbers.
  rewrite (take_digits_app major) by first [assumption | reflexivity]. rewrite Hmajor0.
  rewrite append_cons, append_empty. cbn [after_dot Ascii.eqb Bool.eqb].
  rewrite (take_digits_app minor) by first [assumption | reflexivity]. rewrite Hminor0.
  rewrite append_cons, append_empty. cbn [after_dot Ascii.eqb Bool.eqb].
  rewrite (take_digits_app patch) by assumption. rewrite Hpatch0. reflexivity.
Qed.

(** X13. A [solcLongVersion] of the form major.minor.patch+commit.hash,
    whatever follows the hash, gives the build-info item the version
    'v' + major.minor.patch+commit.hash (lines 65-67), in which
    [work_on_json] finds the version number major.minor.patch (line 267). *)
Theorem item_version_is_found major minor patch hash rest :
  is_number major = true -> is_number minor = true -> is_number patch = true ->
  is_hash hash = true -> stops is_hash_char rest = true ->
  let number := major +:+ "." +:+ minor +:+ "." +:+ patch in
  let long := number +:+ "+commit." +:+ hash in
  long_version (long +:+ rest) = Some long
  /\ version_number ("v" +:+ long) = Some number.
Proof.
  intros Hmajor Hminor Hpatch Hhash Hrest number long. split.
  - unfold long. rewrite (append_assoc number), (append_assoc "+commit.").
    apply long_version_plain.
    + unfold number. destruct major; [discriminate Hmajor | reflexivity].
    + unfold number. rewrite !all_chars_app.
      apply number_chars in Hmajor as [_ Hmajor].
      apply number_chars in Hminor as [_ Hminor].
      apply number_chars in Hpatch as [_ Hpatch].
      rewrite (all_chars_weaken _ _ _ digit_is_plain Hmajor),
        (all_chars_weaken _ _ _ digit_is_plain Hminor),
        (all_chars_weaken _ _ _ digit_is_plain Hpatch). reflexivity.
    + apply commit_part_here; assumption.
  - rewrite append_cons, append_empty. cbn [version_number Ascii.eqb Bool.eqb].
    unfold long, number. rewrite !append_assoc.
    rewrite (three_numbers_here major minor patch ("+commit." +:+ hash) Hmajor Hminor Hpatch eq_refl).
    reflexivity.
Qed.

Lemma version_number_needs_v compiler_version :
  lacks "v" compiler_version = true -> version_number compiler_version = None.
Proof.
  induction compiler_version as [|c r IH]; cbn [lacks version_number]; [reflexivity|].
  intros H. apply andb_true_iff in H as [Hc Hr]. apply negb_true_iff in Hc.
  rewrite Hc. exact (IH Hr).
Qed.

(** X14. A compiler version without the letter v, such as 0.8.20, has no
    version number for [work_on_json]: it prints that it could not find
    one, and the command line asks [solc-select] to use 'undefined'. *)
Theorem version_needs_the_letter_v checkSolcSelectInstalled compiler_version hash :
  lacks "v" compiler_version = true ->
  version_number compiler_version = None
  /\ version_event compiler_version = ConsoleLog [VStr "Could not find version number"]
  /\ command_of checkSolcSelectInstalled compiler_version hash
     = if checkSolcSelectInstalled
       then select_and_compile "undefined" (currentFile hash) (outputJson hash)
       else install_select_and_compile "undefined" (currentFile hash) (outputJson hash).
Proof.
  intros H. apply version_number_needs_v in H.
  unfold version_event, command_of, version_text. rewrite H. auto.
Qed.

End Versions.

(** ** Strings: remappings *)

Section Remappings.

Lemma trim_start_stops s : stops is_space (trim_start s) = true.
Proof.
  induction s as [|c r IH]; [reflexivity|]. cbn [trim_start].
  destruct (is_space c) eqn:Hc; [exact IH|]. cbn [stops]. rewrite Hc. reflexivity.
Qed.

Lemma trim_end_stops s : stops is_space s = true -> stops is_space (trim_end s) = true.
Proof.
  destruct s as [|c r]; [reflexivity|]. cbn [stops trim_end]. intros H.
  apply negb_true_iff in H. rewrite H. cbn [andb stops]. rewrite H. reflexivity.
Qed.

Lemma split_lines_lack s : Forall (fun line => lacks line_feed line = true) (split_lines s).
Proof.
  induction s as [|c r IH]; cbn [split_lines].
  - constructor; [reflexivity | constructor].
  - destruct (Ascii.eqb c line_feed) eqn:Hc.
    + constructor; [reflexivity | exact IH].
    + destruct (split_lines r) as [|first others].
      * constructor; [|constructor]. cbn [lacks]. rewrite Hc. reflexivity.
      * inversion IH as [|? ? Hfirst Hothers]; subst. constructor; [|exact Hothers].
        cbn [lacks]. rewrite Hc, Hfirst. reflexivity.
Qed.

Lemma white_is_space c : white c = is_space c.
Proof. destruct c as [[] [] [] [] [] [] [] []]; reflexivity. Qed.

Lemma all_white s : all_chars white s = all_chars is_space s.
Proof.
  induction s as [|c r IH]; cbn [all_chars]; [reflexivity|].
  rewrite white_is_space, IH. reflexivity.
Qed.

Lemma stops_white s : stops white s = stops is_space s.
Proof. destruct s; cbn [stops]; [reflexivity|]. rewrite white_is_space. reflexivity. Qed.

Lemma split_lines_some text : exists first others, split_lines text = first :: others.
Proof.
  destruct text as [|c r]; cbn [split_lines]; [eauto|].
  destruct (Ascii.eqb c line_feed); [eauto|].
  destruct (split_lines r); eauto.
Qed.

Lemma join_split text : Json.join nl (split_lines text) = text.
Proof.
  induction text as [|c r IH]; cbn [split_lines]; [reflexivity|].
  destruct (split_lines_some r) as (first & others & E). rewrite E in *.
  destruct (Ascii.eqb_spec c line_feed) as [->|_].
  - rewrite <- IH. reflexivity.
  - destruct others; rewrite <- IH; reflexivity.
Qed.

Lemma trim_start_parts s :
  exists before, s = before +:+ trim_start s /\ all_chars is_space before = true.
Proof.
  induction s as [|c r IH]; cbn [trim_start].
  - exists "". auto.
  - destruct (is_space c) eqn:Hc.
    + destruct IH as (before & Hr & Hb). exists (String c before).
      rewrite append_cons, <- Hr. cbn [all_chars]. rewrite Hc, Hb. auto.
    + exists "". auto.
Qed.

Lemma trim_end_parts s :
  exists after, s = trim_end s +:+ after /\ all_chars is_space after = true
                /\ closes is_space (trim_end s) = true.
Proof.
  induction s as [|c r IH]; cbn [trim_end].
  - exists "". auto.
  - destruct IH as (after & Hr & Ha & Hclose).
    destruct (is_space c && String.eqb (trim_end r) "") eqn:E.
    + apply andb_true_iff in E as [Hc He]. apply String.eqb_eq in He.
      rewrite He, append_empty in Hr. exists (String c r).
      rewrite append_empty. cbn [all_chars]. rewrite Hc, Hr, Ha. auto.
    + exists after. rewrite append_cons, <- Hr. split; [reflexivity|]. split; [exact Ha|].
      destruct (trim_end r) as [|c' r'] eqn:Et.
      * cbn [closes]. rewrite String.eqb_refl, andb_true_r in E. rewrite E. reflexivity.
      * exact Hclose.
Qed.

Lemma trim_start_empty s : String.eqb (trim_start s) "" = all_chars is_space s.
Proof.
  induction s as [|c r IH]; cbn [trim_start all_chars]; [reflexivity|].
  destruct (is_space c); [exact IH | reflexivity].
Qed.

Lemma trim_end_empty s : stops is_space s = true -> String.eqb (trim_end s) "" = String.eqb s "".
Proof.
  destruct s as [|c r]; [reflexivity|]. cbn [stops trim_end]. intros H.
  apply negb_true_iff in H. rewrite H. reflexivity.
Qed.

Lemma trim_empty s : String.eqb (trim s) "" = all_chars is_space s.
Proof.
  unfold trim. rewrite trim_end_empty by apply trim_start_stops. apply trim_start_empty.
Qed.

Lemma trim_core raw : blank raw = false -> core_of raw (trim raw).
Proof.
  intros Hb. unfold blank in Hb. rewrite all_white, <- trim_empty in Hb.
  destruct (trim_start_parts raw) as (before & Hraw & Hbefore).
  destruct (trim_end_parts (trim_start raw)) as (after & Hmid & Hafter & Hclose).
  exists before, after. fold (trim raw) in Hmid, Hclose.
  split; [rewrite <- Hmid; exact Hraw|].
  split; [rewrite all_white; exact Hbefore|].
  split; [rewrite all_white; exact Hafter|].
  split; [intros He; rewrite He in Hb; discriminate|].
  split.
  - rewrite stops_white. unfold trim. apply trim_end_stops, trim_start_stops.
  - clear -Hclose. induction (trim raw) as [|c r IH]; [reflexivity|].
    destruct r as [|c' r']; cbn [closes] in *.
    + rewrite white_is_space. exact Hclose.
    + apply IH, Hclose.
Qed.

Lemma kept_lines_trimmed lines :
  Forall2 core_of (List.filter (fun raw => negb (blank raw)) lines)
    (List.filter (fun line => negb (String.eqb line "")) (map trim lines)).
Proof.
  induction lines as [|raw lines IH]; cbn [map List.filter]; [constructor|].
  rewrite trim_empty, <- all_white. fold (blank raw).
  destruct (blank raw) eqn:Hb; cbn [negb]; [exact IH|].
  constructor; [apply trim_core, Hb | exact IH].
Qed.

(** X15. The remappings that lines 89-94 collect are, in the order of the
    file, the lines of the file that hold more than white space, each
    without the white space around it: the file is its lines joined by
    line feeds, no line holds a line feed, and each remapping is not empty,
    neither starts nor ends with white space, and is its line once the
    white space before and after it is taken away. *)
Theorem remappings_are_the_trimmed_lines text :
  Json.join nl (split_lines text) = text
  /\ Forall (fun raw => lacks line_feed raw = true) (split_lines text)
  /\ Forall2 core_of
       (List.filter (fun raw => negb (blank raw)) (split_lines text))
       (remappings_of text).
Proof.
  split; [apply join_split|]. split; [apply split_lines_lack|].
  unfold remappings_of. apply kept_lines_trimmed.
Qed.

Lemma split_lines_one line : lacks line_feed line = true -> split_lines line = [line].
Proof.
  induction line as [|c r IH]; [reflexivity|]. cbn [lacks split_lines]. intros H.
  apply andb_true_iff in H as [Hc Hr]. apply negb_true_iff in Hc.
  rewrite Hc, (IH Hr). reflexivity.
Qed.

Lemma split_lines_first line rest :
  lacks line_feed line = true ->
  split_lines (line +:+ String line_feed rest) = line :: split_lines rest.
Proof.
  induction line as [|c r IH]; rewrite ?append_empty, ?append_cons.
  - intros _. reflexivity.
  - cbn [lacks]. intros H. apply andb_true_iff in H as [Hc Hr]. apply negb_true_iff in Hc.
    cbn [split_lines]. rewrite Hc, (IH Hr). reflexivity.
Qed.

Lemma split_lines_join line lines :
  Forall (fun line => lacks line_feed line = true) (line :: lines) ->
  split_lines (Json.join nl (line :: lines)) = line :: lines.
Proof.
  revert line. induction lines as [|next lines IH]; intros line H.
  - cbn [Json.join]. apply split_lines_one. inversion H; assumption.
  - inversion H as [|? ? Hline Hrest]; subst.
    change (Json.join nl (line :: next :: lines))
      with (line +:+ nl +:+ Json.join nl (next :: lines)).
    change (nl +:+ Json.join nl (next :: lines))
      with (String line_feed (Json.join nl (next :: lines))).
    rewrite (split_lines_first _ _ Hline), (IH _ Hrest). reflexivity.
Qed.

Lemma clean_lines_stay lines :
  Forall (fun line => clean_line line = true) lines ->
  List.filter (fun line => negb (String.eqb line "")) (map trim lines) = lines.
Proof.
  induction 1 as [|line lines Hline _ IH]; [reflexivity|].
  unfold clean_line in Hline. apply andb_true_iff in Hline as [Hline _].
  apply andb_true_iff in Hline as [Hne Htrim]. apply String.eqb_eq in Htrim.
  cbn [map List.filter]. rewrite Htrim, Hne, IH. reflexivity.
Qed.

(** X16. Lines that are not blank, have no white space at either end and
    hold no line feed are read back as they are, in their order, from the
    file that holds them one per line. *)
Theorem remappings_round_trip lines :
  Forall (fun line => clean_line line = true) lines ->
  remappings_of (Json.join nl lines) = lines.
Proof.
  intros H. unfold remappings_of. destruct lines as [|line lines]; [reflexivity|].
  rewrite split_lines_join; [apply clean_lines_stay, H|].
  eapply List.Forall_impl; [|exact H]. intros l Hl. unfold clean_line in Hl.
  apply andb_true_iff in Hl as [_ Hl]. exact Hl.
Qed.

End Remappings.

(** ** The request that finds no cached output *)

Section RequestMiss.

Variable get_ast : value -> completion value.
Variable get_invariants : value -> completion value.
Variable shell : string -> gmap string string -> exec_result.
Variable checkSolcSelectInstalled : bool.

(** X17. A request that finds no output cache file, in a world where
    ['.tmp'] is not a regular file, calls [exec] exactly once (line 280 or
    310), whatever comes of it: the version line and the command come
    first, and nothing recorded after them is a call of [exec].  (What the
    test [checkSolcSelectInstalled] runs is not part of the code at
    hand.) *)
Theorem cache_miss_compiles_once compiler_version compiler_json contract_name
    text augmented augmented_text w :
  JSON_stringify compiler_json = Return text ->
  augment compiler_json = Return augmented ->
  JSON_stringify augmented = Return augmented_text ->
  files w !! ".tmp" = None ->
  exists_in w (outputJson (Md5.md5_hex text)) = false ->
  exists p w' rest,
    work_on_json get_ast get_invariants shell checkSolcSelectInstalled
      compiler_version compiler_json contract_name w = (p, w')
    /\ trace w'
       = trace w ++ [version_event compiler_version;
                     Exec (command_of checkSolcSelectInstalled compiler_version
                             (Md5.md5_hex text))] ++ rest
    /\ no_exec rest = true.
Proof.
  intros Ht Ha Hat _ Hmiss. unfold work_on_json.
  rewrite (executor_miss get_ast get_invariants shell checkSolcSelectInstalled
             compiler_version compiler_json contract_name
             text augmented augmented_text w Ht Ha Hat Hmiss).
  unfold after_exec, compiled.
  match goal with |- context [exec_failed ?r0] => destruct (exec_failed r0) end.
  - unfold bind, console_log, emit, ret. cbn [files dirs trace].
    eexists _, _, [_]. split; [reflexivity|]. cbn [trace].
    rewrite prepared_trace, <- !app_assoc. split; reflexivity.
  - unfold bind at 1, console_log, emit. cbn [files dirs trace].
    unfold read_and_normalize, bind at 1, readFileSync. cbn [files].
    match goal with |- context [?fs !! ?path] => destruct (fs !! path) as [out|] end.
    + destruct (normalize_and_resolve_steady get_ast get_invariants out
                  (VStr compiler_version) augmented contract_name) as (r & evs & Hn & Hne).
      rewrite Hn. destruct r; eexists _, _, (_ :: evs);
        (split; [reflexivity|]); cbn [trace add_events];
        rewrite prepared_trace, <- !app_assoc; (split; [reflexivity|]);
        unfold no_exec in *; cbn [forallb is_exec negb andb]; exact Hne.
    + eexists _, _, [_]. split; [reflexivity|]. cbn [trace].
      rewrite prepared_trace, <- !app_assoc. split; reflexivity.
Qed.

End RequestMiss.

(** ** Projects *)

Section Projects.

Variable get_ast : value -> completion value.
Variable get_invariants : value -> completion value.
Variable shell : string -> gmap string string -> exec_result.
Variable checkSolcSelectInstalled : bool.
Variable readdirSync : string -> world -> completion (list string).
Variable globSync : string -> world -> completion (list string).
Variable path_join : string -> string -> string.
Variable hardhat_build_json : string -> gmap string string -> completion value * gmap string string.
Variable forge_build_json : string -> gmap string string -> completion value * gmap string string.

Lemma length_append a b : String.length (a +:+ b) = String.length a + String.length b.
Proof.
  induction a as [|c a IH]; rewrite ?append_empty, ?append_cons; cbn [String.length Nat.add];
    [|rewrite IH]; reflexivity.
Qed.

Lemma substring_skip a b m :
  String.substring (String.length a) m (a +:+ b) = String.substring 0 m b.
Proof.
  induction a as [|c a IH]; rewrite ?append_empty, ?append_cons;
    cbn [String.length String.substring]; [reflexivity | exact IH].
Qed.

Lemma ends_with_suffix suffix before : ends_with suffix (before +:+ suffix) = true.
Proof.
  unfold ends_with. rewrite length_append.
  assert (Hle : (String.length suffix <=? String.length before + String.length suffix)%nat = true)
    by (apply Nat.leb_le; lia).
  rewrite Hle. cbn [andb].
  replace (String.length before + String.length suffix - String.length suffix)
    with (String.length before) by lia.
  rewrite substring_skip, <- (Nat.add_0_r (String.length suffix)), substring_all.
  apply String.eqb_refl.
Qed.

(** X18. A name in the folder that ends in forge.toml or foundry.toml,
    whatever precedes it, makes the project a forge project, also when a
    Hardhat configuration is there; nothing is printed. *)
Theorem forge_config_wins task_dir w names before :
  readdirSync task_dir w = Return names ->
  In (before +:+ "forge.toml") names \/ In (before +:+ "foundry.toml") names ->
  auto_detect readdirSync task_dir w = (Return "forge", w).
Proof.
  intros Hread Hin. unfold auto_detect, bind. rewrite Hread.
  assert (Hsome : existsb forgeConfig names = true).
  { apply existsb_exists. destruct Hin as [Hin|Hin]; eexists; (split; [exact Hin|]);
      unfold forgeConfig; rewrite ends_with_suffix; auto using orb_true_r. }
  rewrite Hsome. reflexivity.
Qed.

Lemma auto_detect_kinds task_dir w project w' :
  auto_detect readdirSync task_dir w = (Return project, w') ->
  project = "forge" \/ project = "hardhat" \/ project = "solidity_folder".
Proof.
  unfold auto_detect, bind. destruct (readdirSync task_dir w) as [names|e]; [|discriminate].
  destruct (existsb forgeConfig names); [intros [= <- _]; auto|].
  destruct (existsb hardhatConfig names); [intros [= <- _]; auto|].
  unfold console_log, emit, ret. intros [= <- _]. auto.
Qed.

Lemma handle_build_info_task_exits task_dir build_func w code last w' :
  handle_build_info_task get_ast get_invariants shell checkSolcSelectInstalled
    task_dir build_func w = (Exited code last, w') ->
  code = 1%Z
  /\ ((exists err, last = Printed [VStr "Build failed"; err]) \/ exists e, last = Caught e).
Proof.
  unfold handle_build_info_task.
  destruct (build_func task_dir (files w)) as [[result|e] fs];
    [|intros [= <- <- _]; eauto].
  unfold build_info_contents.
  destruct (get result "success") as [success|e]; [|intros [= <- <- _]; eauto].
  destruct (truthy success).
  - destruct (do contents <- get result "contents"; iterate contents) as [items|e];
      [|intros [= <- <- _]; eauto].
    destruct (compile_all get_ast get_invariants shell checkSolcSelectInstalled items []
                (World fs (dirs w) (trace w))) as [[results|e|e] w2];
      try discriminate.
    intros [= <- <- _]. eauto.
  - destruct (get result "err") as [err|e]; intros [= <- <- _]; eauto.
Qed.

(** X19. [build] knows what [auto_detect] returns: when the build of a
    detected project exits, the code is 1 and the build tool has failed, an
    error has been caught at lines 71-74, or the compiler version is
    missing; it is never the exit of line 51 over an unknown project type. *)
Theorem detected_project_is_known task_dir w project w1 build_dir compiler_version w2
    code last w3 :
  auto_detect readdirSync task_dir w = (Return project, w1) ->
  build get_ast get_invariants shell checkSolcSelectInstalled globSync path_join
    hardhat_build_json forge_build_json (VStr project) build_dir compiler_version w2
  = (Exited code last, w3) ->
  code = 1%Z
  /\ ((exists err, last = Printed [VStr "Build failed"; err])
      \/ (exists e, last = Caught e)
      \/ last = Printed [VStr "Compiler version not specified"]).
Proof.
  intros Hd Hb.
  apply auto_detect_kinds in Hd as [->|[->| ->]]; unfold build in Hb; cbn [is_string] in Hb.
  - change (String.eqb "forge" "hardhat") with false in Hb.
    change (String.eqb "forge" "forge") with true in Hb.
    apply handle_build_info_task_exits in Hb as [-> [H|H]]; auto.
  - change (String.eqb "hardhat" "hardhat") with true in Hb.
    apply handle_build_info_task_exits in Hb as [-> [H|H]]; auto.
  - change (String.eqb "solidity_folder" "hardhat") with false in Hb.
    change (String.eqb "solidity_folder" "forge") with false in Hb.
    change (String.eqb "solidity_folder" "solidity_folder") with true in Hb.
    destruct compiler_version as [version|]; [|injection Hb as <- <- _; auto].
    destruct (String.eqb version ""); [injection Hb as <- <- _; auto|].
    unfold handle_multi_build in Hb.
    destruct (gather globSync path_join build_dir w2) as [[input|e] w4]; [|discriminate].
    destruct (work_on_json get_ast get_invariants shell checkSolcSelectInstalled
                version input (VStr "") w4) as [[v|e] w5]; discriminate.
Qed.

End Projects.

(** ** Build-info items *)

Section BuildInfo.

Variable get_ast : value -> completion value.
Variable get_invariants : value -> completion value.
Variable shell : string -> gmap string string -> exec_result.
Variable checkSolcSelectInstalled : bool.

Lemma item_request_returned data version input :
  item_request data = Return (version, input) ->
  exists long matched,
    get data "solcLongVersion" = Return long
    /\ long_version (to_string long) = Some matched
    /\ get data "input" = Return input
    /\ version = "v" +:+ matched.
Proof.
  unfold item_request.
  destruct (get data "solcLongVersion") as [long|]; cbn [cbind]; [|discriminate].
  destruct (long_version (to_string long)) as [matched|] eqn:Hm; cbn [cbind]; [|discriminate].
  destruct (get data "input") as [i|]; cbn [cbind]; [|discriminate].
  intros [= <- <-]. exists long, matched. repeat split; assumption.
Qed.

Lemma compile_all_next items : forall results w all w',
  compile_all get_ast get_invariants shell checkSolcSelectInstalled items results w
  = (Next all, w') ->
  exists new,
    all = results ++ new
    /\ compiled_in_turn get_ast get_invariants shell checkSolcSelectInstalled items new w w'.
Proof.
  induction items as [|data items IH]; intros results w all w'; cbn [compile_all].
  - intros [= <- <-]. exists []. rewrite app_nil_r. split; [reflexivity | constructor].
  - destruct (item_request data) as [[version input]|e] eqn:Hreq; [|discriminate].
    destruct (work_on_json get_ast get_invariants shell checkSolcSelectInstalled
                version input (VStr "") w) as [[result|e] w1] eqn:Hwork; [|discriminate].
    intros H. apply IH in H as (new & -> & Hnew).
    exists (result :: new). rewrite <- app_assoc. split; [reflexivity|].
    apply item_request_returned in Hreq as (long & matched & Hl & Hm & Hi & ->).
    exact (turn_next _ _ _ _ _ _ _ _ _ _ _ _ _ _ Hl Hm Hi Hwork Hnew).
Qed.

(** X20. When [handle_build_info_task] resolves, it does so with a list
    that holds, for each item of the [contents] of the build and in their
    order, what [work_on_json] fulfilled its promise with for the version
    and the input of that item, the request of each item running in the
    world that the one before it has left: the first in the files that the
    build tool has left, and the last leaving the world in which the task
    ends.  Every item had a version that the pattern of line 65 matches. *)
Theorem build_info_results_follow_the_items task_dir build_func w v w' :
  handle_build_info_task get_ast get_invariants shell checkSolcSelectInstalled
    task_dir build_func w = (Resolved v, w') ->
  exists result fs contents items results,
    build_func task_dir (files w) = (Return result, fs)
    /\ get result "contents" = Return contents
    /\ iterate contents = Return items
    /\ v = VArr results []
    /\ compiled_in_turn get_ast get_invariants shell checkSolcSelectInstalled
         items results (World fs (dirs w) (trace w)) w'.
Proof.
  unfold handle_build_info_task.
  destruct (build_func task_dir (files w)) as [[result|e] fs]; [|discriminate].
  unfold build_info_contents.
  destruct (get result "success") as [success|e]; [|discriminate].
  destruct (truthy success).
  - destruct (get result "contents") as [contents|e] eqn:Hc; cbn [cbind]; [|discriminate].
    destruct (iterate contents) as [items|e] eqn:Hi; [|discriminate].
    destruct (compile_all get_ast get_invariants shell checkSolcSelectInstalled items []
                (World fs (dirs w) (trace w))) as [[results|e|e] w2] eqn:Hall;
      try discriminate.
    intros [= <- <-]. apply compile_all_next in Hall as (new & -> & Hnew).
    exists result, fs, contents, items, new. auto.
  - destruct (get result "err"); discriminate.
Qed.

Lemma compile_all_app before : forall rest results w,
  compile_all get_ast get_invariants shell checkSolcSelectInstalled
    (before ++ rest) results w
  = match compile_all get_ast get_invariants shell checkSolcSelectInstalled
            before results w with
    | (Next done, w') =>
        compile_all get_ast get_invariants shell checkSolcSelectInstalled rest done w'
    | stopped => stopped
    end.
Proof.
  induction before as [|data before IH]; intros rest results w; cbn [app compile_all].
  - reflexivity.
  - destruct (item_request data) as [[version input]|e]; [|reflexivity].
    destruct (work_on_json get_ast get_invariants shell checkSolcSelectInstalled
                version input (VStr "") w) as [[result|e] w1]; [apply IH | reflexivity].
Qed.

(** X21. What makes [work_on_json] throw for a build-info item is not
    caught by the [try] of lines 57-74: when the items before it have been
    compiled and the promise for this item is never settled, there is no
    exit and no [resolve], and the items after it are not compiled. *)
Theorem item_failure_is_not_caught task_dir build_func w fs result success contents
    before data after results w2 version input e w3 :
  build_func task_dir (files w) = (Return result, fs) ->
  get result "success" = Return success ->
  truthy success = true ->
  get result "contents" = Return contents ->
  iterate contents = Return (before ++ data :: after) ->
  compile_all get_ast get_invariants shell checkSolcSelectInstalled
    before [] (World fs (dirs w) (trace w)) = (Next results, w2) ->
  item_request data = Return (version, input) ->
  work_on_json get_ast get_invariants shell checkSolcSelectInstalled
    version input (VStr "") w2 = (NeverSettled e, w3) ->
  handle_build_info_task get_ast get_invariants shell checkSolcSelectInstalled
    task_dir build_func w = (Unsettled e, w3).
Proof.
  intros Hbuild Hs Ht Hc Hi Hbefore Hreq Hwork.
  unfold handle_build_info_task, build_info_contents.
  rewrite Hbuild, Hs, Ht, Hc. cbn [cbind]. rewrite Hi.
  rewrite compile_all_app, Hbefore. cbn [compile_all]. rewrite Hreq, Hwork. reflexivity.
Qed.

End BuildInfo.

(** ** Folders of sources *)

Section Folder.

Variable get_ast : value -> completion value.
Variable get_invariants : value -> completion value.
Variable shell : string -> gmap string string -> exec_result.
Variable checkSolcSelectInstalled : bool.
Variable globSync : string -> world -> completion (list string).
Variable path_join : string -> string -> string.

Lemma read_sources_returns paths : forall o w r w',
  read_sources paths (VObj o) w = (r, w') ->
  w' = w
  /\ match r with
     | Return build_sources =>
         exists o', build_sources = VObj o'
           /\ (forall file, In file paths ->
                 exists text, files w !! file = Some text
                   /\ obj_get o' file = Some (VObj [("content", VStr text)]))
           /\ (forall k, ~ In k paths -> obj_get o' k = obj_get o k)
     | Throw e => exists file, In file paths /\ files w !! file = None /\ e = FsError file
     end.
Proof.
  induction paths as [|file rest IH]; intros o w r w'; cbn [read_sources].
  - unfold ret. intros [= <- <-]. split; [reflexivity|]. exists o.
    split; [reflexivity|]. split; [intros file []|reflexivity].
  - unfold bind at 1, readFileSync. destruct (files w !! file) as [text|] eqn:Hfile.
    + unfold bind at 1, lift. cbn [set_member]. intros H.
      apply IH in H as [-> H]. split; [reflexivity|]. destruct r as [build_sources|e].
      * destruct H as (o' & -> & Hin & Hout). exists o'. split; [reflexivity|]. split.
        -- intros f Hf. destruct (in_dec string_dec f rest) as [Hr|Hr]; [exact (Hin f Hr)|].
           destruct Hf as [<-|Hf]; [|contradiction].
           exists text. split; [exact Hfile|]. rewrite (Hout _ Hr). apply obj_get_set_eq.
        -- intros k Hk. rewrite Hout by (intros Hr; apply Hk; right; exact Hr).
           apply obj_get_set_ne. intros ->. apply Hk. left. reflexivity.
      * destruct H as (f & Hf & Hnone & ->). exists f. split; [right; exact Hf|]. auto.
    + intros [= <- <-]. split; [reflexivity|]. exists file. split; [left; reflexivity|]. auto.
Qed.

Lemma read_remappings_returns task_dir w remappings w' :
  read_remappings path_join task_dir w = (Return remappings, w') ->
  w' = w /\ remappings = remappings_in w (path_join task_dir "remappings.txt").
Proof.
  unfold read_remappings, bind, existsSync, readFileSync, ret, remappings_in.
  destruct (files w !! path_join task_dir "remappings.txt") as [text|] eqn:Hfile.
  - assert (Hs : bool_decide (is_Some (Some text)) = true)
      by (apply bool_decide_eq_true_2; eauto).
    rewrite Hs, orb_true_r, Hfile. intros [= <- <-]. auto.
  - destruct (bool_decide (path_join task_dir "remappings.txt" ∈ dirs w) || _).
    + rewrite Hfile. discriminate.
    + intros [= <- <-]. auto.
Qed.

Lemma gather_returns task_dir w input w' :
  gather globSync path_join task_dir w = (Return input, w') ->
  w' = w
  /\ exists paths sources,
       globSync (path_join task_dir "**/*.sol") w = Return paths
       /\ (forall file, In file paths ->
             exists text, files w !! file = Some text
               /\ get sources file = Return (VObj [("content", VStr text)]))
       /\ input = folder_input sources
                    (remappings_in w (path_join task_dir "remappings.txt")).
Proof.
  unfold gather. unfold bind at 1.
  destruct (globSync (path_join task_dir "**/*.sol") w) as [paths|e]; [|discriminate].
  unfold bind at 1.
  destruct (read_sources paths (VObj []) w) as [[build_sources|e] w1] eqn:Hread;
    [|discriminate].
  apply read_sources_returns in Hread as [-> (o' & -> & Hin & _)].
  unfold bind at 1.
  destruct (read_remappings path_join task_dir w) as [[remappings|e] w2] eqn:Hrem;
    [|discriminate].
  apply read_remappings_returns in Hrem as [-> ->].
  unfold ret. intros [= <- <-]. split; [reflexivity|].
  exists paths, (VObj o'). split; [reflexivity|]. split; [|reflexivity].
  intros file Hf. destruct (Hin file Hf) as (text & Hfile & Hget).
  exists text. split; [exact Hfile|]. rewrite get_object, Hget. reflexivity.
Qed.

Lemma augment_folder_input sources remappings :
  augment (folder_input sources remappings) = Return (folder_augmented sources remappings).
Proof. reflexivity. Qed.

Lemma folder_augmented_settings sources remappings :
  get (folder_augmented sources remappings) "settings"
  = Return (VObj [("remappings", VArr (map VStr remappings) []);
                  ("outputSelection", selection per_contract_selectors whole_file_selectors)]).
Proof. reflexivity. Qed.

Lemma folder_settings_remappings remappings selected :
  get (VObj [("remappings", remappings); ("outputSelection", selected)]) "remappings"
  = Return remappings.
Proof. reflexivity. Qed.

(** X22. What [handle_multi_build] resolves with is the failure report of
    the subprocess, or a result with [success: true] whose remappings are
    the trimmed, non-blank lines of remappings.txt (none without the file),
    and whose [compiler_args] hold the version as given and a document
    with the content of every file that the pattern found. *)
Theorem folder_result_members task_dir compiler_version w v w' :
  handle_multi_build get_ast get_invariants shell checkSolcSelectInstalled
    globSync path_join task_dir compiler_version w = (Resolved v, w') ->
  (exists stderr, v = failure stderr)
  \/ exists paths sources,
       let remappings := remappings_in w (path_join task_dir "remappings.txt") in
       globSync (path_join task_dir "**/*.sol") w = Return paths
       /\ (forall file, In file paths ->
             exists text, files w !! file = Some text
               /\ get sources file = Return (VObj [("content", VStr text)]))
       /\ get v "success" = Return (VBool true)
       /\ get v "remappings" = Return (VArr (map VStr remappings) [])
       /\ get v "compiler_args"
          = Return (VObj [("version", VStr compiler_version);
                          ("compiler_json", folder_augmented sources remappings)]).
Proof.
  unfold handle_multi_build.
  destruct (gather globSync path_join task_dir w) as [[input|e] w1] eqn:Hg; [|discriminate].
  apply gather_returns in Hg as [-> (paths & sources & Hglob & Hsources & ->)].
  destruct (work_on_json get_ast get_invariants shell checkSolcSelectInstalled
              compiler_version _ (VStr "") w) as [[result|e] w2] eqn:Hwork; [|discriminate].
  intros [= <- <-].
  apply work_on_json_fulfils
    in Hwork as [Hfail|(augmented & settings & remappings & Ha & Hs & Hr & Hsucc & Hrem & Hargs)];
    [left; exact Hfail|].
  right. exists paths, sources. cbv zeta.
  rewrite augment_folder_input in Ha. injection Ha as <-.
  rewrite folder_augmented_settings in Hs. injection Hs as <-.
  rewrite folder_settings_remappings in Hr. injection Hr as <-.
  repeat split; assumption.
Qed.


(** X23. A path that the pattern finds and that cannot be read as a file
    makes [handle_multi_build] throw before anything is compiled or
    printed: [resolve] is never called, and the promise of [build] is never
    settled. *)
Theorem unreadable_source_never_settles task_dir compiler_version w paths file :
  globSync (path_join task_dir "**/*.sol") w = Return paths ->
  In file paths ->
  files w !! file = None ->
  exists missing,
    handle_multi_build get_ast get_invariants shell checkSolcSelectInstalled
      globSync path_join task_dir compiler_version w = (Unsettled (FsError missing), w)
    /\ In missing paths /\ files w !! missing = None.
Proof.
  intros Hglob Hin Hnone. unfold handle_multi_build, gather. unfold bind at 1.
  rewrite Hglob. unfold bind at 1.
  destruct (read_sources paths (VObj []) w) as [[build_sources|e] w1] eqn:Hread;
    apply read_sources_returns in Hread as [-> Hread].
  - destruct Hread as (o' & _ & Hall & _). destruct (Hall file Hin) as (text & Hfile & _).
    rewrite Hnone in Hfile. discriminate.
  - destruct Hread as (missing & Hm & Hfile & ->). exists missing. auto.
Qed.

End Folder.

(** ** The further properties on the examples *)

Lemma version_needs_the_letter_v_witness :
  version_number "0.8.20" = None
  /\ version_event "0.8.20" = ConsoleLog [VStr "Could not find version number"]
  /\ command_of true "0.8.20" input_hash
     = select_and_compile "undefined" (currentFile input_hash) (outputJson input_hash).
Proof.
  exact (version_needs_the_letter_v true "0.8.20" input_hash eq_refl).
Defined.

Lemma item_version_is_found_witness :
  long_version "0.8.20+commit.a1b79de6.Linux.g++" = Some "0.8.20+commit.a1b79de6"
  /\ version_number "v0.8.20+commit.a1b79de6" = Some "0.8.20".
Proof.
  exact (item_version_is_found "0" "8" "20" "a1b79de6" ".Linux.g++"
           eq_refl eq_refl eq_refl eq_refl eq_refl).
Defined.

Lemma remappings_round_trip_witness :
  remappings_of (Json.join nl ["@oz/=lib/oz/"; "ds-test/=lib/ds-test/src/"])
  = ["@oz/=lib/oz/"; "ds-test/=lib/ds-test/src/"].
Proof.
  apply (remappings_round_trip ["@oz/=lib/oz/"; "ds-test/=lib/ds-test/src/"]).
  repeat constructor.
Defined.

Lemma cache_miss_compiles_once_witness :
  exists p w' rest,
    work_on_json ast_ok invariants_ok compiling_shell true "v0.8.20" input (VStr "") no_files
    = (p, w')
    /\ trace w'
       = trace no_files
         ++ [version_event "v0.8.20"; Exec (command_of true "v0.8.20" (Md5.md5_hex input_text))]
         ++ rest
    /\ no_exec rest = true.
Proof.
  apply (cache_miss_compiles_once ast_ok invariants_ok compiling_shell true
           "v0.8.20" input (VStr "") input_text augmented_input augmented_text no_files);
    vm_compute; reflexivity.
Defined.

Lemma forge_config_wins_witness :
  auto_detect both_configs "project" no_files = (Return "forge", no_files).
Proof.
  apply (forge_config_wins both_configs "project" no_files
           ["contracts"; "hardhat.config.js"; "foundry.toml"] "").
  - reflexivity.
  - right. right. right. left. reflexivity.
Defined.

Lemma detected_project_is_known_witness :
  1%Z = 1%Z
  /\ ((exists err, Printed [VStr "Compiler version not specified"]
                   = Printed [VStr "Build failed"; err])
      \/ (exists e, Printed [VStr "Compiler version not specified"] = Caught e)
      \/ Printed [VStr "Compiler version not specified"]
         = Printed [VStr "Compiler version not specified"]).
Proof.
  eapply (detected_project_is_known ast_ok invariants_ok failing_shell true
            no_config one_source join_with_slash build_tool build_tool
            "project" no_files "solidity_folder" _ "project" None no_files
            1%Z (Printed [VStr "Compiler version not specified"]) no_files).
  - vm_compute. reflexivity.
  - reflexivity.
Defined.

Lemma build_info_results_follow_the_items_witness :
  exists result fs contents items results,
    build_tool "project" (files compiled_cache) = (Return result, fs)
    /\ get result "contents" = Return contents
    /\ iterate contents = Return items
    /\ built = VArr results []
    /\ compiled_in_turn ast_ok invariants_ok failing_shell true
         items results (World fs (dirs compiled_cache) (trace compiled_cache))
         (snd (handle_build_info_task ast_ok invariants_ok failing_shell true
                 "project" build_tool compiled_cache)).
Proof.
  apply (build_info_results_follow_the_items ast_ok invariants_ok failing_shell true
           "project" build_tool compiled_cache built
           (snd (handle_build_info_task ast_ok invariants_ok failing_shell true
                   "project" build_tool compiled_cache))).
  vm_compute. reflexivity.
Defined.

Lemma folder_result_members_witness :
  (exists stderr, folder_result = failure stderr)
  \/ exists paths sources,
       let remappings := remappings_in folder_world (join_with_slash "project" "remappings.txt") in
       one_source (join_with_slash "project" "**/*.sol") folder_world = Return paths
       /\ (forall file, In file paths ->
             exists text, files folder_world !! file = Some text
               /\ get sources file = Return (VObj [("content", VStr text)]))
       /\ get folder_result "success" = Return (VBool true)
       /\ get folder_result "remappings" = Return (VArr (map VStr remappings) [])
       /\ get folder_result "compiler_args"
          = Return (VObj [("version", VStr "v0.8.20");
                          ("compiler_json", folder_augmented sources remappings)]).
Proof.
  apply (folder_result_members ast_ok invariants_ok failing_shell true
           one_source join_with_slash "project" "v0.8.20" folder_world folder_result
           (snd (handle_multi_build ast_ok invariants_ok failing_shell true
                   one_source join_with_slash "project" "v0.8.20" folder_world))).
  vm_compute. reflexivity.
Defined.

Lemma unreadable_source_never_settles_witness :
  exists missing,
    handle_multi_build ast_ok invariants_ok failing_shell true
      two_paths join_with_slash "project" "v0.8.20" unreadable_world
    = (Unsettled (FsError missing), unreadable_world)
    /\ In missing ["A.sol"; "lib.sol"] /\ files unreadable_world !! missing = None.
Proof.
  apply (unreadable_source_never_settles ast_ok invariants_ok failing_shell true
           two_paths join_with_slash "project" "v0.8.20" unreadable_world
           ["A.sol"; "lib.sol"] "lib.sol").
  - reflexivity.
  - right. left. reflexivity.
  - vm_compute. reflexivity.
Defined.

Lemma item_failure_is_not_caught_witness :
  exists w',
    handle_build_info_task ast_ok invariants_ok failing_shell true
      "project" bad_build_tool compiled_cache
    = (Unsettled TypeError, w').
Proof.
  eexists.
  eapply (item_failure_is_not_caught ast_ok invariants_ok failing_shell true
            "project" bad_build_tool compiled_cache (files compiled_cache)
            build_info_with_bad_item (VBool true) _
            [VObj [("solcLongVersion", VStr "0.8.20+commit.a1b79de6.Linux.g++");
                   ("input", input)]]
            bad_item
            [VObj [("solcLongVersion", VStr "0.8.20+commit.a1b79de6.Linux.g++");
                   ("input", input)]]
            _ _ "v0.8.20+commit.a1b79de6" null_settings TypeError _).
  - reflexivity.
  - reflexivity.
  - reflexivity.
  - reflexivity.
  - reflexivity.
  - vm_compute. reflexivity.
  - reflexivity.
  - vm_compute. reflexivity.
Defined.
